(** * Profile extraction and cross-validation engine

    A shallow embedding of the two classes that make up the engine,

      - [ProfilePopulator]  (src/common/helper/profileUpdate/profile-update.ts)
      - [UserProfile]       (src/common/profile-validator/profile-validator.service.ts)

    followed by the properties established about them.

    Conventions of the embedding.

    - A JavaScript string is a Rocq [string] whose characters are UTF-16
      code units in the range U+0000..U+00FF.
    - A JavaScript number is a binary64 [float].
    - A call either returns, raises, or leaves the fragment of JavaScript
      that is embedded here ([OutOfModel]); see [result].
    - [await] is sequential composition; the JSON configuration files read
      with [readFile] are arguments of the functions that read them. *)

From Stdlib Require Import String Ascii List ZArith Bool Lia Floats Uint63.
Import ListNotations.

Local Open Scope string_scope.
Local Open Scope list_scope.

(* ===================================================================== *)
(** ** Outcomes of a call *)
(* ===================================================================== *)

Inductive exn : Type :=
| TypeError   (* property access or call on a value that does not support it *)
| IOError.    (* readFile rejected *)

Inductive result (A : Type) : Type :=
| Ok (a : A)            (* the call returns [a] *)
| Throw (e : exn)       (* the call raises (the promise rejects) *)
| OutOfModel.           (* behaviour that this embedding does not describe *)

Arguments Ok {A} a.
Arguments Throw {A} e.
Arguments OutOfModel {A}.

Definition bind {A B : Type} (m : result A) (k : A -> result B) : result B :=
  match m with
  | Ok a => k a
  | Throw e => Throw e
  | OutOfModel => OutOfModel
  end.

Declare Scope js_scope.
Delimit Scope js_scope with js.
Notation "x <- m ;; k" := (bind m (fun x => k))
  (at level 61, m at next level, right associativity) : js_scope.
Local Open Scope js_scope.

(* ===================================================================== *)
(** ** Strings *)
(* ===================================================================== *)

Definition isDigit (c : ascii) : bool :=
  let n := nat_of_ascii c in (48 <=? n)%nat && (n <=? 57)%nat.

Definition isLowerAlnum (c : ascii) : bool :=
  let n := nat_of_ascii c in
  isDigit c || ((97 <=? n)%nat && (n <=? 122)%nat).

(** WhiteSpace and LineTerminator code units below U+0100. *)
Definition isJsSpace (c : ascii) : bool :=
  let n := nat_of_ascii c in
  ((9 <=? n)%nat && (n <=? 13)%nat) || (n =? 32)%nat || (n =? 160)%nat.

(** [String.prototype.toLowerCase] on one code unit below U+0100. *)
Definition lowerChar (c : ascii) : ascii :=
  let n := nat_of_ascii c in
  if ((65 <=? n)%nat && (n <=? 90)%nat)
     || ((192 <=? n)%nat && (n <=? 222)%nat && negb (n =? 215)%nat)
  then ascii_of_nat (n + 32) else c.

Fixpoint toLowerCase (s : string) : string :=
  match s with
  | EmptyString => EmptyString
  | String c r => String (lowerChar c) (toLowerCase r)
  end.

Fixpoint trimStart (s : string) : string :=
  match s with
  | String c r => if isJsSpace c then trimStart r else s
  | EmptyString => EmptyString
  end.

Fixpoint rev_string (s acc : string) : string :=
  match s with
  | EmptyString => acc
  | String c r => rev_string r (String c acc)
  end.

Definition trimEnd (s : string) : string :=
  rev_string (trimStart (rev_string s "")) "".

Definition trim (s : string) : string := trimEnd (trimStart s).

(** [s.split(sep)] for a separator of one character: the pieces between
    the occurrences of [sep]; never empty. *)
Fixpoint split (sep : ascii) (s : string) : list string :=
  match s with
  | EmptyString => [EmptyString]
  | String c r =>
      if Ascii.eqb c sep then EmptyString :: split sep r
      else match split sep r with
           | p :: ps => String c p :: ps
           | [] => [String c EmptyString]
           end
  end.

Fixpoint allChars (p : ascii -> bool) (s : string) : bool :=
  match s with
  | EmptyString => true
  | String c r => p c && allChars p r
  end.

(** [s.replace(/[, ']/g, '')]. *)
Fixpoint stripSeparators (s : string) : string :=
  match s with
  | EmptyString => EmptyString
  | String c r =>
      if Ascii.eqb c "," || Ascii.eqb c " " || Ascii.eqb c "'"
      then stripSeparators r else String c (stripSeparators r)
  end.

(** [s.replace(/[^a-z0-9]+/g, '_')]: [inRun] tells that the previous
    character already belonged to the run being replaced. *)
Fixpoint collapseNonAlnum (inRun : bool) (s : string) : string :=
  match s with
  | EmptyString => EmptyString
  | String c r =>
      if isLowerAlnum c then String c (collapseNonAlnum false r)
      else if inRun then collapseNonAlnum true r
           else String "_" (collapseNonAlnum true r)
  end.

Definition digitVal (c : ascii) : Z := Z.of_nat (nat_of_ascii c) - 48.

Fixpoint digitsToZ (acc : Z) (s : string) : Z :=
  match s with
  | EmptyString => acc
  | String c r => digitsToZ (10 * acc + digitVal c) r
  end.

Definition floatOfZ (z : Z) : float := PrimFloat.of_uint63 (Uint63.of_Z z).

(* ===================================================================== *)
(** ** JavaScript values *)
(* ===================================================================== *)

(** The values that [JSON.parse] produces, and [undefined].  [JObj] lists
    the own properties of an object in enumeration order, each key once. *)
#[local] Set Warnings "-register-all".
Inductive JSValue : Type :=
| JUndefined
| JNull
| JBool (b : bool)
| JNum (n : float)
| JStr (s : string)
| JArr (elems : list JSValue)
| JObj (props : list (string * JSValue)).
#[local] Set Warnings "register-all".

(** ToBoolean. *)
Definition truthy (v : JSValue) : bool :=
  match v with
  | JUndefined | JNull => false
  | JBool b => b
  | JNum n => negb (PrimFloat.is_zero n || PrimFloat.is_nan n)
  | JStr s => negb (String.eqb s "")
  | JArr _ | JObj _ => true
  end.

Fixpoint assoc {A : Type} (k : string) (l : list (string * A)) : option A :=
  match l with
  | [] => None
  | (k', v) :: r => if String.eqb k k' then Some v else assoc k r
  end.

(** [obj[k] = v] on an object kept as a property list. *)
Fixpoint setProp {A : Type} (k : string) (v : A) (l : list (string * A))
  : list (string * A) :=
  match l with
  | [] => [(k, v)]
  | (k', v') :: r =>
      if String.eqb k k' then (k, v) :: r else (k', v') :: setProp k v r
  end.

(** Names that every object inherits from [Object.prototype]. *)
Definition objectPrototypeNames : list string :=
  [ "constructor"; "hasOwnProperty"; "isPrototypeOf"; "propertyIsEnumerable";
    "toLocaleString"; "toString"; "valueOf"; "__proto__";
    "__defineGetter__"; "__defineSetter__";
    "__lookupGetter__"; "__lookupSetter__" ].

Definition inherited (k : string) : bool :=
  existsb (String.eqb k) objectPrototypeNames.

(** [table[k]] on an object parsed from JSON: the own property if there is
    one, [undefined] ([None]) if there is none; a name inherited from
    [Object.prototype] yields a built-in function, which is not embedded. *)
Definition ownLookup {A : Type} (k : string) (l : list (string * A))
  : result (option A) :=
  match assoc k l with
  | Some v => Ok (Some v)
  | None => if inherited k then OutOfModel else Ok None
  end.

(** A canonical array index: "0", or digits without a leading zero. *)
Definition arrayIndex (k : string) : option nat :=
  match k with
  | EmptyString => None
  | String c r =>
      if allChars isDigit k && (negb (Ascii.eqb c "0") || String.eqb r "")
         && (String.length k <=? 9)%nat
      then Some (Z.to_nat (digitsToZ 0 k)) else None
  end.

Definition orUndefined (o : option JSValue) : JSValue :=
  match o with Some v => v | None => JUndefined end.

(** Names that an array, a string, a number or a boolean may inherit:
    the members of [Object.prototype], [Array.prototype],
    [String.prototype] and [Number.prototype] (those of
    [Boolean.prototype] are among them). *)
Definition builtinNames : list string :=
  objectPrototypeNames ++
  [ "at"; "concat"; "copyWithin"; "entries"; "every"; "fill"; "filter";
    "find"; "findIndex"; "findLast"; "findLastIndex"; "flat"; "flatMap";
    "forEach"; "group"; "groupToMap"; "includes"; "indexOf"; "join"; "keys";
    "lastIndexOf"; "length"; "map"; "pop"; "push"; "reduce"; "reduceRight";
    "reverse"; "shift"; "slice"; "some"; "sort"; "splice"; "toReversed";
    "toSorted"; "toSpliced"; "unshift"; "values"; "with";
    "anchor"; "big"; "blink"; "bold"; "charAt"; "charCodeAt"; "codePointAt";
    "endsWith"; "fixed"; "fontcolor"; "fontsize"; "isWellFormed"; "italics";
    "link"; "localeCompare"; "match"; "matchAll"; "normalize"; "padEnd";
    "padStart"; "repeat"; "replace"; "replaceAll"; "search"; "small";
    "split"; "startsWith"; "strike"; "sub"; "substr"; "substring"; "sup";
    "toLocaleLowerCase"; "toLocaleUpperCase"; "toLowerCase"; "toUpperCase";
    "toWellFormed"; "trim"; "trimEnd"; "trimLeft"; "trimRight"; "trimStart";
    "toExponential"; "toFixed"; "toPrecision" ].

Definition builtinName (k : string) : bool :=
  existsb (String.eqb k) builtinNames.

(** A name that is neither an own property of a primitive or an array nor
    inherited by it: the access yields [undefined].  An inherited name
    yields a built-in function, which is not embedded. *)
Definition notOwn (part : string) : result JSValue :=
  if builtinName part then OutOfModel else Ok JUndefined.

(** [v[part]] for a string [part]. *)
Definition getMember (v : JSValue) (part : string) : result JSValue :=
  match v with
  | JUndefined | JNull => Throw TypeError
  | JObj props => o <- ownLookup part props ;; Ok (orUndefined o)
  | JArr elems =>
      match arrayIndex part with
      | Some i => Ok (orUndefined (nth_error elems i))
      | None =>
          if String.eqb part "length"
          then Ok (JNum (floatOfZ (Z.of_nat (List.length elems))))
          else notOwn part
      end
  | JStr s =>
      match arrayIndex part with
      | Some i =>
          Ok (match String.get i s with
              | Some c => JStr (String c EmptyString)
              | None => JUndefined
              end)
      | None =>
          if String.eqb part "length"
          then Ok (JNum (floatOfZ (Z.of_nat (String.length s))))
          else notOwn part
      end
  | JBool _ | JNum _ => notOwn part
  end.

(** The characters that can start a numeric literal: a digit, a sign, a
    decimal point, and the I of Infinity. *)
Definition canStartNumeric (c : ascii) : bool :=
  isDigit c || Ascii.eqb c "+" || Ascii.eqb c "-" || Ascii.eqb c "."
  || Ascii.eqb c "I".

(** The Number value for the rational [p / q] ([0 <= p], [0 < q]): the
    nearest binary64, ties to even. *)
Definition nearest (p q : Z) : float :=
  if (p =? 0)%Z then 0%float
  else
    let scaled (e : Z) : Z * Z :=
      if (0 <=? e)%Z then (p, q * 2 ^ e)%Z else (p * 2 ^ (- e), q)%Z in
    let e0 := (Z.log2 p - Z.log2 q - 53)%Z in
    let e1 := let (n, d) := scaled e0 in
              if (2 ^ 53 <=? n / d)%Z then (e0 + 1)%Z else e0 in
    let e := Z.max e1 (-1074) in
    let (n, d) := scaled e in
    let m := (n / d)%Z in
    let r := (n mod d)%Z in
    let m' := match (2 * r ?= d)%Z with
              | Lt => m
              | Gt => (m + 1)%Z
              | Eq => if Z.even m then m else (m + 1)%Z
              end in
    Z.ldexp (PrimFloat.of_uint63 (Uint63.of_Z m')) e.

Fixpoint spanDigits (s : string) : string * string :=
  match s with
  | String c r =>
      if isDigit c then let (d, rest) := spanDigits r in (String c d, rest)
      else (EmptyString, s)
  | EmptyString => (EmptyString, EmptyString)
  end.

Definition decimalDigits (s : string) : option Z :=
  match s with
  | EmptyString => None
  | _ => if allChars isDigit s then Some (digitsToZ 0 s) else None
  end.

(** ExponentPart, or nothing: the exponent. *)
Definition exponentPart (s : string) : option Z :=
  match s with
  | EmptyString => Some 0%Z
  | String c r =>
      if Ascii.eqb c "e" || Ascii.eqb c "E" then
        match r with
        | String "+" d => decimalDigits d
        | String "-" d => option_map Z.opp (decimalDigits d)
        | _ => decimalDigits r
        end
      else None
  end.

(** The value of [digits * 10 ^ e10]. *)
Definition decimalValue (digits : string) (e10 : Z) : float :=
  let n := digitsToZ 0 digits in
  if (0 <=? e10)%Z then nearest (n * 10 ^ e10) 1 else nearest n (10 ^ (- e10)).

(** StrUnsignedDecimalLiteral. *)
Definition unsignedDecimal (s : string) : option float :=
  if String.eqb s "Infinity" then Some infinity
  else
    let (int, r1) := spanDigits s in
    let (frac, r2) :=
      match r1 with
      | String "." r => spanDigits r
      | _ => (EmptyString, r1)
      end in
    if String.eqb int "" && String.eqb frac "" then None
    else match exponentPart r2 with
         | Some ex =>
             Some (decimalValue (int ++ frac)
                     (ex - Z.of_nat (String.length frac)))
         | None => None
         end.

Definition radixDigit (radix : Z) (c : ascii) : option Z :=
  let n := Z.of_nat (nat_of_ascii c) in
  let v := if isDigit c then (n - 48)%Z
           else if ((97 <=? n) && (n <=? 102))%Z then (n - 87)%Z
           else if ((65 <=? n) && (n <=? 70))%Z then (n - 55)%Z
           else 16%Z in
  if (v <? radix)%Z then Some v else None.

Fixpoint radixDigits (radix acc : Z) (s : string) : option Z :=
  match s with
  | EmptyString => Some acc
  | String c r =>
      match radixDigit radix c with
      | Some v => radixDigits radix (radix * acc + v)%Z r
      | None => None
      end
  end.

(** NonDecimalIntegerLiteral: [None] when [s] does not start with a radix
    prefix, [Some None] when what follows the prefix is no literal. *)
Definition nonDecimal (s : string) : option (option Z) :=
  match s with
  | String "0" (String x r) =>
      let radix :=
        if Ascii.eqb x "x" || Ascii.eqb x "X" then Some 16%Z
        else if Ascii.eqb x "o" || Ascii.eqb x "O" then Some 8%Z
        else if Ascii.eqb x "b" || Ascii.eqb x "B" then Some 2%Z
        else None in
      match radix with
      | Some b =>
          Some (match r with
                | EmptyString => None
                | _ => radixDigits b 0 r
                end)
      | None => None
      end
  | _ => None
  end.

(** StrNumericLiteral: the Number value, [NaN] when [t] is no literal. *)
Definition numericLiteral (t : string) : float :=
  match nonDecimal t with
  | Some (Some n) => nearest n 1
  | Some None => nan
  | None =>
      let value :=
        match t with
        | String "+" r => unsignedDecimal r
        | String "-" r => option_map PrimFloat.opp (unsignedDecimal r)
        | _ => unsignedDecimal t
        end in
      match value with Some x => x | None => nan end
  end.

(** [Number(s)] for a string (StringToNumber): white space is trimmed
    and the empty literal is 0; an unsigned decimal integer of at most 15
    digits is below 2^53 and converts exactly; any other text that can
    start a numeric literal is read by the grammar of StrNumericLiteral,
    and a text that cannot is [NaN]. *)
Definition stringToNumber (s : string) : result float :=
  let t := trim s in
  match t with
  | EmptyString => Ok 0%float
  | String c _ =>
      if allChars isDigit t && (String.length t <=? 15)%nat
      then Ok (floatOfZ (digitsToZ 0 t))
      else if canStartNumeric c then Ok (numericLiteral t)
      else Ok nan
  end.

(** Strict equality [a === b].  Two objects (arrays) are equal only when
    they are the same object; the profile and the documents are parsed
    separately and share none. *)
Definition strictEq (a b : JSValue) : bool :=
  match a, b with
  | JUndefined, JUndefined => true
  | JNull, JNull => true
  | JBool x, JBool y => Bool.eqb x y
  | JNum x, JNum y => PrimFloat.eqb x y
  | JStr x, JStr y => String.eqb x y
  | _, _ => false
  end.

Definition boolToNumber (b : bool) : float := if b then 1%float else 0%float.

(** Loose equality [a == b].  Comparing an object or an array with a
    primitive goes through ToPrimitive, which is [OutOfModel]; two objects
    are compared by identity, as in [strictEq]. *)
Definition looseEq (a b : JSValue) : result bool :=
  match a, b with
  | (JUndefined | JNull), (JUndefined | JNull) => Ok true
  | (JUndefined | JNull), _ | _, (JUndefined | JNull) => Ok false
  | JNum x, JStr y => n <- stringToNumber y ;; Ok (PrimFloat.eqb x n)
  | JStr x, JNum y => n <- stringToNumber x ;; Ok (PrimFloat.eqb n y)
  | JBool x, JBool y => Ok (Bool.eqb x y)
  | JBool x, JNum y => Ok (PrimFloat.eqb (boolToNumber x) y)
  | JNum x, JBool y => Ok (PrimFloat.eqb x (boolToNumber y))
  | JBool x, JStr y =>
      n <- stringToNumber y ;; Ok (PrimFloat.eqb (boolToNumber x) n)
  | JStr x, JBool y =>
      n <- stringToNumber x ;; Ok (PrimFloat.eqb n (boolToNumber y))
  | JNum x, JNum y => Ok (PrimFloat.eqb x y)
  | JStr x, JStr y => Ok (String.eqb x y)
  | (JArr _ | JObj _), (JArr _ | JObj _) => Ok false
  | _, _ => OutOfModel
  end.

(* ===================================================================== *)
(** ** Calendar dates: [Date], and date-fns [parse], [isValid], [format] *)
(* ===================================================================== *)

(** The local calendar day of a valid [Date]; an Invalid Date is [None]. *)
Record CalDate : Type := mkDate { year : Z; month : Z; day : Z }.

Definition isLeapYear (y : Z) : bool :=
  ((y mod 4 =? 0) && negb (y mod 100 =? 0) || (y mod 400 =? 0))%Z.

Definition daysInMonth (y m : Z) : Z :=
  if (m =? 2)%Z then (if isLeapYear y then 29 else 28)
  else if ((m =? 4) || (m =? 6) || (m =? 9) || (m =? 11))%Z then 30 else 31.

Definition digitChar (d : Z) : ascii := ascii_of_nat (48 + Z.to_nat d).

Definition pad2 (n : Z) : string :=
  String (digitChar (n / 10 mod 10)) (String (digitChar (n mod 10)) "").

Definition pad4 (n : Z) : string :=
  String (digitChar (n / 1000 mod 10))
    (String (digitChar (n / 100 mod 10)) (pad2 n)).

(** date-fns [format(d, 'yyyy-MM-dd')], for the years 0..9999. *)
Definition formatYMD (d : CalDate) : string :=
  pad4 (year d) ++ "-" ++ pad2 (month d) ++ "-" ++ pad2 (day d).

(** The tokens that occur in [possibleFormats]. *)
Inductive FormatToken : Type :=
| TYear4            (* yyyy *)
| TMonth2           (* MM *)
| TDay2             (* dd *)
| TLiteral (c : ascii).

Definition isLetter (c : ascii) : bool :=
  let n := nat_of_ascii c in
  ((65 <=? n)%nat && (n <=? 90)%nat) || ((97 <=? n)%nat && (n <=? 122)%nat).

(** Splits a date-fns format string into tokens; [None] when the string
    uses a pattern other than [yyyy], [MM], [dd] and literal separators. *)
Fixpoint tokenize (fuel : nat) (f : string) : option (list FormatToken) :=
  match fuel with
  | O => None
  | S fuel' =>
      match f with
      | EmptyString => Some []
      | String "y" (String "y" (String "y" (String "y" r))) =>
          match r with
          | String "y" _ => None
          | _ => option_map (cons TYear4) (tokenize fuel' r)
          end
      | String "M" (String "M" r) =>
          match r with
          | String "M" _ => None
          | _ => option_map (cons TMonth2) (tokenize fuel' r)
          end
      | String "d" (String "d" r) =>
          match r with
          | String "d" _ => None
          | _ => option_map (cons TDay2) (tokenize fuel' r)
          end
      | String c r =>
          if isLetter c || Ascii.eqb c "'" then None
          else option_map (cons (TLiteral c)) (tokenize fuel' r)
      end
  end.

(** The longest prefix of at most [n] digits, with the rest of the string
    (the regular expression [^\d{1,n}] of date-fns' numeric parsers). *)
Fixpoint takeDigits (n : nat) (s : string) : string * string :=
  match n, s with
  | S n', String c r =>
      if isDigit c then let (d, rest) := takeDigits n' r in (String c d, rest)
      else (EmptyString, s)
  | _, _ => (EmptyString, s)
  end.

Record PartialDate : Type :=
  mkPartial { pYear : option Z; pMonth : option Z; pDay : option Z }.

Definition numericField (n : nat) (s : string) : option (Z * string) :=
  let (d, rest) := takeDigits n s in
  match d with
  | EmptyString => None
  | _ => Some (digitsToZ 0 d, rest)
  end.

(** Consumes the input token by token, as date-fns [parse] does. *)
Fixpoint parseTokens (ts : list FormatToken) (s : string) (acc : PartialDate)
  : option PartialDate :=
  match ts with
  | [] =>
      (* what is left over must be blank *)
      if allChars isJsSpace s then Some acc else None
  | TYear4 :: ts' =>
      match numericField 4 s with
      | Some (y, rest) =>
          parseTokens ts' rest (mkPartial (Some y) (pMonth acc) (pDay acc))
      | None => None
      end
  | TMonth2 :: ts' =>
      match numericField 2 s with
      | Some (m, rest) =>
          parseTokens ts' rest (mkPartial (pYear acc) (Some m) (pDay acc))
      | None => None
      end
  | TDay2 :: ts' =>
      match numericField 2 s with
      | Some (d, rest) =>
          parseTokens ts' rest (mkPartial (pYear acc) (pMonth acc) (Some d))
      | None => None
      end
  | TLiteral c :: ts' =>
      match s with
      | String c' rest =>
          if Ascii.eqb c c' then parseTokens ts' rest acc else None
      | EmptyString => None
      end
  end.

(** The validation step of date-fns [parse]: the year is positive, the
    month is 1..12 and the day exists in that month of that year. *)
Definition validateDate (p : PartialDate) : option CalDate :=
  match pYear p, pMonth p, pDay p with
  | Some y, Some m, Some d =>
      if ((0 <? y) && (1 <=? m) && (m <=? 12)
          && (1 <=? d) && (d <=? daysInMonth y m))%Z
      then Some (mkDate y m d) else None
  | _, _, _ => None
  end.

(** date-fns [parse(input, fmt, new Date())] followed by [isValid], for a
    format that names year, month and day: [Ok (Some d)] is a valid date,
    [Ok None] an Invalid Date. *)
Definition parse (input fmt : string) : result (option CalDate) :=
  match tokenize (S (String.length fmt)) fmt with
  | None => OutOfModel
  | Some ts =>
      match parseTokens ts input (mkPartial None None None) with
      | None => Ok None
      | Some p =>
          match pYear p, pMonth p, pDay p with
          | Some _, Some _, Some _ => Ok (validateDate p)
          | _, _, _ => OutOfModel   (* fields taken from the reference date *)
          end
      end
  end.

(** date-fns [format(d, 'yyyy-MM-dd')]; years outside 0..9999 print with
    a sign or more digits and are not embedded. *)
Definition format_yyyy_MM_dd (d : CalDate) : result string :=
  if ((0 <=? year d) && (year d <=? 9999))%Z then Ok (formatYMD d)
  else OutOfModel.

(* ===================================================================== *)
(** ** Documents and configuration *)
(* ===================================================================== *)

(** A VC as [buildVCs] and the verification job assemble it.  The builder
    leaves [vcType] and [docFormat] undefined ([None]). *)
Record VC : Type := mkVC {
  docType : string;
  vcType : option string;
  docFormat : option string;
  content : JSValue
}.

(** What [JSON.parse] of a [vcPaths/<docType>.json] file yields: a falsy
    value, or the object mapping a profile field to a dotted path. *)
Inductive PathTable : Type :=
| NoTable
| Table (paths : list (string * string)).

(** One entry of a [docToFieldMaps/<docType>.json] file. *)
Record Variant : Type := mkVariant {
  v_vcType : string;
  v_format : string;
  v_fields : list (string * string)
}.

(** [vcs.find(vc => vc.docType === docType)]. *)
Definition findByDocType (d : string) (vcs : list VC) : option VC :=
  find (fun vc => String.eqb (docType vc) d) vcs.

Definition optEqb (o : option string) (s : string) : bool :=
  match o with Some x => String.eqb x s | None => false end.

(** [vcs.find(vc => vc.vcType === vcType && vc.docFormat === format
                     && vc.docType === fileName)]. *)
Definition findVariantVC (obj : Variant) (fileName : string) (vcs : list VC)
  : option VC :=
  find (fun vc => optEqb (vcType vc) (v_vcType obj)
                  && optEqb (docFormat vc) (v_format obj)
                  && String.eqb (docType vc) fileName) vcs.

(* ===================================================================== *)
(** ** class ProfilePopulator *)
(* ===================================================================== *)

Module ProfilePopulator.

Definition possibleFormats : list string :=
  [ "yyyy-MM-dd"; "dd-MM-yyyy"; "MM-dd-yyyy";
    "yyyy/MM/dd"; "dd/MM/yyyy"; "MM/dd/yyyy" ].

Definition romanMap (c : ascii) : option float :=
  match c with
  | "I"%char => Some 1%float
  | "V"%char => Some 5%float
  | "X"%char => Some 10%float
  | "L"%char => Some 50%float
  | "C"%char => Some 100%float
  | "D"%char => Some 500%float
  | "M"%char => Some 1000%float
  | _ => None
  end.

(** ToNumber of a table entry: [undefined] becomes [NaN]. *)
Definition entryToNumber (o : option float) : float :=
  match o with Some x => x | None => nan end.

(** [romanMap[roman[i + 1]] || 0]; past the end [roman[i + 1]] is
    [undefined], which the table does not hold. *)
Definition nextValue (rest : string) : float :=
  match rest with
  | String c _ => match romanMap c with Some x => x | None => 0%float end
  | EmptyString => 0%float
  end.

(** The loop of [romanToInt], from position [i] on with [total] so far. *)
Fixpoint romanLoop (roman : string) (total : float) : float :=
  match roman with
  | EmptyString => total
  | String c rest =>
      let current := entryToNumber (romanMap c) in
      let next := nextValue rest in
      if PrimFloat.ltb current next
      then romanLoop rest (total - current)%float
      else romanLoop rest (total + current)%float
  end.

Definition romanToInt (roman : string) : float := romanLoop roman 0%float.

(** [romanToInt] applied to whatever [getValue] returned: a number or a
    boolean has no [length], so the loop body never runs.  Arrays and
    objects are walked like strings by the source; that is not embedded. *)
Definition romanToIntOf (value : JSValue) : result float :=
  match value with
  | JStr s => Ok (romanToInt s)
  | JNum _ | JBool _ => Ok 0%float
  | JUndefined | JNull => Throw TypeError
  | JArr _ | JObj _ => OutOfModel
  end.

(** One step of the [reduce] in [getValue]:
    [acc && acc[part] !== undefined ? acc[part] : null]. *)
Definition getValueStep (acc : JSValue) (part : string) : result JSValue :=
  if truthy acc
  then m <- getMember acc part ;;
       Ok (match m with JUndefined => JNull | _ => m end)
  else Ok JNull.

Fixpoint reduce (step : JSValue -> string -> result JSValue)
    (parts : list string) (acc : JSValue) : result JSValue :=
  match parts with
  | [] => Ok acc
  | p :: ps => a <- step acc p ;; reduce step ps a
  end.

(** [pathValue] is [vcPaths[field]]: a string, or [undefined] ([None]). *)
Definition getValue (vc : VC) (pathValue : option string) : result JSValue :=
  match pathValue with
  | None => Ok JNull
  | Some p =>
      if String.eqb p "" then Ok JNull
      else reduce getValueStep (split "." p) (content vc)
  end.

Definition nullish (o : option string) : JSValue :=
  match o with Some s => JStr s | None => JNull end.

Definition handleNameFields (vc : VC) (vcPaths : list (string * string))
    (field : string) : result JSValue :=
  p <- ownLookup "name" vcPaths ;;
  fullname <- getValue vc p ;;
  if negb (truthy fullname) then Ok JNull
  else match fullname with
       | JStr s =>
           let nameParts := split " " s in
           let firstName := nullish (nth_error nameParts 0) in
           let middleName :=
             if (List.length nameParts =? 3)%nat
             then nullish (nth_error nameParts 1) else JNull in
           let lastName :=
             if (2 <=? List.length nameParts)%nat
             then nullish (nth_error nameParts (List.length nameParts - 1))
             else JNull in
           if String.eqb field "firstName" then Ok firstName
           else if String.eqb field "middleName" then Ok middleName
           else if String.eqb field "lastName" then Ok lastName
           else if String.eqb field "fatherName" then Ok middleName
           else Ok JNull
       | _ => Throw TypeError        (* fullname.split is not a function *)
       end.

Definition handleGenderField (vc : VC) (pathValue : option string)
  : result JSValue :=
  value <- getValue vc pathValue ;;
  match value with
  | JStr s =>
      if String.eqb s "M" || String.eqb s "Male" then Ok (JStr "male")
      else if String.eqb s "F" || String.eqb s "Female" then Ok (JStr "female")
      else Ok JNull
  | _ => Ok JNull
  end.

Definition handleClassField (vc : VC) (pathValue : option string)
  : result JSValue :=
  value <- getValue vc pathValue ;;
  if negb (truthy value) then Ok JNull
  else intValue <- romanToIntOf value ;;
       if negb (truthy (JNum intValue)) then Ok value
       else Ok (JNum intValue).

Definition handleDisabilityTypeField (vc : VC) (pathValue : option string)
  : result JSValue :=
  value <- getValue vc pathValue ;;
  if negb (truthy value) then Ok JNull
  else match value with
       | JStr s => Ok (JStr (collapseNonAlnum false (toLowerCase (trim s))))
       | _ => Throw TypeError        (* value.trim is not a function *)
       end.

(** [Number(sanitizedValue)] and the numeric guards of [handleIncomeValue]. *)
Definition incomeOf (value : JSValue) : result JSValue :=
  match value with
  | JNull => Ok JNull
  | JNum n =>
      if PrimFloat.is_nan n || PrimFloat.ltb n 0%float then Ok JNull
      else Ok (JNum n)
  | JStr s =>
      let sanitizedValue := stripSeparators s in
      n <- stringToNumber sanitizedValue ;; Ok (JNum n)
  | _ => Throw TypeError             (* value.replace is not a function *)
  end.

Definition handleIncomeValue (vc : VC) (pathValue : option string)
  : result JSValue :=
  value <- getValue vc pathValue ;;
  incomeOf value.

Section Engine.

(** [new Date(s)] followed by [isValid]: the local calendar day of the
    parsed date, or [None] for an Invalid Date.  Outside the ISO formats
    the result is left to the JavaScript engine by ECMAScript. *)
Variable newDate : string -> result (option CalDate).

(** [readFile] and [JSON.parse] of [vcPaths/<docType>.json]; [None] when
    the file cannot be read. *)
Variable vcPathsFile : string -> option PathTable.

Fixpoint tryFormats (inputDate : string) (formats : list string)
  : result JSValue :=
  match formats with
  | [] => Ok JNull
  | dateFormat :: rest =>
      parsedDate <- parse inputDate dateFormat ;;
      match parsedDate with
      | Some d => s <- format_yyyy_MM_dd d ;; Ok (JStr s)
      | None => tryFormats inputDate rest
      end
  end.

Definition formatDateToISO (inputDate : string) : result JSValue :=
  nativeParsedDate <- newDate inputDate ;;
  match nativeParsedDate with
  | Some d => s <- format_yyyy_MM_dd d ;; Ok (JStr s)
  | None => tryFormats inputDate possibleFormats
  end.

Definition handleDobValue (vc : VC) (pathValue : option string)
  : result JSValue :=
  value <- getValue vc pathValue ;;
  if negb (truthy value) then Ok JNull
  else match value with
       | JStr s => formatDateToISO s
       | _ => OutOfModel             (* new Date of a non-string *)
       end.

Definition getFieldValueFromVC (vc : VC) (field : string) : result JSValue :=
  match vcPathsFile (docType vc) with
  | None => Throw IOError
  | Some NoTable => Ok JNull
  | Some (Table vcPaths) =>
      pathValue <- ownLookup field vcPaths ;;
      if String.eqb field "disabilityType"
      then handleDisabilityTypeField vc pathValue
      else if String.eqb field "class" then handleClassField vc pathValue
      else if String.eqb field "dob" then handleDobValue vc pathValue
      else if String.eqb field "annualIncome"
      then handleIncomeValue vc pathValue
      else getValue vc pathValue
  end.

(** What the inner loop of [buildProfile] leaves behind for one field:
    [value], [docsUsed], and (not in the source) the VCs that were handed
    to [getFieldValueFromVC], in order. *)
Record FieldScan : Type := mkScan {
  scanValue : JSValue;
  scanDocsUsed : list string;
  scanConsulted : list VC
}.

(** The loop [for (const docType of vcArray)], entered with the current
    [value] and the VCs consulted so far. *)
Fixpoint scanCandidates (vcs : list VC) (field : string)
    (vcArray : list string) (value : JSValue) (seen : list VC)
  : result FieldScan :=
  match vcArray with
  | [] => Ok (mkScan value [] seen)
  | d :: rest =>
      match findByDocType d vcs with
      | Some vc =>
          value' <- getFieldValueFromVC vc field ;;
          if truthy value'
          then Ok (mkScan value' [docType vc] (seen ++ [vc]))   (* break *)
          else scanCandidates vcs field rest value' (seen ++ [vc])
      | None => scanCandidates vcs field rest value seen
      end
  end.

Definition scanField (vcs : list VC) (field : string) (vcArray : list string)
  : result FieldScan :=
  scanCandidates vcs field vcArray JNull [].

Record Profile : Type := mkProfile {
  userProfile : list (string * JSValue);
  validationData : list (string * list string)
}.

(** The loop [for (const field in profileFields)]; [profileFields] holds
    the entries of [configFiles/vcArray.json] in enumeration order. *)
Fixpoint buildFields (vcs : list VC)
    (profileFields : list (string * list string)) (acc : Profile)
  : result Profile :=
  match profileFields with
  | [] => Ok acc
  | (field, vcArray) :: rest =>
      r <- scanField vcs field vcArray ;;
      buildFields vcs rest
        (mkProfile (setProp field (scanValue r) (userProfile acc))
                   (setProp field (scanDocsUsed r) (validationData acc)))
  end.

Definition buildProfile (profileFields : list (string * list string))
    (vcs : list VC) : result Profile :=
  buildFields vcs profileFields (mkProfile [] []).

End Engine.

End ProfilePopulator.

(* ===================================================================== *)
(** ** class UserProfile *)
(* ===================================================================== *)

Module UserProfile.

(** The regular expressions of [parseToStandardFormat] are sequences of
    single digits and literal characters. *)
Inductive PatItem : Type :=
| PDigit                (* \d *)
| PChar (c : ascii).

Definition digits (n : nat) : list PatItem := repeat PDigit n.

Inductive DateLayout : Type := DayFirst | YearFirst.

(** The table [formats]: the pattern, and whether the day comes first
    ('DD-MM-YYYY', 'DD/MM/YYYY') or the year ('YYYY-MM-DD', 'YYYY/MM/DD'). *)
Definition formats : list (list PatItem * DateLayout) :=
  [ (digits 2 ++ [PChar "-"] ++ digits 2 ++ [PChar "-"] ++ digits 4, DayFirst);
    (digits 4 ++ [PChar "-"] ++ digits 2 ++ [PChar "-"] ++ digits 2, YearFirst);
    (digits 2 ++ [PChar "/"] ++ digits 2 ++ [PChar "/"] ++ digits 4, DayFirst);
    (digits 4 ++ [PChar "/"] ++ digits 2 ++ [PChar "/"] ++ digits 2, YearFirst) ].

(** The text matched by the pattern at the start of [s]. *)
Fixpoint matchPrefix (pat : list PatItem) (s : string) : option string :=
  match pat, s with
  | [], _ => Some EmptyString
  | PDigit :: p, String c r =>
      if isDigit c then option_map (String c) (matchPrefix p r) else None
  | PChar x :: p, String c r =>
      if Ascii.eqb x c then option_map (String c) (matchPrefix p r) else None
  | _ :: _, EmptyString => None
  end.

(** [dateStr.match(regex)]: the leftmost match, anywhere in the string. *)
Fixpoint regexMatch (pat : list PatItem) (s : string) : option string :=
  match matchPrefix pat s with
  | Some m => Some m
  | None =>
      match s with
      | String _ r => regexMatch pat r
      | EmptyString => None
      end
  end.

Fixpoint firstFormat (dateStr : string)
    (fs : list (list PatItem * DateLayout)) : JSValue :=
  match fs with
  | [] => JNull
  | (regex, layout) :: rest =>
      match regexMatch regex dateStr with
      | Some m =>
          match layout with
          | DayFirst =>
              let day := substring 0 2 m in
              let month := substring 3 2 m in
              let year := substring 6 4 m in
              JStr (year ++ "-" ++ month ++ "-" ++ day)
          | YearFirst => JStr m
          end
      | None => firstFormat dateStr rest
      end
  end.

Definition parseToStandardFormat (dateStr : JSValue) : result JSValue :=
  match dateStr with
  | JStr s => Ok (firstFormat s formats)
  | _ => Throw TypeError             (* dateStr.match is not a function *)
  end.

(** One step of the [reduce] in [getAttributeValue]: [acc && acc[part]]. *)
Definition getAttributeStep (acc : JSValue) (part : string) : result JSValue :=
  if truthy acc then getMember acc part else Ok acc.

Definition getAttributeValue (vc : VC) (pathValue : option string)
  : result JSValue :=
  if optEqb (docFormat vc) "json"
  then match pathValue with
       | Some p => ProfilePopulator.reduce getAttributeStep (split "." p)
                     (content vc)
       | None => Throw TypeError     (* pathValue.split on undefined *)
       end
  else Ok JUndefined.

Definition isNameAttribute (a : string) : bool :=
  existsb (String.eqb a) ["firstName"; "middleName"; "lastName"].

(** [v.toLowerCase()] on an arbitrary value. *)
Definition lowerOf (v : JSValue) : result string :=
  match v with
  | JStr s => Ok (toLowerCase s)
  | _ => Throw TypeError
  end.

(** [nameValues[i]] for the number [i] read from nameFieldsPosition.json
    ([None] when the table has no entry). *)
Definition elementAt (nameValues : list string) (i : option Z) : JSValue :=
  match i with
  | Some z =>
      if (0 <=? z)%Z
      then match nth_error nameValues (Z.to_nat z) with
           | Some s => JStr s
           | None => JUndefined
           end
      else JUndefined
  | None => JUndefined
  end.

Section Config.

(** fieldValues.json: attribute, then lower-case profile value, then the
    raw synonyms accepted for it.  (This file and the next are read at the
    start of every call of [matchAttributeValue]; they are taken to be
    readable.) *)
Variable fieldValues : list (string * list (string * list string)).

(** nameFieldsPosition.json: doc type, then name attribute, then the
    position of that part in the full name. *)
Variable nameFieldsPosition : list (string * list (string * Z)).

(** [readFile] and [JSON.parse] of [docToFieldMaps/<fileName>.json];
    [None] when the file cannot be read. *)
Variable docToFieldMaps : string -> option (list Variant).

(** config.json: attribute, then the doc types that may confirm it. *)
Variable config : list (string * list string).

(** The body of [if (vc) { ... }] in [matchAttributeValue]: every path
    through it returns or raises. *)
Definition compareWithVC (obj : Variant) (vc : VC)
    (profileAttribute : string) (userProfile : list (string * JSValue))
  : result bool :=
  own <- ownLookup profileAttribute (v_fields obj) ;;
  pathValue <-
    (if isNameAttribute profileAttribute && optEqb (vcType vc) "digilocker"
     then ownLookup "name" (v_fields obj) else Ok own) ;;
  attributeValue <- getAttributeValue vc pathValue ;;
  values <- ownLookup profileAttribute fieldValues ;;
  match values with
  | Some values =>
      stored <- ownLookup profileAttribute userProfile ;;
      attribute <- lowerOf (orUndefined stored) ;;
      match assoc attribute values with
      | Some synonyms =>
          a <- lowerOf attributeValue ;;
          Ok (existsb (String.eqb a) synonyms)
      | None => Throw TypeError      (* no [includes] to call *)
      end
  | None =>
      attributeValue <-
        (if isNameAttribute profileAttribute
            && optEqb (vcType vc) "digilocker"
         then match attributeValue with
              | JStr s =>
                  let nameValues := split " " s in
                  positions <- ownLookup (docType vc) nameFieldsPosition ;;
                  match positions with
                  | Some positions =>
                      i <- ownLookup profileAttribute positions ;;
                      Ok (elementAt nameValues i)
                  | None => Throw TypeError
                  end
              | _ => Throw TypeError  (* attributeValue.split *)
              end
         else Ok attributeValue) ;;
      if String.eqb profileAttribute "dob"
      then standardDate <- parseToStandardFormat attributeValue ;;
           if truthy standardDate
           then stored <- ownLookup profileAttribute userProfile ;;
                Ok (strictEq (orUndefined stored) standardDate)
           else Ok false
      else stored <- ownLookup profileAttribute userProfile ;;
           looseEq attributeValue (orUndefined stored)
  end.

(** The loop [for (const obj of fileContent)]. *)
Fixpoint matchVariants (fileContent : list Variant) (fileName : string)
    (profileAttribute : string) (vcs : list VC)
    (userProfile : list (string * JSValue)) : result bool :=
  match fileContent with
  | [] => Ok false
  | obj :: rest =>
      match findVariantVC obj fileName vcs with
      | Some vc => compareWithVC obj vc profileAttribute userProfile
      | None => matchVariants rest fileName profileAttribute vcs userProfile
      end
  end.

Definition matchAttributeValue (fileName profileAttribute : string)
    (vcs : list VC) (userProfile : list (string * JSValue)) : result bool :=
  match docToFieldMaps fileName with
  | None => Throw IOError
  | Some fileContent =>
      matchVariants fileContent fileName profileAttribute vcs userProfile
  end.

Record VerificationResult : Type := mkVerification {
  attribute : string;
  verified : bool;
  docsUsed : list string
}.

(** The loop [for (const fileName of files)], entered with [verified] and
    [docsUsed] so far; the third component (not in the source) lists the
    doc types for which [matchAttributeValue] was called. *)
Fixpoint matchFiles (files : list string) (profileAttribute : string)
    (vcs : list VC) (userProfileInfo : list (string * JSValue))
    (verified : bool) (docsUsed evaluated : list string)
  : result (bool * list string * list string) :=
  match files with
  | [] => Ok (verified, docsUsed, evaluated)
  | fileName :: rest =>
      matched <- matchAttributeValue fileName profileAttribute vcs
                   userProfileInfo ;;
      if matched
      then matchFiles rest profileAttribute vcs userProfileInfo
             true (docsUsed ++ [fileName]) (evaluated ++ [fileName])
      else matchFiles rest profileAttribute vcs userProfileInfo
             verified docsUsed (evaluated ++ [fileName])
  end.

(** One iteration of [for (const profileAttribute of Object.keys(...))]. *)
Definition matchAttribute (profileAttribute : string) (vcs : list VC)
    (userProfileInfo : list (string * JSValue))
  : result (VerificationResult * list string) :=
  files <- ownLookup profileAttribute config ;;
  match files with
  | None => Throw TypeError          (* undefined is not iterable *)
  | Some files =>
      r <- matchFiles files profileAttribute vcs userProfileInfo false [] [] ;;
      let '(verified, docsUsed, evaluated) := r in
      Ok (mkVerification profileAttribute verified docsUsed, evaluated)
  end.

Fixpoint matchKeys (keys : list string) (vcs : list VC)
    (userProfileInfo : list (string * JSValue))
    (response : list VerificationResult) : result (list VerificationResult) :=
  match keys with
  | [] => Ok response
  | profileAttribute :: rest =>
      r <- matchAttribute profileAttribute vcs userProfileInfo ;;
      matchKeys rest vcs userProfileInfo (response ++ [fst r])
  end.

Definition matchUserData (userProfileInfo : list (string * JSValue))
    (vcs : list VC) : result (list VerificationResult) :=
  matchKeys (map fst userProfileInfo) vcs userProfileInfo [].

End Config.

End UserProfile.

(* ===================================================================== *)
(** ** The Date parser of V8 *)
(* ===================================================================== *)

(** The service runs on Node.js, whose engine is V8.  For a string that is
    not in an ISO format V8 falls back on its legacy parser, which collects
    the numbers of the string and reads three of them as month, day, year
    when the first one can be a day of the month (1..31), and as year,
    month, day otherwise.  This module describes that parser on the
    shapes [n-n-yyyy], [n/n/yyyy] and [yyyy/n/n] ([n] of one or two
    digits); every other input is [OutOfModel]. *)
Module V8.

(** A run of at most four digits at the start of [s], its length and the
    rest; [None] when [s] does not start with a digit. *)
Definition number (s : string) : option (Z * nat * string) :=
  let (d, rest) := takeDigits 4 s in
  match d with
  | EmptyString => None
  | _ => Some (digitsToZ 0 d, String.length d, rest)
  end.

Definition isSeparator (c : ascii) : bool :=
  Ascii.eqb c "-" || Ascii.eqb c "/".

(** Three numbers with the same separator between them, and nothing else. *)
Definition threeNumbers (s : string)
  : option ((Z * nat) * (Z * nat) * (Z * nat) * ascii) :=
  match number s with
  | Some (a, la, String sep1 r1) =>
      match number r1 with
      | Some (b, lb, String sep2 r2) =>
          match number r2 with
          | Some (c, lc, EmptyString) =>
              if isSeparator sep1 && Ascii.eqb sep1 sep2
              then Some ((a, la), (b, lb), (c, lc), sep1) else None
          | _ => None
          end
      | _ => None
      end
  | _ => None
  end.

Definition isDay (n : Z) : bool := ((1 <=? n) && (n <=? 31))%Z.
Definition isMonth (n : Z) : bool := ((1 <=? n) && (n <=? 12))%Z.

Definition short (l : nat) : bool := (l <=? 2)%nat.

Definition newDate (s : string) : result (option CalDate) :=
  match threeNumbers s with
  | Some ((a, la), (b, lb), (c, lc), sep) =>
      if short la && short lb && (lc =? 4)%nat && (100 <=? c)%Z then
        (* the first number is at most 99 *)
        if isDay a then
          (* month, day, year *)
          if isMonth a && isDay b
          then if (b <=? daysInMonth c a)%Z then Ok (Some (mkDate c a b))
               else OutOfModel       (* the day overflows into the next month *)
          else Ok None
        else Ok None                 (* year, month, day with day = c > 31 *)
      else if (la =? 4)%nat && short lb && short lc && (100 <=? a)%Z
              && Ascii.eqb sep "/" then
        (* year, month, day *)
        if isMonth b && isDay c
        then if (c <=? daysInMonth a b)%Z then Ok (Some (mkDate a b c))
             else OutOfModel
        else Ok None
      else OutOfModel
  | None => OutOfModel
  end.

End V8.

(* ===================================================================== *)
(** ** Vocabulary for the properties *)
(* ===================================================================== *)

(** The value of a roman numeral as the specification words it: scan
    from left to right; a symbol whose value is less than the value of the
    next symbol is subtracted, any other symbol is added. *)
Definition symbolValue (c : ascii) : option Z :=
  match c with
  | "I"%char => Some 1%Z
  | "V"%char => Some 5%Z
  | "X"%char => Some 10%Z
  | "L"%char => Some 50%Z
  | "C"%char => Some 100%Z
  | "D"%char => Some 500%Z
  | "M"%char => Some 1000%Z
  | _ => None
  end.

Definition isRomanSymbol (c : ascii) : bool :=
  match symbolValue c with Some _ => true | None => false end.

Definition valueOrZero (c : ascii) : Z :=
  match symbolValue c with Some v => v | None => 0%Z end.

Fixpoint subtractivePairValue (s : string) : Z :=
  match s with
  | EmptyString => 0%Z
  | String c rest =>
      let next := match rest with
                  | String c' _ => valueOrZero c'
                  | EmptyString => 0%Z
                  end in
      ((if valueOrZero c <? next then - valueOrZero c else valueOrZero c)
       + subtractivePairValue rest)%Z
  end.

(** [p * 2 ^ k] *)
Definition shiftp (p : positive) (k : Z) : positive :=
  match k with Zpos n => Pos.iter xO p n | _ => p end.

(** The binary64 datum of the integer [z], for [|z| < 2 ^ 53]: a mantissa
    of 53 bits and the exponent that goes with it. *)
Definition canon (z : Z) : spec_float :=
  match z with
  | Z0 => S754_zero false
  | Zpos p =>
      S754_finite false (shiftp p (53 - Zpos (digits2_pos p))%Z)
        (Zpos (digits2_pos p) - 53)%Z
  | Zneg p =>
      S754_finite true (shiftp p (53 - Zpos (digits2_pos p))%Z)
        (Zpos (digits2_pos p) - 53)%Z
  end.

(** The float [f] is the integer [z]. *)
Definition isInt (z : Z) (f : float) : Prop := Prim2SF f = canon z.

Definition romanSymbols : list ascii :=
  ["I"; "V"; "X"; "L"; "C"; "D"; "M"]%char.

(** All strings of [n] roman symbols. *)
Fixpoint romanStrings (n : nat) : list string :=
  match n with
  | O => [EmptyString]
  | S k => flat_map (fun c => map (String c) (romanStrings k)) romanSymbols
  end.

(** The VCs that the candidate doc types [cands] select from [vcs], in
    the order of the candidates. *)
Definition foundVCs (vcs : list VC) (cands : list string) : list VC :=
  flat_map (fun d => match findByDocType d vcs with
                     | Some vc => [vc]
                     | None => []
                     end) cands.

(** [vcs] without the VCs whose doc type already occurred earlier. *)
Fixpoint firstPerDocType (vcs : list VC) : list VC :=
  match vcs with
  | [] => []
  | vc :: r =>
      vc :: filter (fun w => negb (String.eqb (docType w) (docType vc)))
              (firstPerDocType r)
  end.

(** The last element of a list, if any. *)
Definition lastOf {A : Type} (l : list A) : option A :=
  match rev l with
  | [] => None
  | x :: _ => Some x
  end.

(** [userProfile[field]] and [validationData[field]] of what
    [buildProfile] returned; [None] when it did not return or the field
    is not set. *)
Definition fieldValue (r : result ProfilePopulator.Profile) (field : string)
  : option JSValue :=
  match r with
  | Ok out => assoc field (ProfilePopulator.userProfile out)
  | _ => None
  end.

Definition fieldDocs (r : result ProfilePopulator.Profile) (field : string)
  : option (list string) :=
  match r with
  | Ok out => assoc field (ProfilePopulator.validationData out)
  | _ => None
  end.

Section BuilderVocabulary.

Variable newDate : string -> result (option CalDate).
Variable vcPathsFile : string -> option PathTable.

(** Candidate [d] contributes nothing to [field]: no VC of that doc type
    is supplied, or the one that is found yields a falsy value. *)
Definition silent (vcs : list VC) (field d : string) : Prop :=
  match findByDocType d vcs with
  | None => True
  | Some vc =>
      exists v, ProfilePopulator.getFieldValueFromVC newDate vcPathsFile
                  vc field = Ok v /\ truthy v = false
  end.

End BuilderVocabulary.

(** A value that the path did not reach. *)
Definition missing (v : JSValue) : Prop := v = JUndefined \/ v = JNull.

Section ValidatorVocabulary.

Variable fieldValues : list (string * list (string * list string)).
Variable nameFieldsPosition : list (string * list (string * Z)).
Variable docToFieldMaps : string -> option (list Variant).

(** Candidate [fileName] confirms [profileAttribute]. *)
Definition isMatch (profileAttribute : string) (vcs : list VC)
    (userProfileInfo : list (string * JSValue)) (fileName : string) : bool :=
  match UserProfile.matchAttributeValue fieldValues nameFieldsPosition
          docToFieldMaps fileName profileAttribute vcs userProfileInfo with
  | Ok true => true
  | _ => false
  end.

(** [matchAttributeValue] returns a boolean for [fileName]. *)
Definition decides (profileAttribute : string) (vcs : list VC)
    (userProfileInfo : list (string * JSValue)) (fileName : string) : Prop :=
  exists b, UserProfile.matchAttributeValue fieldValues nameFieldsPosition
              docToFieldMaps fileName profileAttribute vcs userProfileInfo
            = Ok b.

Variable config : list (string * list string).

(** The doc types configured for an attribute. *)
Definition candidates (profileAttribute : string) : list string :=
  match assoc profileAttribute config with
  | Some files => files
  | None => []
  end.

(** The verdict that scanning all candidates gives. *)
Definition verdict (vcs : list VC) (userProfileInfo : list (string * JSValue))
    (profileAttribute : string) : UserProfile.VerificationResult :=
  UserProfile.mkVerification profileAttribute
    (existsb (isMatch profileAttribute vcs userProfileInfo)
       (candidates profileAttribute))
    (filter (isMatch profileAttribute vcs userProfileInfo)
       (candidates profileAttribute)).

End ValidatorVocabulary.

(* ===================================================================== *)
(** ** Sample documents and configuration tables *)
(* ===================================================================== *)

Module Samples.

(** A document as [buildVCs] produces it. *)
Definition doc (d : string) (c : JSValue) : VC := mkVC d None None c.

(** A document as the verification job produces it. *)
Definition jsonDoc (d t : string) (c : JSValue) : VC :=
  mkVC d (Some t) (Some "json") c.

Definition subject (props : list (string * JSValue)) : JSValue :=
  JObj [("credentialSubject", JObj props)].

(** An engine whose [Date] accepts no string at all. *)
Definition rejectingDate (_ : string) : result (option CalDate) := Ok None.

Definition marksheetClass7 : VC := doc "marksheet" (subject [("class", JNum 7)]).

Definition incomeDoc (v : JSValue) : VC :=
  doc "incomeCertificate" (subject [("annualIncome", v)]).

Definition incomePath : option string := Some "credentialSubject.annualIncome".

(** vcPaths/<docType>.json *)
Definition vcPathsFile (d : string) : option PathTable :=
  if String.eqb d "aadhaar" then
    Some (Table [("name", "credentialSubject.name");
                 ("gender", "credentialSubject.gender");
                 ("dob", "credentialSubject.dob")])
  else if String.eqb d "casteCertificate" then
    Some (Table [("gender", "credentialSubject.gender");
                 ("caste", "credentialSubject.caste")])
  else if String.eqb d "marksheet" then
    Some (Table [("gender", "credentialSubject.studentGender");
                 ("class", "credentialSubject.class")])
  else if String.eqb d "incomeCertificate" then
    Some (Table [("annualIncome", "credentialSubject.annualIncome")])
  else None.

(** configFiles/vcArray.json *)
Definition profileFields : list (string * list string) :=
  [ ("firstName", ["aadhaar"]);
    ("middleName", ["aadhaar"]);
    ("lastName", ["aadhaar"]);
    ("fatherName", ["aadhaar"]);
    ("gender", ["aadhaar"; "casteCertificate"; "marksheet"]);
    ("annualIncome", ["incomeCertificate"]);
    ("class", ["marksheet"]) ].

Definition genderCandidates : list string :=
  ["aadhaar"; "casteCertificate"; "marksheet"].

Definition aadhaarRavi : VC :=
  doc "aadhaar" (subject [("name", JStr "Ravi Kumar Singh")]).

Definition aadhaarMale : VC :=
  doc "aadhaar" (subject [("name", JStr "Ravi Kumar Singh");
                          ("gender", JStr "male")]).

Definition casteFemale : VC :=
  doc "casteCertificate" (subject [("gender", JStr "female")]).

Definition marksheetMale : VC :=
  doc "marksheet" (subject [("studentGender", JStr "male")]).

Definition marksheetFemale : VC :=
  doc "marksheet" (subject [("studentGender", JStr "female")]).

Definition incomeZero : VC := incomeDoc (JNum 0).

(** Both earlier candidates answer. *)
Definition vcsTwoAnswers : list VC := [aadhaarMale; casteFemale; marksheetMale].

(** The aadhaar document is silent about gender. *)
Definition vcsSecondAnswers : list VC := [aadhaarRavi; casteFemale; marksheetMale].

(** Two aadhaar documents; only the second one carries a gender. *)
Definition vcsTwoAadhaar : list VC :=
  [aadhaarRavi; aadhaarMale; marksheetFemale].

(** fieldValues.json *)
Definition fieldValues : list (string * list (string * list string)) :=
  [ ("gender", [("male", ["m"; "male"]); ("female", ["f"; "female"])]);
    ("caste", [("sc", ["sc"; "scheduled caste"]);
               ("obc", ["obc"; "other backward class"])]) ].

(** nameFieldsPosition.json *)
Definition nameFieldsPosition : list (string * list (string * Z)) :=
  [ ("aadhaar", [("firstName", 0%Z); ("middleName", 1%Z); ("lastName", 2%Z)]) ].

Definition aadhaarVariants : list Variant :=
  [ mkVariant "digilocker" "json"
      [("name", "credentialSubject.name");
       ("gender", "credentialSubject.gender");
       ("dob", "credentialSubject.dob")];
    mkVariant "w3c" "json"
      [("firstName", "credentialSubject.givenName");
       ("gender", "credentialSubject.gender");
       ("dob", "credentialSubject.birthDate")] ].

Definition marksheetVariants : list Variant :=
  [ mkVariant "w3c" "json" [("dob", "credentialSubject.studentDob")] ].

Definition casteVariants : list Variant :=
  [ mkVariant "w3c" "json" [("caste", "credentialSubject.caste")] ].

(** docToFieldMaps/<docType>.json *)
Definition docToFieldMaps (fileName : string) : option (list Variant) :=
  if String.eqb fileName "aadhaar" then Some aadhaarVariants
  else if String.eqb fileName "marksheet" then Some marksheetVariants
  else if String.eqb fileName "casteCertificate" then Some casteVariants
  else None.

(** config.json *)
Definition config : list (string * list string) :=
  [ ("firstName", ["aadhaar"]);
    ("gender", ["aadhaar"]);
    ("dob", ["aadhaar"; "marksheet"]);
    ("caste", ["casteCertificate"]) ].

Definition aadhaarDob (t dobKey dob : string) : VC :=
  jsonDoc "aadhaar" t (subject [(dobKey, JStr dob)]).

Definition marksheetDob (dob : string) : VC :=
  jsonDoc "marksheet" "w3c" (subject [("studentDob", JStr dob)]).

Definition profileDob : list (string * JSValue) := [("dob", JStr "2003-05-08")].

(** The aadhaar VC states another birthday, the marksheet the stored one. *)
Definition vcsSecondMatches : list VC :=
  [aadhaarDob "w3c" "birthDate" "01-01-2000"; marksheetDob "08-05-2003"].

(** Neither document states the stored birthday. *)
Definition vcsNoMatch : list VC :=
  [aadhaarDob "w3c" "birthDate" "01-01-2000"; marksheetDob "02-02-2002"].

(** Two aadhaar VCs, one per variant: the digilocker one states another
    birthday, the w3c one the stored birthday. *)
Definition vcsTwoVariants : list VC :=
  [aadhaarDob "w3c" "birthDate" "08-05-2003";
   aadhaarDob "digilocker" "dob" "01-01-2000"].

(** An aadhaar VC that carries no birthday at all. *)
Definition aadhaarWithoutDob : VC :=
  jsonDoc "aadhaar" "w3c" (subject [("givenName", JStr "Ravi")]).

(** A caste certificate that carries no caste. *)
Definition casteWithoutCaste : VC :=
  jsonDoc "casteCertificate" "w3c" (subject [("holder", JStr "Ravi")]).

Definition casteGeneral : VC :=
  jsonDoc "casteCertificate" "w3c" (subject [("caste", JStr "General")]).

Definition profileSC : list (string * JSValue) := [("caste", JStr "SC")].

Definition profileGeneral : list (string * JSValue) :=
  [("caste", JStr "General")].

End Samples.

(* ===================================================================== *)
(** ** The rest of the builder: documents in, database rows out *)
(* ===================================================================== *)

Module Documents.

(** A row of [user_docs] as [buildVCs] reads it.  [doc_data] is a string
    ([JStr], to be parsed) or a value that is already parsed. *)
Record UserDoc : Type := mkDoc {
  doc_id : string;
  doc_subtype : string;
  doc_data : JSValue
}.

Section Parser.

(** [JSON.parse]; [None] when it raises a SyntaxError. *)
Variable jsonParse : string -> option JSValue.

(** [typeof doc.doc_data === 'string' ? JSON.parse(doc.doc_data)
                                      : doc.doc_data] *)
Definition docData (doc : UserDoc) : option JSValue :=
  match doc_data doc with
  | JStr s => jsonParse s
  | v => Some v
  end.

(** [`${errorMessage}:`], the message that [buildVCs] hands to
    [Logger.error] (the caught error is its second argument). *)
Definition invalidJsonMessage (doc : UserDoc) : string :=
  String.append (String.append "Invalid JSON format in doc " (doc_id doc)) ":".

(** The loop of [buildVCs]: the VCs pushed, and the messages handed to
    [Logger.error], both in order. *)
Fixpoint buildVCs (userDocs : list UserDoc) : list VC * list string :=
  match userDocs with
  | [] => ([], [])
  | doc :: rest =>
      let (vcs, errors) := buildVCs rest in
      match docData doc with
      | Some data => (mkVC (doc_subtype doc) None None data :: vcs, errors)
      | None => (vcs, invalidJsonMessage doc :: errors)
      end
  end.

End Parser.

End Documents.

Module Persistence.

(** [profile.k]: the property, or [undefined]. *)
Definition prop (profile : list (string * JSValue)) (k : string) : JSValue :=
  orUndefined (assoc k profile).

(** An object parsed from JSON has a [toString] that can be called only
    when it has no own property of that name: then it inherits
    [Object.prototype.toString]. *)
Definition ownToString (props : list (string * JSValue)) : bool :=
  match assoc "toString" props with Some _ => true | None => false end.

(** ToString of [v] raises: [v] is an object with an own [toString], or
    an array that holds such a value ([Array.prototype.join] converts
    every element). *)
Fixpoint stringRaises (v : JSValue) : bool :=
  match v with
  | JObj props => ownToString props
  | JArr elems => existsb stringRaises elems
  | _ => false
  end.

(** An array of one element is joined as that element is. *)
Fixpoint unwrap (v : JSValue) : JSValue :=
  match v with
  | JArr [e] => unwrap e
  | _ => v
  end.

(** [Number(String(v))] for an element [v] of an array that is joined:
    [undefined] and null are joined as the empty string, a number other
    than -0 is read back from its text as it is, "true", "false" and
    "[object Object]" are no numeric literals, and neither is a text with
    the comma that joins two elements. *)
Definition joinedNumber (v : JSValue) : result float :=
  match unwrap v with
  | JUndefined | JNull => Ok 0%float
  | JBool _ => Ok nan
  | JNum n => Ok (if PrimFloat.is_zero n then 0%float else n)
  | JStr s => stringToNumber s
  | JObj _ => Ok nan
  | JArr [] => Ok 0%float
  | JArr _ => Ok nan
  end.

(** [Number(v)].  An object or an array goes through ToPrimitive: the
    inherited [valueOf] returns the value itself, so [toString] decides. *)
Definition toNumber (v : JSValue) : result float :=
  match v with
  | JNum n => Ok n
  | JStr s => stringToNumber s
  | JBool b => Ok (boolToNumber b)
  | JNull => Ok 0%float
  | JUndefined => Ok nan
  | JObj props => if ownToString props then Throw TypeError else Ok nan
  | JArr _ => if stringRaises v then Throw TypeError else joinedNumber v
  end.

(** [v ? Number(v) : null] *)
Definition numberOrNull (v : JSValue) : result JSValue :=
  if truthy v then n <- toNumber v ;; Ok (JNum n) else Ok JNull.

Definition copied : list string :=
  [ "studentType"; "previousYearMarks"; "dob"; "state"; "udid";
    "disabilityType"; "disabilityRange"; "bankAccountHolderName";
    "bankAccountNumber"; "bankIfscCode"; "bankName"; "bankAddress";
    "branchCode"; "nspOtr"; "tuitionAndAdminFeePaid"; "miscFeePaid";
    "currentSchoolName" ].

Definition copy (profile : list (string * JSValue)) (k : string)
  : string * JSValue := (k, prop profile k).

(** [buildUserDataAndInfo]: the two object literals, property by property. *)
Definition buildUserDataAndInfo (profile : list (string * JSValue))
  : result (list (string * JSValue) * list (string * JSValue)) :=
  let userData :=
    map (copy profile) ["firstName"; "lastName"; "middleName"; "dob"] in
  annualIncome <- numberOrNull (prop profile "annualIncome") ;;
  class <- numberOrNull (prop profile "class") ;;
  let userInfo :=
    map (copy profile) ["fatherName"; "gender"; "caste"; "aadhaar"]
    ++ [("annualIncome", annualIncome); ("class", class)]
    ++ map (copy profile) copied in
  Ok (userData, userInfo).

(** The counting loop of [updateDatabase]:
    [for (const field in profile) if (!profile[field]) cnt++]. *)
Fixpoint countEmpty (profile : list (string * JSValue)) : nat :=
  match profile with
  | [] => 0
  | (_, v) :: rest =>
      if negb (truthy v) then S (countEmpty rest) else countEmpty rest
  end.

(** [const profFilled = cnt === 0] *)
Definition profFilled (profile : list (string * JSValue)) : bool :=
  (countEmpty profile =? 0)%nat.

End Persistence.

(* ===================================================================== *)
(** ** More vocabulary *)
(* ===================================================================== *)

(** The characters of a slug: a-z, 0-9 and the underscore. *)
Definition slugChar (c : ascii) : bool := isLowerAlnum c || Ascii.eqb c "_".

(** No two underscores in a row; [prev] tells that the character before
    the string is an underscore. *)
Fixpoint noUnderscoreRun (prev : bool) (s : string) : bool :=
  match s with
  | EmptyString => true
  | String c r =>
      if Ascii.eqb c "_" then negb prev && noUnderscoreRun true r
      else noUnderscoreRun false r
  end.

(** What [handleDisabilityTypeField] makes of a string. *)
Definition slugOf (s : string) : string :=
  collapseNonAlnum false (toLowerCase (trim s)).

(** The characters an amount is written with: digits and the separators
    that [handleIncomeValue] removes. *)
Definition isAmountChar (c : ascii) : bool :=
  isDigit c || Ascii.eqb c "," || Ascii.eqb c " " || Ascii.eqb c "'".

(** Every doc type that is a candidate of some field. *)
Definition allCandidates (profileFields : list (string * list string))
  : list string :=
  flat_map snd profileFields.

Definition isCandidate (profileFields : list (string * list string))
    (vc : VC) : bool :=
  existsb (String.eqb (docType vc)) (allCandidates profileFields).

(** [m] is an instance of the pattern: a digit for every [\d] and the
    very character for every literal, and nothing more. *)
Fixpoint instanceOf (pat : list UserProfile.PatItem) (m : string) : Prop :=
  match pat, m with
  | [], EmptyString => True
  | UserProfile.PDigit :: p, String c r => isDigit c = true /\ instanceOf p r
  | UserProfile.PChar x :: p, String c r => c = x /\ instanceOf p r
  | _, _ => False
  end.

(** The two layouts in which [parseToStandardFormat] returns a date. *)
Definition yearFirstHyphen : list UserProfile.PatItem :=
  UserProfile.digits 4 ++ [UserProfile.PChar "-"] ++ UserProfile.digits 2
  ++ [UserProfile.PChar "-"] ++ UserProfile.digits 2.

Definition yearFirstSlash : list UserProfile.PatItem :=
  UserProfile.digits 4 ++ [UserProfile.PChar "/"] ++ UserProfile.digits 2
  ++ [UserProfile.PChar "/"] ++ UserProfile.digits 2.

(** Day, month and year written day first, and year first. *)
Definition dayFirst (sep d1 d2 m1 m2 y1 y2 y3 y4 : ascii) : string :=
  String d1 (String d2 (String sep (String m1 (String m2 (String sep
    (String y1 (String y2 (String y3 (String y4 EmptyString))))))))).

Definition yearFirst (sep d1 d2 m1 m2 y1 y2 y3 y4 : ascii) : string :=
  String y1 (String y2 (String y3 (String y4 (String sep (String m1
    (String m2 (String sep (String d1 (String d2 EmptyString))))))))).

Definition eightDigits (d1 d2 m1 m2 y1 y2 y3 y4 : ascii) : Prop :=
  Forall (fun c => isDigit c = true) [d1; d2; m1; m2; y1; y2; y3; y4].

(** No segment of the path is the name of a built-in member. *)
Definition plainPath (p : string) : bool :=
  forallb (fun part => negb (builtinName part)) (split "." p).

(** [undefined], null, a boolean, a number or a string. *)
Definition isPrimitive (v : JSValue) : bool :=
  match v with
  | JArr _ | JObj _ => false
  | _ => true
  end.

(** The entry of an attribute that no document confirms. *)
Definition unverified (profileAttribute : string)
  : UserProfile.VerificationResult :=
  UserProfile.mkVerification profileAttribute false [].

(* ===================================================================== *)
(** ** More sample documents and tables *)
(* ===================================================================== *)

Module MoreSamples.

Definition disabilityDoc (v : JSValue) : VC :=
  Samples.doc "disabilityCertificate"
    (Samples.subject [("disabilityType", v)]).

Definition disabilityPath : option string :=
  Some "credentialSubject.disabilityType".

Definition classDoc (v : JSValue) : VC :=
  Samples.doc "marksheet" (Samples.subject [("class", v)]).

Definition classPath : option string := Some "credentialSubject.class".

(** A document of a type that no field lists. *)
Definition passport : VC :=
  Samples.doc "passport" (Samples.subject [("gender", JStr "other")]).

(** What [buildProfile] returns for [Samples.vcsSecondAnswers]. *)
Definition builtSecond : ProfilePopulator.Profile :=
  Eval vm_compute in
    match ProfilePopulator.buildProfile Samples.rejectingDate
            Samples.vcPathsFile Samples.profileFields
            Samples.vcsSecondAnswers with
    | Ok out => out
    | _ => ProfilePopulator.mkProfile [] []
    end.

(** A configuration that lists a doc type without a path file. *)
Definition fieldsWithBirthCertificate : list (string * list string) :=
  [ ("gender", ["aadhaar"]); ("dob", ["birthCertificate"; "aadhaar"]) ].

Definition birthCertificate : VC :=
  Samples.doc "birthCertificate" (Samples.subject [("dob", JStr "2003-05-08")]).

(** A profile with an income of 0 and a class given as a number. *)
Definition profileZeroIncome : list (string * JSValue) :=
  [ ("firstName", JStr "Ravi"); ("annualIncome", JNum 0); ("class", JNum 7) ].

Definition rowsZeroIncome
  : list (string * JSValue) * list (string * JSValue) :=
  Eval vm_compute in
    match Persistence.buildUserDataAndInfo profileZeroIncome with
    | Ok rows => rows
    | _ => ([], [])
    end.

(** A profile whose class is an object with a property named toString. *)
Definition profileOddClass : list (string * JSValue) :=
  [ ("annualIncome", JStr "1.5");
    ("class", JObj [("toString", JStr "VII")]) ].

(** A parser that knows two texts. *)
Definition parseTwo (s : string) : option JSValue :=
  if String.eqb s "{}" then Some (JObj [])
  else if String.eqb s "null" then Some JNull
  else None.

Definition goodDoc : Documents.UserDoc :=
  Documents.mkDoc "d1" "aadhaar" (JStr "{}").

Definition parsedDoc : Documents.UserDoc :=
  Documents.mkDoc "d2" "marksheet" (Samples.subject [("class", JStr "VII")]).

Definition badDoc : Documents.UserDoc :=
  Documents.mkDoc "d3" "incomeCertificate" (JStr "{annualIncome:").

(** What [matchUserData] returns for [Samples.vcsSecondMatches]. *)
Definition matchedSecond : list UserProfile.VerificationResult :=
  [UserProfile.mkVerification "dob" true ["marksheet"]].

(** A profile with a key that config.json does not list. *)
Definition profileWithIncome : list (string * JSValue) :=
  [ ("dob", JStr "2003-05-08"); ("income", JNum 120000) ].

(** A configuration that lists a doc type without a variants file. *)
Definition configWithPassport : list (string * list string) :=
  [ ("dob", ["marksheet"; "passport"; "aadhaar"]) ].

(** A variant and a VC in a format other than JSON. *)
Definition pdfVariant : Variant :=
  mkVariant "w3c" "pdf" [("firstName", "credentialSubject.givenName")].

Definition pdfDoc : VC :=
  mkVC "aadhaar" (Some "w3c") (Some "pdf")
    (Samples.subject [("givenName", JStr "Ravi")]).

Definition profileNoFirstName : list (string * JSValue) :=
  [ ("firstName", JNull) ].

Definition casteVariant : Variant :=
  mkVariant "w3c" "json" [("caste", "credentialSubject.caste")].

Definition casteScheduled : VC :=
  Samples.jsonDoc "casteCertificate" "w3c"
    (Samples.subject [("caste", JStr "Scheduled Caste")]).

(** An equivalence table whose synonyms are written with capitals. *)
Definition fieldValuesCapitals : list (string * list (string * list string)) :=
  [ ("caste", [("sc", ["SC"; "Scheduled Caste"])]) ].

Definition dobVariant : Variant :=
  mkVariant "w3c" "json" [("dob", "credentialSubject.studentDob")].

End MoreSamples.

(* ===================================================================== *)
(** ** Properties of the transforms *)
(* ===================================================================== *)

Import ProfilePopulator.

Lemma bind_inv {A B : Type} (m : result A) (k : A -> result B) (b : B) :
  bind m k = Ok b -> exists a, m = Ok a /\ k a = Ok b.
Proof. destruct m as [a | e | ]; simpl; try discriminate. eauto. Qed.

(** The loop of [romanToInt] reads one symbol: it subtracts the symbol's
    value when the next symbol is worth more and adds it otherwise. *)
Lemma romanLoop_step (c : ascii) (rest : string) (v total : float) :
  romanMap c = Some v ->
  romanLoop (String c rest) total =
    if PrimFloat.ltb v (nextValue rest)
    then romanLoop rest (total - v)%float
    else romanLoop rest (total + v)%float.
Proof. intros H. simpl. rewrite H. reflexivity. Qed.

Lemma isRomanSymbol_In (c : ascii) :
  isRomanSymbol c = true -> In c romanSymbols.
Proof.
  destruct c as [[] [] [] [] [] [] [] []]; intros H;
    try discriminate H; simpl; tauto.
Qed.

Lemma romanStrings_complete (s : string) :
  allChars isRomanSymbol s = true -> In s (romanStrings (String.length s)).
Proof.
  induction s as [ | c r IH]; intros H; [now left | ].
  cbn [allChars] in H. apply andb_true_iff in H. destruct H as [Hc Hr].
  cbn [String.length romanStrings].
  apply in_flat_map. exists c. split.
  - now apply isRomanSymbol_In.
  - apply in_map. now apply IH.
Qed.

Lemma romanToInt_agrees_on (n : nat) :
  map romanToInt (romanStrings n)
  = map (fun s => floatOfZ (subtractivePairValue s)) (romanStrings n) ->
  forall s, String.length s = n -> allChars isRomanSymbol s = true ->
            romanToInt s = floatOfZ (subtractivePairValue s).
Proof.
  intros Hmap s Hlen Hs.
  apply (proj1 map_ext_in_iff Hmap).
  rewrite <- Hlen. now apply romanStrings_complete.
Qed.

(** On every numeral of at most five symbols [romanToInt] is the value
    that the subtractive-pair rule gives. *)
Lemma romanToInt_subtractive_pairs (s : string) :
  (String.length s <= 5)%nat ->
  allChars isRomanSymbol s = true ->
  romanToInt s = floatOfZ (subtractivePairValue s).
Proof.
  intros Hlen.
  assert (H : (String.length s = 0 \/ String.length s = 1 \/
               String.length s = 2 \/ String.length s = 3 \/
               String.length s = 4 \/ String.length s = 5)%nat) by lia.
  destruct H as [H | [H | [H | [H | [H | H]]]]];
    (apply (romanToInt_agrees_on _) with (2 := H); vm_compute; reflexivity).
Qed.

(** A symbol outside the table poisons the total: the result is [NaN]
    for ["7"], not 0. *)
Example romanToInt_not_roman : romanToInt "7" = nan.
Proof. reflexivity. Qed.

Lemma handleClassField_falsy_conversion (vc : VC) (pathValue : option string)
    (value : JSValue) (z : float) :
  getValue vc pathValue = Ok value ->
  truthy value = true ->
  romanToIntOf value = Ok z ->
  truthy (JNum z) = false ->
  handleClassField vc pathValue = Ok value.
Proof.
  intros Hv Ht Hz Hf. unfold handleClassField.
  rewrite Hv. cbn [bind]. rewrite Ht. cbn [negb].
  rewrite Hz. cbn [bind]. rewrite Hf. reflexivity.
Qed.

Lemma float_add_nan (x : float) : (x + nan)%float = nan.
Proof.
  apply Prim2SF_inj. rewrite FloatAxioms.add_spec.
  change (Prim2SF nan) with S754_nan. destruct (Prim2SF x); reflexivity.
Qed.

Lemma float_nan_add (x : float) : (nan + x)%float = nan.
Proof. apply Prim2SF_inj. rewrite FloatAxioms.add_spec. reflexivity. Qed.

Lemma float_nan_sub (x : float) : (nan - x)%float = nan.
Proof. apply Prim2SF_inj. rewrite FloatAxioms.sub_spec. reflexivity. Qed.

Lemma float_nan_ltb (x : float) : PrimFloat.ltb nan x = false.
Proof. rewrite FloatAxioms.ltb_spec. reflexivity. Qed.

(** Once the total is NaN it stays NaN. *)
Lemma romanLoop_nan (s : string) : romanLoop s nan = nan.
Proof.
  induction s as [ | c r IH]; simpl; [reflexivity | ].
  rewrite float_nan_sub, float_nan_add.
  now destruct (PrimFloat.ltb _ _).
Qed.

Lemma romanMap_symbol (c : ascii) :
  isRomanSymbol c = false -> romanMap c = None.
Proof.
  destruct c as [[] [] [] [] [] [] [] []]; intros H; try discriminate H;
    reflexivity.
Qed.

(** One symbol outside the table makes the whole conversion NaN. *)
Lemma romanLoop_foreign_symbol (s : string) :
  forall total, allChars isRomanSymbol s = false -> romanLoop s total = nan.
Proof.
  induction s as [ | c r IH]; intros total H; simpl in H; [discriminate H | ].
  simpl. destruct (isRomanSymbol c) eqn:E.
  - simpl in H. now destruct (PrimFloat.ltb _ _); apply IH.
  - rewrite (romanMap_symbol c E). simpl entryToNumber.
    rewrite float_nan_ltb, float_add_nan. apply romanLoop_nan.
Qed.

(** *** Integers in binary64 *)

Section ExactIntegers.

Local Open Scope Z_scope.

Lemma iter_xO_Z (p n : positive) :
  Zpos (Pos.iter xO p n) = Zpos p * 2 ^ Zpos n.
Proof.
  induction n as [ | n IH] using Pos.peano_ind.
  - simpl. lia.
  - rewrite Pos.iter_succ, Pos2Z.inj_xO, IH, Pos2Z.inj_succ, Z.pow_succ_r by lia.
    lia.
Qed.

Lemma shiftp_Z (p : positive) (k : Z) :
  0 <= k -> Zpos (shiftp p k) = Zpos p * 2 ^ k.
Proof.
  destruct k as [ | n | n]; intros H; simpl shiftp.
  - rewrite Z.pow_0_r. lia.
  - apply iter_xO_Z.
  - lia.
Qed.

Lemma digits_iter (p n : positive) :
  digits2_pos (Pos.iter xO p n) = (digits2_pos p + n)%positive.
Proof.
  induction n as [ | n IH] using Pos.peano_ind.
  - simpl. lia.
  - rewrite Pos.iter_succ. simpl. rewrite IH. lia.
Qed.

Lemma digits_shiftp (p : positive) (k : Z) :
  0 <= k -> Zpos (digits2_pos (shiftp p k)) = Zpos (digits2_pos p) + k.
Proof.
  destruct k as [ | n | n]; intros H; simpl shiftp.
  - lia.
  - rewrite digits_iter. lia.
  - lia.
Qed.

Lemma digits_le (p : positive) :
  forall n, 0 <= n -> Zpos p < 2 ^ n -> Zpos (digits2_pos p) <= n.
Proof.
  induction p as [q IH | q IH | ]; intros n Hn H.
  - assert (n <> 0) by (intros ->; simpl in H; lia).
    replace n with (Z.succ (n - 1)) in H by lia.
    rewrite Z.pow_succ_r in H by lia.
    simpl. specialize (IH (n - 1)). lia.
  - assert (n <> 0) by (intros ->; simpl in H; lia).
    replace n with (Z.succ (n - 1)) in H by lia.
    rewrite Z.pow_succ_r in H by lia.
    simpl. specialize (IH (n - 1)). lia.
  - assert (n <> 0) by (intros ->; simpl in H; lia).
    simpl. lia.
Qed.

Lemma iter_pos_eq {A : Type} (f : A -> A) (n : positive) :
  forall x, iter_pos f n x = Pos.iter f x n.
Proof.
  induction n as [n IH | n IH | ]; intros x; simpl.
  - rewrite !IH. now rewrite !Pos.iter_swap.
  - now rewrite !IH.
  - reflexivity.
Qed.

Lemma shr_exact (n : positive) :
  forall p,
    Pos.iter shr_1 (Build_shr_record (Zpos (Pos.iter xO p n)) false false) n
    = Build_shr_record (Zpos p) false false.
Proof.
  induction n as [ | n IH] using Pos.peano_ind; intros p.
  - reflexivity.
  - rewrite Pos.iter_succ_r. rewrite Pos.iter_succ. simpl shr_1. apply IH.
Qed.

Lemma fexp_small (e : Z) : -1021 <= e -> fexp prec emax e = e - 53.
Proof. intros H. unfold fexp, SpecFloat.emin, prec, emax. lia. Qed.

(** Once the first shift leaves a mantissa of 53 bits and no remainder,
    rounding changes nothing. *)
Lemma round_aux_after_shift (sx : bool) (mx ex : Z) (c : positive) (e : Z) :
  shr_fexp prec emax mx ex loc_Exact
    = (Build_shr_record (Zpos c) false false, e) ->
  Zpos (digits2_pos c) = 53 ->
  -1074 <= e <= 971 ->
  binary_round_aux prec emax sx mx ex loc_Exact = S754_finite sx c e.
Proof.
  intros Hs Hd He. unfold binary_round_aux. rewrite Hs.
  cbn [shr_m loc_of_shr_record round_nearest_even].
  unfold shr_fexp. cbn [Zdigits2]. rewrite Hd.
  rewrite fexp_small by lia.
  replace (53 + e - 53 - e) with 0 by lia.
  cbn [shr shr_record_of_loc shr_m].
  replace (e <=? emax - prec) with true; [reflexivity | ].
  symmetry. apply Z.leb_le. unfold emax, prec. lia.
Qed.

Lemma round_aux_canonical (sx : bool) (c : positive) (e : Z) :
  Zpos (digits2_pos c) = 53 ->
  -1074 <= e <= 971 ->
  binary_round_aux prec emax sx (Zpos c) e loc_Exact = S754_finite sx c e.
Proof.
  intros Hd He. apply round_aux_after_shift; [ | exact Hd | exact He].
  unfold shr_fexp. cbn [Zdigits2]. rewrite Hd.
  rewrite fexp_small by lia.
  replace (53 + e - 53 - e) with 0 by lia. reflexivity.
Qed.

(** Rounding [p * 2 ^ k] at exponent [- k], that is the integer [p],
    gives the datum of [p] when [p] has at most 53 bits. *)
Lemma binary_round_exact (sx : bool) (p m : positive) (k : Z) :
  0 <= k ->
  Zpos m = Zpos p * 2 ^ k ->
  Zpos (digits2_pos p) <= 53 ->
  binary_round prec emax sx m (- k)
  = S754_finite sx (shiftp p (53 - Zpos (digits2_pos p)))
      (Zpos (digits2_pos p) - 53).
Proof.
  intros Hk Hm Hd.
  assert (Em : m = shiftp p k).
  { apply Pos2Z.inj. now rewrite shiftp_Z. }
  subst m. clear Hm.
  set (d := Zpos (digits2_pos p)) in *.
  assert (Hd1 : 1 <= d) by (unfold d; lia).
  assert (Hc : Zpos (digits2_pos (shiftp p (53 - d))) = 53).
  { rewrite digits_shiftp by lia. fold d. lia. }
  unfold binary_round. rewrite digits_shiftp by lia. fold d.
  rewrite fexp_small by lia.
  unfold shl_align.
  destruct (d + k + - k - 53 - - k) as [ | n | n] eqn:E.
  - assert (Ek : k = 53 - d) by lia.
    rewrite Ek. replace (- (53 - d)) with (d - 53) by lia.
    apply round_aux_canonical; [exact Hc | lia].
  - apply round_aux_after_shift; [ | exact Hc | lia].
    unfold shr_fexp. cbn [Zdigits2]. rewrite digits_shiftp by lia. fold d.
    rewrite fexp_small by lia. cbn [shr_record_of_loc].
    replace (d + k + - k - 53 - - k) with (Zpos n) by lia.
    cbn [shr]. rewrite iter_pos_eq.
    assert (Es : shiftp p k = Pos.iter xO (shiftp p (53 - d)) n).
    { apply Pos2Z.inj. rewrite iter_xO_Z, !shiftp_Z by lia.
      rewrite <- Z.mul_assoc, <- Z.pow_add_r by lia. f_equal. f_equal. lia. }
    rewrite Es, shr_exact. f_equal. lia.
  - assert (Es : Pos.iter xO (shiftp p k) n = shiftp p (53 - d)).
    { apply Pos2Z.inj. rewrite iter_xO_Z, !shiftp_Z by lia.
      rewrite <- Z.mul_assoc, <- Z.pow_add_r by lia. f_equal. f_equal. lia. }
    rewrite Es. replace (d + k + - k - 53) with (d - 53) by lia.
    apply round_aux_canonical; [exact Hc | lia].
Qed.

Lemma normalize_exact (z k : Z) :
  0 <= k -> Z.abs z < 2 ^ 53 ->
  binary_normalize prec emax (z * 2 ^ k) (- k) false = canon z.
Proof.
  intros Hk Hz.
  assert (H2 : 0 < 2 ^ k) by (apply Z.pow_pos_nonneg; lia).
  destruct z as [ | p | p].
  - reflexivity.
  - destruct (Zpos p * 2 ^ k) as [ | m | m] eqn:E; try lia.
    cbn [binary_normalize canon].
    apply binary_round_exact; [exact Hk | now rewrite E | ].
    apply digits_le; lia.
  - destruct (Zneg p * 2 ^ k) as [ | m | m] eqn:E; try lia.
    cbn [binary_normalize canon].
    apply binary_round_exact; [exact Hk | lia | ].
    apply digits_le; lia.
Qed.

(** A datum other than zero: sign, mantissa and exponent. *)
Lemma canon_value (z : Z) :
  z <> 0 -> Z.abs z < 2 ^ 53 ->
  exists s c e,
    canon z = S754_finite s c e /\
    cond_Zopp s (Zpos c) = z * 2 ^ (- e) /\
    -52 <= e <= 0.
Proof.
  intros Hz Hb. destruct z as [ | p | p]; [now destruct Hz | | ].
  - assert (Hd : Zpos (digits2_pos p) <= 53) by (apply digits_le; lia).
    exists false, (shiftp p (53 - Zpos (digits2_pos p))),
           (Zpos (digits2_pos p) - 53).
    split; [reflexivity | split; [ | lia]].
    cbn [cond_Zopp]. rewrite shiftp_Z by lia. f_equal. f_equal. lia.
  - assert (Hd : Zpos (digits2_pos p) <= 53) by (apply digits_le; lia).
    exists true, (shiftp p (53 - Zpos (digits2_pos p))),
           (Zpos (digits2_pos p) - 53).
    split; [reflexivity | split; [ | lia]].
    cbn [cond_Zopp]. rewrite shiftp_Z by lia.
    replace (- (Zpos (digits2_pos p) - 53)) with (53 - Zpos (digits2_pos p))
      by lia.
    lia.
Qed.

Lemma shl_align_Z (c : positive) (e ez : Z) :
  ez <= e -> Zpos (fst (shl_align c e ez)) = Zpos c * 2 ^ (e - ez).
Proof.
  intros H. unfold shl_align. destruct (ez - e) as [ | n | n] eqn:E.
  - replace (e - ez) with 0 by lia. simpl. lia.
  - lia.
  - cbn [fst]. rewrite iter_xO_Z. f_equal. f_equal. lia.
Qed.

Lemma cond_Zopp_mul (s : bool) (a b : Z) :
  cond_Zopp s (a * b) = cond_Zopp s a * b.
Proof. destruct s; simpl; lia. Qed.

(** The aligned mantissa of the datum of [z] is [z * 2 ^ (- ez)]. *)
Lemma aligned_value (z : Z) (s : bool) (c : positive) (e ez : Z) :
  cond_Zopp s (Zpos c) = z * 2 ^ (- e) ->
  ez <= e -> e <= 0 ->
  cond_Zopp s (Zpos (fst (shl_align c e ez))) = z * 2 ^ (- ez).
Proof.
  intros Hv H1 H2. rewrite shl_align_Z by exact H1.
  rewrite cond_Zopp_mul, Hv, <- Z.mul_assoc, <- Z.pow_add_r by lia.
  f_equal. f_equal. lia.
Qed.

(** Addition of two integers whose sum has at most 53 bits is exact. *)
Lemma SFadd_exact (a b : Z) :
  Z.abs a < 2 ^ 53 -> Z.abs b < 2 ^ 53 -> Z.abs (a + b) < 2 ^ 53 ->
  SF64add (canon a) (canon b) = canon (a + b).
Proof.
  intros Ha Hb Hab.
  destruct (Z.eq_dec a 0) as [-> | Na].
  { destruct b; reflexivity. }
  destruct (Z.eq_dec b 0) as [-> | Nb].
  { rewrite Z.add_0_r. destruct a; reflexivity. }
  destruct (canon_value a Na Ha) as (sa & ca & ea & -> & Va & Ea).
  destruct (canon_value b Nb Hb) as (sb & cb & eb & -> & Vb & Eb).
  unfold SF64add. cbn [SFadd].
  rewrite (aligned_value a sa ca ea (Z.min ea eb) Va) by lia.
  rewrite (aligned_value b sb cb eb (Z.min ea eb) Vb) by lia.
  rewrite <- Z.mul_add_distr_r.
  replace (Z.min ea eb) with (- (- Z.min ea eb)) at 2 by lia.
  apply normalize_exact; [lia | exact Hab].
Qed.

Lemma SFsub_exact (a b : Z) :
  Z.abs a < 2 ^ 53 -> Z.abs b < 2 ^ 53 -> Z.abs (a - b) < 2 ^ 53 ->
  SF64sub (canon a) (canon b) = canon (a - b).
Proof.
  intros Ha Hb Hab.
  destruct (Z.eq_dec b 0) as [-> | Nb].
  { rewrite Z.sub_0_r. destruct a; reflexivity. }
  destruct (Z.eq_dec a 0) as [-> | Na].
  { destruct b; reflexivity. }
  destruct (canon_value a Na Ha) as (sa & ca & ea & -> & Va & Ea).
  destruct (canon_value b Nb Hb) as (sb & cb & eb & -> & Vb & Eb).
  unfold SF64sub. cbn [SFsub].
  rewrite (aligned_value a sa ca ea (Z.min ea eb) Va) by lia.
  rewrite (aligned_value b sb cb eb (Z.min ea eb) Vb) by lia.
  rewrite <- Z.mul_sub_distr_r.
  replace (Z.min ea eb) with (- (- Z.min ea eb)) at 2 by lia.
  apply normalize_exact; [lia | exact Hab].
Qed.

Lemma isInt_add (a b : Z) (x y : float) :
  isInt a x -> isInt b y ->
  Z.abs a < 2 ^ 53 -> Z.abs b < 2 ^ 53 -> Z.abs (a + b) < 2 ^ 53 ->
  isInt (a + b) (x + y)%float.
Proof.
  unfold isInt. intros Hx Hy Ha Hb Hab.
  rewrite FloatAxioms.add_spec, Hx, Hy. now apply SFadd_exact.
Qed.

Lemma isInt_sub (a b : Z) (x y : float) :
  isInt a x -> isInt b y ->
  Z.abs a < 2 ^ 53 -> Z.abs b < 2 ^ 53 -> Z.abs (a - b) < 2 ^ 53 ->
  isInt (a - b) (x - y)%float.
Proof.
  unfold isInt. intros Hx Hy Ha Hb Hab.
  rewrite FloatAxioms.sub_spec, Hx, Hy. now apply SFsub_exact.
Qed.

Lemma isInt_floatOfZ (z : Z) : 0 <= z < 2 ^ 53 -> isInt z (floatOfZ z).
Proof.
  intros Hz. unfold isInt, floatOfZ.
  rewrite of_uint63_spec, Uint63.of_Z_spec.
  rewrite Z.mod_small.
  - replace z with (z * 2 ^ 0) at 1 by (rewrite Z.pow_0_r; lia).
    change 0 with (- 0) at 2. apply normalize_exact; lia.
  - split; [lia | ]. apply Z.lt_trans with (2 ^ 53); [lia | ].
    unfold wB. simpl. lia.
Qed.

Lemma isInt_unique (z : Z) (x y : float) : isInt z x -> isInt z y -> x = y.
Proof. unfold isInt. intros Hx Hy. apply Prim2SF_inj. now rewrite Hx, Hy. Qed.

(** *** Roman numerals of any length *)

Lemma symbol_values (c : ascii) :
  isRomanSymbol c = true ->
  isInt (valueOrZero c) (entryToNumber (romanMap c)) /\
  In (valueOrZero c) [1; 5; 10; 50; 100; 500; 1000].
Proof.
  intros H. apply isRomanSymbol_In in H. simpl in H.
  destruct H as [<- | [<- | [<- | [<- | [<- | [<- | [<- | []]]]]]]];
    (split; [vm_compute; reflexivity | simpl; tauto]).
Qed.

(** The value of the symbol that follows, 0 at the end. *)
Lemma nextValue_values (rest : string) :
  allChars isRomanSymbol rest = true ->
  exists n,
    isInt n (nextValue rest) /\
    n = match rest with
        | String c' _ => valueOrZero c'
        | EmptyString => 0
        end /\
    In n [0; 1; 5; 10; 50; 100; 500; 1000].
Proof.
  destruct rest as [ | c' r]; intros H.
  - exists 0. split; [vm_compute; reflexivity | split; [reflexivity | now left]].
  - cbn [allChars] in H. apply andb_true_iff in H. destruct H as [Hc _].
    exists (valueOrZero c'). apply isRomanSymbol_In in Hc. simpl in Hc.
    destruct Hc as [<- | [<- | [<- | [<- | [<- | [<- | [<- | []]]]]]]];
      (split; [vm_compute; reflexivity | split; [reflexivity | simpl; tauto]]).
Qed.

(** Comparing two small integers as floats is comparing them. *)
Lemma ltb_symbols (a b : Z) (x y : float) :
  isInt a x -> isInt b y ->
  In a [1; 5; 10; 50; 100; 500; 1000] ->
  In b [0; 1; 5; 10; 50; 100; 500; 1000] ->
  PrimFloat.ltb x y = (a <? b).
Proof.
  unfold isInt. intros Hx Hy Ha Hb. rewrite FloatAxioms.ltb_spec, Hx, Hy.
  simpl in Ha, Hb.
  destruct Ha as [<- | [<- | [<- | [<- | [<- | [<- | [<- | []]]]]]]];
    destruct Hb as [<- | [<- | [<- | [<- | [<- | [<- | [<- | [<- | []]]]]]]]];
    vm_compute; reflexivity.
Qed.

(** With the total an integer [t], the loop of [romanToInt] ends with
    [t] plus the subtractive-pair value of what is left to read, as long
    as no sum leaves the range in which binary64 holds every integer. *)
Lemma romanLoop_exact (s : string) :
  allChars isRomanSymbol s = true ->
  forall (t : Z) (total : float),
    isInt t total ->
    Z.abs t + 1000 * Z.of_nat (String.length s) < 2 ^ 53 ->
    isInt (t + subtractivePairValue s) (romanLoop s total) /\
    Z.abs (t + subtractivePairValue s)
      <= Z.abs t + 1000 * Z.of_nat (String.length s).
Proof.
  induction s as [ | c rest IH]; intros Hs t total Ht Hb.
  - cbn [subtractivePairValue romanLoop String.length]. rewrite Z.add_0_r.
    split; [exact Ht | lia].
  - cbn [allChars] in Hs. apply andb_true_iff in Hs. destruct Hs as [Hc Hr].
    destruct (symbol_values c Hc) as [Hv Hin].
    destruct (nextValue_values rest Hr) as (n & Hn & En & Hnin).
    cbn [romanLoop subtractivePairValue]. rewrite <- En.
    rewrite (ltb_symbols _ _ _ _ Hv Hn Hin Hnin).
    assert (Hvb : 1 <= valueOrZero c <= 1000).
    { simpl in Hin. lia. }
    cbn [String.length] in Hb |- *. rewrite Nat2Z.inj_succ in Hb |- *.
    destruct (valueOrZero c <? n).
    + destruct (IH Hr (t - valueOrZero c) (total - entryToNumber (romanMap c))%float)
        as [H1 H2].
      * apply isInt_sub; [exact Ht | exact Hv | lia ..].
      * lia.
      * replace (t + (- valueOrZero c + subtractivePairValue rest))
          with (t - valueOrZero c + subtractivePairValue rest) by lia.
        split; [exact H1 | lia].
    + destruct (IH Hr (t + valueOrZero c) (total + entryToNumber (romanMap c))%float)
        as [H1 H2].
      * apply isInt_add; [exact Ht | exact Hv | lia ..].
      * lia.
      * replace (t + (valueOrZero c + subtractivePairValue rest))
          with (t + valueOrZero c + subtractivePairValue rest) by lia.
        split; [exact H1 | lia].
Qed.

(** A numeral is worth at least its first symbol: a symbol that is
    subtracted is at most half of the one that follows. *)
Lemma subtractivePairValue_head (s : string) :
  allChars isRomanSymbol s = true ->
  match s with
  | String c _ => valueOrZero c
  | EmptyString => 0
  end <= subtractivePairValue s.
Proof.
  induction s as [ | c rest IH]; intros Hs; [reflexivity | ].
  cbn [allChars] in Hs. apply andb_true_iff in Hs. destruct Hs as [Hc Hr].
  specialize (IH Hr).
  destruct (symbol_values c Hc) as [_ Hin].
  destruct (nextValue_values rest Hr) as (n & _ & En & Hnin).
  cbn [subtractivePairValue]. rewrite <- En in *.
  simpl in Hin, Hnin.
  destruct (Z.ltb_spec (valueOrZero c) n); lia.
Qed.

(** On every numeral, whatever its length, [romanToInt] is the value
    that the subtractive-pair rule gives; the bound on the length, nine
    million million symbols, keeps every sum below 2^53. *)
Lemma romanToInt_subtractive_rule (s : string) :
  allChars isRomanSymbol s = true ->
  1000 * Z.of_nat (String.length s) < 2 ^ 53 ->
  romanToInt s = floatOfZ (subtractivePairValue s).
Proof.
  intros Hs Hb.
  destruct (romanLoop_exact s Hs 0 0%float) as [H1 H2].
  - vm_compute. reflexivity.
  - simpl Z.abs. lia.
  - apply (isInt_unique (subtractivePairValue s)); [exact H1 | ].
    apply isInt_floatOfZ. pose proof (subtractivePairValue_head s Hs) as Hh.
    simpl Z.abs in H2. rewrite Z.add_0_l in H2.
    assert (0 <= subtractivePairValue s).
    { destruct s as [ | c r]; [simpl; lia | ].
      cbn [allChars] in Hs. apply andb_true_iff in Hs.
      destruct (symbol_values c (proj1 Hs)) as [_ Hin]. simpl in Hin. lia. }
    lia.
Qed.

Lemma isInt_truthy (z : Z) (x : float) :
  isInt z x -> z <> 0 -> Z.abs z < 2 ^ 53 -> truthy (JNum x) = true.
Proof.
  unfold isInt. intros Hx Hz Hb.
  destruct (canon_value z Hz Hb) as (sg & c & e & Hc & _ & _).
  rewrite Hc in Hx. cbn [truthy].
  unfold PrimFloat.is_zero, PrimFloat.is_nan.
  rewrite !FloatAxioms.eqb_spec, Hx.
  change (Prim2SF 0%float) with (S754_zero false).
  unfold SFeqb. cbn [SFcompare]. rewrite Z.compare_refl.
  rewrite Pos.compare_cont_refl. now destruct sg.
Qed.

End ExactIntegers.


(** The value of a numeral is truthy: it is a positive integer. *)
Lemma numeral_truthy (s : string) :
  s <> "" ->
  allChars isRomanSymbol s = true ->
  (1000 * Z.of_nat (String.length s) < 2 ^ 53)%Z ->
  truthy (JNum (floatOfZ (subtractivePairValue s))) = true.
Proof.
  intros Hne Hs Hb.
  pose proof (subtractivePairValue_head s Hs) as Hh.
  destruct (romanLoop_exact s Hs 0%Z 0%float) as [_ H2].
  - vm_compute. reflexivity.
  - simpl Z.abs. lia.
  - simpl Z.abs in H2. rewrite Z.add_0_l in H2.
    destruct s as [ | c r]; [now destruct Hne | ].
    cbn [allChars] in Hs. apply andb_true_iff in Hs.
    destruct (symbol_values c (proj1 Hs)) as [_ Hin]. simpl in Hin.
    apply (isInt_truthy (subtractivePairValue (String c r))).
    + apply isInt_floatOfZ. lia.
    + lia.
    + lia.
Qed.

(** C7.  [romanToInt] computes the left-to-right subtractive-pair value
    of a roman numeral, whatever its length (up to nine million million
    symbols, beyond which binary64 no longer holds every sum): each step
    of its loop subtracts a symbol worth less than the next one and adds
    any other.  So "IV" gives 4, "IX" gives 9 and "XII" gives 12, and
    [handleClassField] replaces a numeral by that number.  Whenever the
    conversion of a truthy extracted value yields 0, [handleClassField]
    returns that raw value itself, not null; a string with a symbol
    outside the table converts to NaN, not to 0, and is returned as it is
    all the same. *)
Theorem romanToInt_values_and_class_fallback :
  romanToInt "IV" = 4%float /\
  romanToInt "IX" = 9%float /\
  romanToInt "XII" = 12%float /\
  (forall s,
      allChars isRomanSymbol s = true ->
      (1000 * Z.of_nat (String.length s) < 2 ^ 53)%Z ->
      romanToInt s = floatOfZ (subtractivePairValue s)) /\
  (forall c rest v total,
      romanMap c = Some v ->
      romanLoop (String c rest) total =
        if PrimFloat.ltb v (nextValue rest)
        then romanLoop rest (total - v)%float
        else romanLoop rest (total + v)%float) /\
  (forall vc pathValue value z,
      getValue vc pathValue = Ok value ->
      truthy value = true ->
      romanToIntOf value = Ok z ->
      PrimFloat.is_zero z = true ->
      handleClassField vc pathValue = Ok value /\
      handleClassField vc pathValue <> Ok JNull) /\
  (forall vc pathValue s,
      getValue vc pathValue = Ok (JStr s) ->
      s <> "" ->
      allChars isRomanSymbol s = true ->
      (1000 * Z.of_nat (String.length s) < 2 ^ 53)%Z ->
      handleClassField vc pathValue
        = Ok (JNum (floatOfZ (subtractivePairValue s)))) /\
  (forall vc pathValue s,
      getValue vc pathValue = Ok (JStr s) ->
      allChars isRomanSymbol s = false ->
      romanToInt s = nan /\
      handleClassField vc pathValue = Ok (JStr s)).
Proof.
  split; [reflexivity | split; [reflexivity | split; [reflexivity | ]]].
  split; [exact romanToInt_subtractive_rule | ].
  split; [intros; now apply romanLoop_step | ].
  split; [ | split].
  - intros vc pathValue value z Hv Ht Hz H0.
    assert (Hf : truthy (JNum z) = false) by (simpl; now rewrite H0).
    rewrite (handleClassField_falsy_conversion _ _ _ _ Hv Ht Hz Hf).
    split; [reflexivity | ].
    intros E. injection E as E. subst value. discriminate Ht.
  - intros vc pathValue s Hv Hne Hs Hb.
    assert (Ht : truthy (JStr s) = true).
    { destruct s; [now destruct Hne | reflexivity]. }
    unfold handleClassField. rewrite Hv. cbn [bind]. rewrite Ht.
    cbn [negb romanToIntOf bind].
    rewrite (romanToInt_subtractive_rule s Hs Hb).
    rewrite (numeral_truthy s Hne Hs Hb). reflexivity.
  - intros vc pathValue s Hv Hs.
    assert (Hn : romanToInt s = nan) by now apply romanLoop_foreign_symbol.
    split; [exact Hn | ].
    apply (handleClassField_falsy_conversion vc pathValue (JStr s) nan Hv).
    + destruct s; [discriminate Hs | reflexivity].
    + simpl. now rewrite Hn.
    + reflexivity.
Qed.

Lemma romanToInt_values_and_class_fallback_witness :
  romanToInt "MMMDCCCLXXXVIII"
    = floatOfZ (subtractivePairValue "MMMDCCCLXXXVIII") /\
  romanToInt "MMMDCCCLXXXVIII" = 3888%float /\
  romanLoop "IX" 0%float
    = (if PrimFloat.ltb 1 (nextValue "X")
       then romanLoop "X" (0 - 1)%float
       else romanLoop "X" (0 + 1)%float) /\
  handleClassField Samples.marksheetClass7 (Some "credentialSubject.class")
    = Ok (JNum 7) /\
  handleClassField Samples.marksheetClass7 (Some "credentialSubject.class")
    <> Ok JNull.
Proof.
  destruct romanToInt_values_and_class_fallback
    as (_ & _ & _ & Hrule & Hstep & Hclass & _).
  split; [ | split; [reflexivity | split]].
  - apply Hrule; reflexivity.
  - apply (Hstep "I"%char "X" 1%float 0%float). reflexivity.
  - apply (Hclass Samples.marksheetClass7 (Some "credentialSubject.class")
             (JNum 7) 0%float); reflexivity.
Defined.

(** [handleIncomeValue] is [incomeOf] applied to the extracted value. *)
Lemma handleIncomeValue_of (vc : VC) (pathValue : option string) (v : JSValue) :
  getValue vc pathValue = Ok v -> handleIncomeValue vc pathValue = incomeOf v.
Proof. intros H. unfold handleIncomeValue. now rewrite H. Qed.



Lemma stringToNumber_returns (s : string) :
  exists n, stringToNumber s = Ok n.
Proof.
  unfold stringToNumber. destruct (trim s) as [ | c r]; [now eexists | ].
  destruct (allChars isDigit (String c r) && _)%bool; [now eexists | ].
  destruct (canStartNumeric c); now eexists.
Qed.





(** *** Dates *)

(** A date that [new Date] accepts is formatted at once: the list of
    explicit formats is not tried. *)
Lemma formatDateToISO_native_first
    (newDate : string -> result (option CalDate)) (s : string) (d : CalDate) :
  newDate s = Ok (Some d) ->
  formatDateToISO newDate s = (t <- format_yyyy_MM_dd d ;; Ok (JStr t)).
Proof. intros H. unfold formatDateToISO. now rewrite H. Qed.

Lemma formatDateToISO_fallback
    (newDate : string -> result (option CalDate)) (s : string) :
  newDate s = Ok None ->
  formatDateToISO newDate s = tryFormats s possibleFormats.
Proof. intros H. unfold formatDateToISO. now rewrite H. Qed.

Lemma tryFormats_none (s : string) (fs : list string) :
  Forall (fun f => parse s f = Ok None) fs -> tryFormats s fs = Ok JNull.
Proof.
  induction 1 as [ | f fs Hf _ IH]; simpl; [reflexivity | ].
  now rewrite Hf.
Qed.

(** A string that neither [new Date] nor any of the six formats can parse
    resolves to null. *)
Lemma formatDateToISO_unparseable
    (newDate : string -> result (option CalDate)) (s : string) :
  newDate s = Ok None ->
  Forall (fun f => parse s f = Ok None) possibleFormats ->
  formatDateToISO newDate s = Ok JNull.
Proof.
  intros Hn Hf. rewrite (formatDateToISO_fallback _ _ Hn).
  now apply tryFormats_none.
Qed.

(** Where [new Date] rejects the two sample strings, the list of formats
    reads the first as dd-MM-yyyy and the second as yyyy/MM/dd. *)
Lemma formatDateToISO_by_format_list
    (newDate : string -> result (option CalDate)) :
  (newDate "08-05-2003" = Ok None ->
   formatDateToISO newDate "08-05-2003" = Ok (JStr "2003-05-08")) /\
  (newDate "2003/05/08" = Ok None ->
   formatDateToISO newDate "2003/05/08" = Ok (JStr "2003-05-08")).
Proof.
  split; intros H; rewrite (formatDateToISO_fallback _ _ H); reflexivity.
Qed.

Example formatDateToISO_slashes_on_V8 :
  formatDateToISO V8.newDate "2003/05/08" = Ok (JStr "2003-05-08").
Proof. reflexivity. Qed.

Example formatDateToISO_day_above_12_on_V8 :
  formatDateToISO V8.newDate "25-05-2003" = Ok (JStr "2003-05-25").
Proof. reflexivity. Qed.

(** C3.  On V8, [new Date("08-05-2003")] is a valid date, the 5th of
    August 2003, so [formatDateToISO] returns "2003-08-05" and never
    reaches the format list, whose second entry dd-MM-yyyy would have
    given "2003-05-08". *)
Theorem formatDateToISO_month_first_on_V8 :
  V8.newDate "08-05-2003" = Ok (Some (mkDate 2003 8 5)) /\
  formatDateToISO V8.newDate "08-05-2003" = Ok (JStr "2003-08-05") /\
  tryFormats "08-05-2003" possibleFormats = Ok (JStr "2003-05-08").
Proof. repeat split. Qed.

(* ===================================================================== *)
(** ** Properties of the builder *)
(* ===================================================================== *)

Lemma lastOf_cons {A : Type} (x : A) (l : list A) :
  lastOf (x :: l) = match lastOf l with Some y => Some y | None => Some x end.
Proof.
  unfold lastOf. simpl rev. destruct (rev l); reflexivity.
Qed.

Lemma assoc_setProp_eq {A : Type} (k : string) (v : A) (l : list (string * A)) :
  assoc k (setProp k v l) = Some v.
Proof.
  induction l as [ | [k' v'] r IH]; simpl.
  - now rewrite String.eqb_refl.
  - destruct (String.eqb k k') eqn:E; simpl.
    + now rewrite String.eqb_refl.
    + now rewrite E.
Qed.

Lemma assoc_setProp_ne {A : Type} (k k' : string) (v : A)
    (l : list (string * A)) :
  k <> k' -> assoc k (setProp k' v l) = assoc k l.
Proof.
  intros Hne. apply String.eqb_neq in Hne.
  induction l as [ | [k2 v2] r IH]; simpl.
  - now rewrite Hne.
  - destruct (String.eqb k' k2) eqn:E; simpl.
    + apply String.eqb_eq in E. subst k2. now rewrite Hne.
    + destruct (String.eqb k k2); auto.
Qed.

Lemma findByDocType_docType (d : string) (vcs : list VC) (vc : VC) :
  findByDocType d vcs = Some vc -> docType vc = d.
Proof.
  unfold findByDocType. intros H. apply find_some in H.
  now apply String.eqb_eq.
Qed.

Lemma foundVCs_app (vcs : list VC) (a b : list string) :
  foundVCs vcs (a ++ b) = foundVCs vcs a ++ foundVCs vcs b.
Proof. unfold foundVCs. apply flat_map_app. Qed.

(** A VC is consulted only as the first VC of its doc type, and only for
    a doc type that is a candidate. *)
Lemma foundVCs_In (vcs : list VC) (cands : list string) (vc : VC) :
  In vc (foundVCs vcs cands) ->
  In (docType vc) cands /\ findByDocType (docType vc) vcs = Some vc.
Proof.
  unfold foundVCs. intros H. apply in_flat_map in H.
  destruct H as (d & Hd & Hin).
  destruct (findByDocType d vcs) as [w | ] eqn:E; simpl in Hin;
    [ | contradiction].
  destruct Hin as [-> | []].
  rewrite (findByDocType_docType _ _ _ E). auto.
Qed.

Section BuilderFacts.

Variable newDate : string -> result (option CalDate).
Variable vcPathsFile : string -> option PathTable.

Local Abbreviation getField := (getFieldValueFromVC newDate vcPathsFile).
Local Abbreviation scanFrom := (scanCandidates newDate vcPathsFile).
Local Abbreviation scan := (scanField newDate vcPathsFile).
Local Abbreviation quiet := (silent newDate vcPathsFile).

(** A candidate without a VC is skipped. *)
Lemma scan_skip_missing (vcs : list VC) (field d : string)
    (rest : list string) (value : JSValue) (seen : list VC) :
  findByDocType d vcs = None ->
  scanFrom vcs field (d :: rest) value seen = scanFrom vcs field rest value seen.
Proof. intros H. simpl. now rewrite H. Qed.

(** A candidate whose VC yields a falsy value leaves that value in
    [value], and the loop goes on with the next candidate. *)
Lemma scan_step_falsy (vcs : list VC) (field d : string)
    (rest : list string) (value : JSValue) (seen : list VC)
    (vc : VC) (v : JSValue) :
  findByDocType d vcs = Some vc ->
  getField vc field = Ok v ->
  truthy v = false ->
  scanFrom vcs field (d :: rest) value seen
    = scanFrom vcs field rest v (seen ++ [vc]).
Proof. intros Hf Hv Ht. simpl. rewrite Hf, Hv. simpl. now rewrite Ht. Qed.

(** A candidate whose VC yields a truthy value ends the loop. *)
Lemma scan_step_truthy (vcs : list VC) (field d : string)
    (rest : list string) (value : JSValue) (seen : list VC)
    (vc : VC) (v : JSValue) :
  findByDocType d vcs = Some vc ->
  getField vc field = Ok v ->
  truthy v = true ->
  scanFrom vcs field (d :: rest) value seen
    = Ok (mkScan v [d] (seen ++ [vc])).
Proof.
  intros Hf Hv Ht. simpl. rewrite Hf, Hv. simpl. rewrite Ht.
  now rewrite (findByDocType_docType _ _ _ Hf).
Qed.

Lemma scan_silent (vcs : list VC) (field : string) (cands : list string) :
  forall (value : JSValue) (seen : list VC),
    Forall (quiet vcs field) cands ->
    exists v,
      scanFrom vcs field cands value seen
        = Ok (mkScan v [] (seen ++ foundVCs vcs cands)) /\
      match lastOf (foundVCs vcs cands) with
      | None => v = value
      | Some vc => getField vc field = Ok v /\ truthy v = false
      end.
Proof.
  induction cands as [ | d rest IH]; intros value seen Hq.
  - exists value. simpl. now rewrite app_nil_r.
  - inversion Hq as [ | ? ? Hd Hrest]; subst.
    unfold silent in Hd. unfold foundVCs. simpl flat_map.
    fold (foundVCs vcs rest).
    destruct (findByDocType d vcs) as [vc | ] eqn:E.
    + destruct Hd as (v' & Hv' & Hf').
      destruct (IH v' (seen ++ [vc]) Hrest) as (v & Hscan & Hlast).
      exists v. split.
      * rewrite (scan_step_falsy _ _ _ _ _ _ _ _ E Hv' Hf'), Hscan.
        now rewrite <- app_assoc.
      * simpl app. rewrite lastOf_cons.
        destruct (lastOf (foundVCs vcs rest)); [assumption | ].
        subst v. auto.
    + destruct (IH value seen Hrest) as (v & Hscan & Hlast).
      exists v. split; [ | assumption].
      now rewrite (scan_skip_missing _ _ _ _ _ _ E).
Qed.

Lemma scan_first_truthy (vcs : list VC) (field : string)
    (pre : list string) (i : string) (post : list string)
    (vci : VC) (v : JSValue) :
  findByDocType i vcs = Some vci ->
  getField vci field = Ok v ->
  truthy v = true ->
  forall (value : JSValue) (seen : list VC),
    Forall (quiet vcs field) pre ->
    scanFrom vcs field (pre ++ i :: post) value seen
      = Ok (mkScan v [i] (seen ++ foundVCs vcs pre ++ [vci])).
Proof.
  intros Hi Hv Ht.
  induction pre as [ | d rest IH]; intros value seen Hq.
  - simpl app. now rewrite (scan_step_truthy _ _ _ _ _ _ _ _ Hi Hv Ht).
  - inversion Hq as [ | ? ? Hd Hrest]; subst.
    unfold silent in Hd. unfold foundVCs. simpl flat_map.
    fold (foundVCs vcs rest). rewrite <- app_comm_cons.
    destruct (findByDocType d vcs) as [vc | ] eqn:E.
    + destruct Hd as (v' & Hv' & Hf').
      rewrite (scan_step_falsy _ _ _ _ _ _ _ _ E Hv' Hf').
      rewrite (IH v' (seen ++ [vc]) Hrest).
      simpl app. now rewrite <- app_assoc.
    + rewrite (scan_skip_missing _ _ _ _ _ _ E).
      now rewrite (IH value seen Hrest).
Qed.

(** The scan sees [vcs] only through [findByDocType] on its candidates. *)
Lemma scan_ext (vcs vcs' : list VC) (field : string) (cands : list string) :
  (forall d, In d cands -> findByDocType d vcs = findByDocType d vcs') ->
  forall (value : JSValue) (seen : list VC),
    scanFrom vcs field cands value seen = scanFrom vcs' field cands value seen.
Proof.
  induction cands as [ | d rest IH]; intros Hext value seen; [reflexivity | ].
  simpl. rewrite <- (Hext d (or_introl eq_refl)).
  destruct (findByDocType d vcs) as [vc | ].
  - destruct (getField vc field) as [v | e | ]; simpl; try reflexivity.
    destruct (truthy v); [reflexivity | ].
    apply IH. intros d' Hd'. apply Hext. now right.
  - apply IH. intros d' Hd'. apply Hext. now right.
Qed.

(** Whatever the scan returns, the VCs it consulted are the ones selected
    by a prefix of the candidates. *)
Lemma scan_consulted (vcs : list VC) (field : string) (cands : list string) :
  forall (value : JSValue) (seen : list VC) (r : FieldScan),
    scanFrom vcs field cands value seen = Ok r ->
    exists used, scanConsulted r = seen ++ used /\
                 forall vc, In vc used -> In vc (foundVCs vcs cands).
Proof.
  induction cands as [ | d rest IH]; intros value seen r H.
  - simpl in H. injection H as <-. exists []. simpl.
    rewrite app_nil_r. split; [reflexivity | contradiction].
  - simpl in H. unfold foundVCs. simpl flat_map. fold (foundVCs vcs rest).
    destruct (findByDocType d vcs) as [vc | ] eqn:E.
    + apply bind_inv in H. destruct H as (v & Hv & H).
      destruct (truthy v).
      * injection H as <-. exists [vc]. simpl. split; [reflexivity | ].
        intros w [<- | []]. now left.
      * destruct (IH _ _ _ H) as (used & Hused & Hin).
        exists (vc :: used). split.
        -- rewrite Hused. now rewrite <- app_assoc.
        -- intros w [<- | Hw]; [now left | right; auto].
    + destruct (IH _ _ _ H) as (used & Hused & Hin).
      exists used. split; [assumption | ]. simpl. auto.
Qed.

Local Abbreviation build := (buildFields newDate vcPathsFile).

Lemma buildFields_other (vcs : list VC) (pf : list (string * list string)) :
  forall (acc out : Profile),
    build vcs pf acc = Ok out ->
    forall k, ~ In k (map fst pf) ->
      assoc k (userProfile out) = assoc k (userProfile acc) /\
      assoc k (validationData out) = assoc k (validationData acc).
Proof.
  induction pf as [ | [f c] rest IH]; intros acc out H k Hk.
  - simpl in H. injection H as <-. auto.
  - simpl in H. apply bind_inv in H. destruct H as (r & _ & H).
    simpl in Hk.
    destruct (IH _ _ H k (fun X => Hk (or_intror X))) as [H1 H2].
    rewrite H1, H2. simpl.
    assert (Hne : k <> f) by (intros ->; apply Hk; now left).
    now rewrite !(assoc_setProp_ne _ _ _ _ Hne).
Qed.

(** Each field of the result holds what the scan of that field left. *)
Lemma buildFields_lookup (vcs : list VC) (pf : list (string * list string)) :
  forall (acc out : Profile),
    build vcs pf acc = Ok out ->
    NoDup (map fst pf) ->
    forall field vcArray, In (field, vcArray) pf ->
      exists r, scan vcs field vcArray = Ok r /\
                assoc field (userProfile out) = Some (scanValue r) /\
                assoc field (validationData out) = Some (scanDocsUsed r).
Proof.
  induction pf as [ | [f c] rest IH]; intros acc out H Hnd field vcArray Hin;
    [contradiction | ].
  simpl in H. apply bind_inv in H. destruct H as (r & Hr & H).
  simpl in Hnd. inversion Hnd as [ | ? ? Hnotin Hnd']; subst.
  destruct Hin as [Heq | Hin].
  - injection Heq as -> ->. exists r. split; [assumption | ].
    destruct (buildFields_other _ _ _ _ H field Hnotin) as [H1 H2].
    rewrite H1, H2. simpl. now rewrite !assoc_setProp_eq.
  - eapply IH; eauto.
Qed.

(** [buildProfile] returns as soon as the scan of every field returns. *)
Lemma buildFields_returns (vcs : list VC) (pf : list (string * list string)) :
  (forall f c, In (f, c) pf -> exists r, scan vcs f c = Ok r) ->
  forall acc, exists out, build vcs pf acc = Ok out.
Proof.
  induction pf as [ | [f c] rest IH]; intros Hall acc.
  - exists acc. reflexivity.
  - destruct (Hall f c (or_introl eq_refl)) as (r & Hr).
    simpl. rewrite Hr. simpl. apply IH.
    intros f' c' Hin. apply Hall. now right.
Qed.

Lemma NoDup_fst_unique {A : Type} (l : list (string * A)) (k : string)
    (a b : A) :
  NoDup (map fst l) -> In (k, a) l -> In (k, b) l -> a = b.
Proof.
  induction l as [ | [k' x] r IH]; intros Hnd Ha Hb; [contradiction | ].
  simpl in Hnd. inversion Hnd as [ | ? ? Hnotin Hnd']; subst.
  destruct Ha as [Ha | Ha], Hb as [Hb | Hb].
  - congruence.
  - injection Ha as -> ->. exfalso. apply Hnotin.
    now apply (in_map fst _ (k, b)).
  - injection Hb as -> ->. exfalso. apply Hnotin.
    now apply (in_map fst _ (k, a)).
  - now apply IH.
Qed.

(** [buildProfile] returns, and stores what the scan of [field] left,
    as soon as the scans of the other fields return. *)
Lemma buildProfile_field (vcs : list VC) (pf : list (string * list string))
    (field : string) (vcArray : list string) (r : FieldScan) :
  NoDup (map fst pf) ->
  In (field, vcArray) pf ->
  scan vcs field vcArray = Ok r ->
  (forall f c, In (f, c) pf -> f <> field -> exists r', scan vcs f c = Ok r') ->
  exists out,
    buildProfile newDate vcPathsFile pf vcs = Ok out /\
    assoc field (userProfile out) = Some (scanValue r) /\
    assoc field (validationData out) = Some (scanDocsUsed r).
Proof.
  intros Hnd Hin Hr Hothers.
  destruct (buildFields_returns vcs pf) with (acc := mkProfile [] [])
    as (out & Hout).
  { intros f c Hfc. destruct (string_dec f field) as [-> | Hne].
    - rewrite (NoDup_fst_unique _ _ _ _ Hnd Hfc Hin). eauto.
    - eauto. }
  exists out. split; [exact Hout | ].
  destruct (buildFields_lookup _ _ _ _ Hout Hnd _ _ Hin) as (r' & Hr' & Hu & Hd).
  rewrite Hr in Hr'. injection Hr' as <-. auto.
Qed.

End BuilderFacts.

Lemma find_filter_implies {A : Type} (p q : A -> bool) (l : list A) :
  (forall x, p x = true -> q x = true) ->
  find p (filter q l) = find p l.
Proof.
  intros Hpq. induction l as [ | x r IH]; simpl; [reflexivity | ].
  destruct (p x) eqn:Ep.
  - rewrite (Hpq x Ep). simpl. now rewrite Ep.
  - destruct (q x); simpl; [now rewrite Ep | assumption].
Qed.

Lemma other_docType (d : string) (vc w : VC) :
  String.eqb (docType vc) d = false ->
  String.eqb (docType w) d = true ->
  negb (String.eqb (docType w) (docType vc)) = true.
Proof.
  intros Hne Heq. apply String.eqb_eq in Heq. rewrite Heq.
  rewrite String.eqb_sym. now rewrite Hne.
Qed.

(** Dropping the later VCs of a doc type does not change what [find]
    selects for any doc type. *)
Lemma findByDocType_firstPerDocType (d : string) (vcs : list VC) :
  findByDocType d (firstPerDocType vcs) = findByDocType d vcs.
Proof.
  unfold findByDocType.
  induction vcs as [ | vc r IH]; simpl; [reflexivity | ].
  destruct (String.eqb (docType vc) d) eqn:E; [reflexivity | ].
  rewrite find_filter_implies; [assumption | ].
  intros w Hw. now apply (other_docType d).
Qed.

Lemma findByDocType_drop_later (d : string) (front back : list VC) (vc : VC) :
  findByDocType d
    (front ++ vc :: filter (fun w => negb (String.eqb (docType w) (docType vc)))
                      back)
  = findByDocType d (front ++ vc :: back).
Proof.
  unfold findByDocType.
  induction front as [ | x r IH]; simpl.
  - destruct (String.eqb (docType vc) d) eqn:E; [reflexivity | ].
    apply find_filter_implies. intros w Hw. now apply (other_docType d).
  - destruct (String.eqb (docType x) d); [reflexivity | assumption].
Qed.

Lemma foundVCs_ext (vcs vcs' : list VC) (cands : list string) :
  (forall d, In d cands -> findByDocType d vcs' = findByDocType d vcs) ->
  foundVCs vcs' cands = foundVCs vcs cands.
Proof.
  induction cands as [ | d rest IH]; intros H; [reflexivity | ].
  unfold foundVCs. simpl flat_map. fold (foundVCs vcs rest) (foundVCs vcs' rest).
  rewrite (H d (or_introl eq_refl)). f_equal.
  apply IH. intros d' Hd'. apply H. now right.
Qed.

(** C1 (as amended).  Let doc type [i] precede [j] among the candidates
    of a field.  If every candidate listed before [i] has no VC in the set
    or yields a falsy value, and the VC of doc type [i] yields a truthy
    value [v], then the scan ends at [i]: the field's value is [v], its
    provenance is [[i]], the VCs consulted are those of the candidates up
    to [i] (so none of doc type [j], unless [j] is also listed up to [i]),
    the outcome is the same for every set of VCs that agrees on the doc
    types up to [i], and [buildProfile] stores [v] and [[i]]. *)
Theorem first_yielding_candidate_wins
    (newDate : string -> result (option CalDate))
    (vcPathsFile : string -> option PathTable)
    (vcs : list VC) (field : string)
    (pre : list string) (i : string) (post : list string)
    (vci : VC) (v : JSValue) :
  Forall (silent newDate vcPathsFile vcs field) pre ->
  findByDocType i vcs = Some vci ->
  getFieldValueFromVC newDate vcPathsFile vci field = Ok v ->
  truthy v = true ->
  scanField newDate vcPathsFile vcs field (pre ++ i :: post)
    = Ok (mkScan v [i] (foundVCs vcs pre ++ [vci])) /\
  (forall j, In j post -> ~ In j (pre ++ [i]) ->
     Forall (fun vc => docType vc <> j) (foundVCs vcs pre ++ [vci])) /\
  (forall vcs' post',
     (forall d, In d (pre ++ [i]) ->
        findByDocType d vcs' = findByDocType d vcs) ->
     scanField newDate vcPathsFile vcs' field (pre ++ i :: post')
       = scanField newDate vcPathsFile vcs field (pre ++ i :: post)) /\
  (forall profileFields,
     NoDup (map fst profileFields) ->
     In (field, pre ++ i :: post) profileFields ->
     (forall f c, In (f, c) profileFields -> f <> field ->
        exists r, scanField newDate vcPathsFile vcs f c = Ok r) ->
     exists out,
       buildProfile newDate vcPathsFile profileFields vcs = Ok out /\
       assoc field (userProfile out) = Some v /\
       assoc field (validationData out) = Some [i]).
Proof.
  intros Hpre Hi Hv Ht.
  assert (Hscan : forall post0,
    scanField newDate vcPathsFile vcs field (pre ++ i :: post0)
      = Ok (mkScan v [i] (foundVCs vcs pre ++ [vci]))).
  { intros post0. unfold scanField.
    now rewrite (scan_first_truthy _ _ _ _ _ _ post0 _ _ Hi Hv Ht JNull [] Hpre). }
  split; [apply Hscan | split; [ | split]].
  - intros j _ Hj. apply Forall_forall. intros vc Hvc Heq.
    apply Hj. apply in_app_or in Hvc. apply in_or_app.
    destruct Hvc as [Hvc | [<- | []]].
    + left. apply foundVCs_In in Hvc. now rewrite <- Heq.
    + right. left. rewrite <- Heq. symmetry.
      now apply (findByDocType_docType _ vcs).
  - intros vcs' post' Hagree. rewrite (Hscan post).
    assert (Hpre' : Forall (silent newDate vcPathsFile vcs' field) pre).
    { apply Forall_forall. intros d Hd. unfold silent.
      rewrite (Hagree d (in_or_app _ _ _ (or_introl Hd))).
      now apply (proj1 (Forall_forall _ _) Hpre). }
    assert (Hi' : findByDocType i vcs' = Some vci).
    { rewrite Hagree; [assumption | ]. apply in_or_app. right. now left. }
    unfold scanField.
    rewrite (scan_first_truthy _ _ _ _ _ _ post' _ _ Hi' Hv Ht JNull [] Hpre').
    rewrite (foundVCs_ext vcs vcs' pre); [reflexivity | ].
    intros d Hd. apply Hagree. apply in_or_app. now left.
  - intros pf Hnd Hin Hothers.
    apply (buildProfile_field _ _ _ _ _ _ _ Hnd Hin (Hscan post) Hothers).
Qed.

Lemma first_yielding_candidate_wins_witness :
  scanField Samples.rejectingDate Samples.vcPathsFile Samples.vcsSecondAnswers
    "gender" (["aadhaar"] ++ "casteCertificate" :: ["marksheet"])
  = Ok (mkScan (JStr "female") ["casteCertificate"]
          [Samples.aadhaarRavi; Samples.casteFemale]) /\
  Forall (fun vc => docType vc <> "marksheet")
    [Samples.aadhaarRavi; Samples.casteFemale] /\
  scanField Samples.rejectingDate Samples.vcPathsFile
    [Samples.aadhaarRavi; Samples.casteFemale] "gender"
    (["aadhaar"] ++ "casteCertificate" :: [])
  = scanField Samples.rejectingDate Samples.vcPathsFile Samples.vcsSecondAnswers
      "gender" (["aadhaar"] ++ "casteCertificate" :: ["marksheet"]) /\
  exists out,
    buildProfile Samples.rejectingDate Samples.vcPathsFile
      Samples.profileFields Samples.vcsSecondAnswers = Ok out /\
    assoc "gender" (userProfile out) = Some (JStr "female") /\
    assoc "gender" (validationData out) = Some ["casteCertificate"].
Proof.
  assert (Hpre : Forall (silent Samples.rejectingDate Samples.vcPathsFile
                           Samples.vcsSecondAnswers "gender") ["aadhaar"]).
  { constructor; [ | constructor]. exists JNull. split; reflexivity. }
  destruct (first_yielding_candidate_wins
              Samples.rejectingDate Samples.vcPathsFile
              Samples.vcsSecondAnswers "gender"
              ["aadhaar"] "casteCertificate" ["marksheet"]
              Samples.casteFemale (JStr "female")
              Hpre eq_refl eq_refl eq_refl) as (H1 & H2 & H3 & H4).
  split; [exact H1 | split; [ | split]].
  - apply (H2 "marksheet").
    + now left.
    + simpl. intros [H | [H | []]]; discriminate H.
  - apply (H3 [Samples.aadhaarRavi; Samples.casteFemale] []).
    intros d [<- | [<- | []]]; reflexivity.
  - apply (H4 Samples.profileFields).
    + repeat constructor; simpl; intuition discriminate.
    + simpl. tauto.
    + intros f c Hin _. simpl in Hin.
      repeat (destruct Hin as [Hin | Hin];
              [injection Hin as <- <-; eexists; reflexivity | ]).
      contradiction.
Defined.

(** C1, as stated, fails.  casteCertificate precedes marksheet among the
    candidates for gender and its VC yields "female"; but aadhaar is listed
    before both and yields "male", so the field is "male" with provenance
    [aadhaar], not casteCertificate's contribution. *)
Lemma earlier_candidate_overrides_pair :
  Samples.genderCandidates = ["aadhaar"; "casteCertificate"; "marksheet"] /\
  findByDocType "casteCertificate" Samples.vcsTwoAnswers
    = Some Samples.casteFemale /\
  getFieldValueFromVC Samples.rejectingDate Samples.vcPathsFile
    Samples.casteFemale "gender" = Ok (JStr "female") /\
  truthy (JStr "female") = true /\
  fieldValue (buildProfile Samples.rejectingDate Samples.vcPathsFile
                Samples.profileFields Samples.vcsTwoAnswers) "gender"
    = Some (JStr "male") /\
  fieldDocs (buildProfile Samples.rejectingDate Samples.vcPathsFile
               Samples.profileFields Samples.vcsTwoAnswers) "gender"
    = Some ["aadhaar"] /\
  JStr "male" <> JStr "female" /\
  ["aadhaar"] <> ["casteCertificate"].
Proof. repeat split; discriminate. Qed.

(** What the scan leaves behind when no candidate doc type yields a
    truthy value for a field (each has no VC in the set, or its VC yields
    a falsy value): empty provenance and a falsy value, which is null
    when no candidate has a VC and otherwise whatever the last consulted
    VC yielded; [buildProfile] stores that value and the empty list. *)
Theorem silent_candidates_leave_last_value
    (newDate : string -> result (option CalDate))
    (vcPathsFile : string -> option PathTable)
    (vcs : list VC) (field : string) (vcArray : list string) :
  Forall (silent newDate vcPathsFile vcs field) vcArray ->
  exists v,
    scanField newDate vcPathsFile vcs field vcArray
      = Ok (mkScan v [] (foundVCs vcs vcArray)) /\
    truthy v = false /\
    match lastOf (foundVCs vcs vcArray) with
    | None => v = JNull
    | Some vc => getFieldValueFromVC newDate vcPathsFile vc field = Ok v
    end /\
    (forall profileFields,
       NoDup (map fst profileFields) ->
       In (field, vcArray) profileFields ->
       (forall f c, In (f, c) profileFields -> f <> field ->
          exists r, scanField newDate vcPathsFile vcs f c = Ok r) ->
       exists out,
         buildProfile newDate vcPathsFile profileFields vcs = Ok out /\
         assoc field (userProfile out) = Some v /\
         assoc field (validationData out) = Some []).
Proof.
  intros Hq.
  destruct (scan_silent newDate vcPathsFile vcs field vcArray JNull [] Hq)
    as (v & Hscan & Hlast).
  exists v. simpl app in Hscan. fold (scanField newDate vcPathsFile vcs field vcArray) in Hscan.
  split; [exact Hscan | split; [ | split]].
  - destruct (lastOf (foundVCs vcs vcArray)).
    + apply Hlast.
    + now subst v.
  - destruct (lastOf (foundVCs vcs vcArray)); [apply Hlast | exact Hlast].
  - intros pf Hnd Hin Hothers.
    apply (buildProfile_field _ _ _ _ _ _ _ Hnd Hin Hscan Hothers).
Qed.

Lemma silent_candidates_leave_last_value_witness :
  exists v,
    scanField Samples.rejectingDate Samples.vcPathsFile [Samples.aadhaarRavi]
      "gender" Samples.genderCandidates
      = Ok (mkScan v [] (foundVCs [Samples.aadhaarRavi] Samples.genderCandidates)) /\
    truthy v = false /\
    match lastOf (foundVCs [Samples.aadhaarRavi] Samples.genderCandidates) with
    | None => v = JNull
    | Some vc => getFieldValueFromVC Samples.rejectingDate Samples.vcPathsFile
                   vc "gender" = Ok v
    end /\
    (forall profileFields,
       NoDup (map fst profileFields) ->
       In ("gender", Samples.genderCandidates) profileFields ->
       (forall f c, In (f, c) profileFields -> f <> "gender" ->
          exists r, scanField Samples.rejectingDate Samples.vcPathsFile
                      [Samples.aadhaarRavi] f c = Ok r) ->
       exists out,
         buildProfile Samples.rejectingDate Samples.vcPathsFile profileFields
           [Samples.aadhaarRavi] = Ok out /\
         assoc "gender" (userProfile out) = Some v /\
         assoc "gender" (validationData out) = Some []).
Proof.
  apply (silent_candidates_leave_last_value
           Samples.rejectingDate Samples.vcPathsFile
           [Samples.aadhaarRavi] "gender" Samples.genderCandidates).
  constructor; [ | constructor; [ | constructor; [ | constructor]]].
  - exists JNull. split; reflexivity.
  - exact I.
  - exact I.
Defined.

(** C5.  The loop of [buildProfile] assigns each extraction result to
    the field before it tests it, so a falsy result overwrites the null
    that the field starts with.  The only candidate for annualIncome is
    the income certificate.  Without one in the set the field is null with
    empty provenance; with one that states an income of 0 no candidate
    yields a value either and the provenance is empty all the same, yet
    the field holds 0 and not null.  The code that stores the profile
    treats the two cases alike: [buildUserDataAndInfo] writes null for
    either. *)
Lemma falsy_value_is_kept :
  Forall (silent Samples.rejectingDate Samples.vcPathsFile
            [Samples.incomeZero] "annualIncome") ["incomeCertificate"] /\
  fieldValue (buildProfile Samples.rejectingDate Samples.vcPathsFile
                Samples.profileFields [Samples.incomeZero]) "annualIncome"
    = Some (JNum 0) /\
  fieldDocs (buildProfile Samples.rejectingDate Samples.vcPathsFile
               Samples.profileFields [Samples.incomeZero]) "annualIncome"
    = Some [] /\
  JNum 0 <> JNull /\
  fieldValue (buildProfile Samples.rejectingDate Samples.vcPathsFile
                Samples.profileFields []) "annualIncome"
    = Some JNull /\
  fieldDocs (buildProfile Samples.rejectingDate Samples.vcPathsFile
               Samples.profileFields []) "annualIncome"
    = Some [] /\
  (out <- buildProfile Samples.rejectingDate Samples.vcPathsFile
            Samples.profileFields [Samples.incomeZero] ;;
   rows <- Persistence.buildUserDataAndInfo (userProfile out) ;;
   Ok (assoc "annualIncome" (snd rows)))
    = Ok (Some JNull).
Proof.
  split; [ | split; [reflexivity | split; [reflexivity | split;
    [discriminate | split; [reflexivity | split; reflexivity]]]]].
  constructor; [ | constructor]. exists (JNum 0). split; reflexivity.
Qed.

(** C10.  For each candidate doc type the scan consults the first VC of
    that doc type and no other: every consulted VC is the one [find]
    selects for its doc type; when it yields a falsy value the loop moves
    on to the next candidate; and removing the later VCs of a doc type
    from the set changes nothing. *)
Theorem only_first_vc_per_doc_type
    (newDate : string -> result (option CalDate))
    (vcPathsFile : string -> option PathTable)
    (vcs : list VC) (field : string) (vcArray : list string) :
  (forall r, scanField newDate vcPathsFile vcs field vcArray = Ok r ->
     Forall (fun vc => findByDocType (docType vc) vcs = Some vc)
            (scanConsulted r)) /\
  (forall d rest value seen vc v,
     findByDocType d vcs = Some vc ->
     getFieldValueFromVC newDate vcPathsFile vc field = Ok v ->
     truthy v = false ->
     scanCandidates newDate vcPathsFile vcs field (d :: rest) value seen
       = scanCandidates newDate vcPathsFile vcs field rest v (seen ++ [vc])) /\
  scanField newDate vcPathsFile (firstPerDocType vcs) field vcArray
    = scanField newDate vcPathsFile vcs field vcArray /\
  (forall front vc back,
     vcs = front ++ vc :: back ->
     scanField newDate vcPathsFile
       (front ++ vc :: filter (fun w => negb (String.eqb (docType w) (docType vc)))
                         back) field vcArray
     = scanField newDate vcPathsFile vcs field vcArray).
Proof.
  split; [ | split; [ | split]].
  - intros r Hr. unfold scanField in Hr.
    destruct (scan_consulted _ _ _ _ _ _ _ _ Hr) as (used & Hused & Hin).
    rewrite Hused. simpl. apply Forall_forall. intros vc Hvc.
    apply (foundVCs_In vcs vcArray). now apply Hin.
  - intros. now apply scan_step_falsy.
  - unfold scanField. apply scan_ext.
    intros d _. apply findByDocType_firstPerDocType.
  - intros front vc back ->. unfold scanField. apply scan_ext.
    intros d _. apply findByDocType_drop_later.
Qed.

Lemma only_first_vc_per_doc_type_witness :
  Forall (fun vc => findByDocType (docType vc) Samples.vcsTwoAadhaar = Some vc)
    [Samples.aadhaarRavi; Samples.marksheetFemale] /\
  scanCandidates Samples.rejectingDate Samples.vcPathsFile
    Samples.vcsTwoAadhaar "gender" Samples.genderCandidates JNull []
  = scanCandidates Samples.rejectingDate Samples.vcPathsFile
      Samples.vcsTwoAadhaar "gender" ["casteCertificate"; "marksheet"] JNull
      ([] ++ [Samples.aadhaarRavi]) /\
  scanField Samples.rejectingDate Samples.vcPathsFile
    [Samples.aadhaarRavi; Samples.marksheetFemale] "gender"
    Samples.genderCandidates
  = scanField Samples.rejectingDate Samples.vcPathsFile
      Samples.vcsTwoAadhaar "gender" Samples.genderCandidates /\
  scanField Samples.rejectingDate Samples.vcPathsFile
    Samples.vcsTwoAadhaar "gender" Samples.genderCandidates
  = Ok (mkScan (JStr "female") ["marksheet"]
          [Samples.aadhaarRavi; Samples.marksheetFemale]).
Proof.
  destruct (only_first_vc_per_doc_type
              Samples.rejectingDate Samples.vcPathsFile
              Samples.vcsTwoAadhaar "gender" Samples.genderCandidates)
    as (H1 & H2 & _ & H4).
  split; [ | split; [ | split]].
  - apply (H1 (mkScan (JStr "female") ["marksheet"]
                 [Samples.aadhaarRavi; Samples.marksheetFemale])).
    reflexivity.
  - apply (H2 "aadhaar" ["casteCertificate"; "marksheet"] JNull []
              Samples.aadhaarRavi JNull); reflexivity.
  - apply (H4 [] Samples.aadhaarRavi
              [Samples.aadhaarMale; Samples.marksheetFemale]). reflexivity.
  - reflexivity.
Defined.

(** *** Name fields *)

Lemma handleNameFields_of_string (vc : VC) (vcPaths : list (string * string))
    (field : string) (p : option string) (s : string) :
  ownLookup "name" vcPaths = Ok p ->
  getValue vc p = Ok (JStr s) ->
  s <> "" ->
  handleNameFields vc vcPaths field =
    (let nameParts := split " " s in
     let middleName :=
       if (List.length nameParts =? 3)%nat
       then nullish (nth_error nameParts 1) else JNull in
     if String.eqb field "firstName" then Ok (nullish (nth_error nameParts 0))
     else if String.eqb field "middleName" then Ok middleName
     else if String.eqb field "lastName"
     then Ok (if (2 <=? List.length nameParts)%nat
              then nullish (nth_error nameParts (List.length nameParts - 1))
              else JNull)
     else if String.eqb field "fatherName" then Ok middleName
     else Ok JNull).
Proof.
  intros Hp Hv Hs. unfold handleNameFields. rewrite Hp. cbn [bind].
  rewrite Hv. cbn [bind]. apply String.eqb_neq in Hs.
  unfold truthy. rewrite Hs. reflexivity.
Qed.

(** [fatherName] is whatever [middleName] is. *)
Lemma fatherName_mirrors_middleName (vc : VC) (vcPaths : list (string * string)) :
  handleNameFields vc vcPaths "fatherName"
  = handleNameFields vc vcPaths "middleName".
Proof. reflexivity. Qed.

(** [getFieldValueFromVC] has no case for the name fields: each is read
    from its own configured path. *)
Lemma getFieldValueFromVC_name_field
    (newDate : string -> result (option CalDate))
    (vcPathsFile : string -> option PathTable)
    (vc : VC) (vcPaths : list (string * string)) (field : string) :
  In field ["firstName"; "middleName"; "lastName"; "fatherName"] ->
  vcPathsFile (docType vc) = Some (Table vcPaths) ->
  getFieldValueFromVC newDate vcPathsFile vc field
  = (pathValue <- ownLookup field vcPaths ;; getValue vc pathValue).
Proof.
  intros Hf Hp. unfold getFieldValueFromVC. rewrite Hp.
  destruct Hf as [<- | [<- | [<- | [<- | []]]]]; reflexivity.
Qed.

(** C4 (as amended).  [handleNameFields], given a VC whose configured
    name path resolves to "Ravi Kumar Singh", returns "Ravi" for
    firstName, "Kumar" for middleName, "Singh" for lastName and "Kumar"
    for fatherName (the name is split at each space, the middle part is
    used only when there are exactly three parts, and fatherName is always
    the middleName result).  [buildProfile] does not call it:
    [getFieldValueFromVC] reads each of the four fields from the field's
    own path in the doc type's path table, without splitting. *)
Theorem name_fields_split_but_not_used :
  (forall vc vcPaths p,
     ownLookup "name" vcPaths = Ok p ->
     getValue vc p = Ok (JStr "Ravi Kumar Singh") ->
     handleNameFields vc vcPaths "firstName" = Ok (JStr "Ravi") /\
     handleNameFields vc vcPaths "middleName" = Ok (JStr "Kumar") /\
     handleNameFields vc vcPaths "lastName" = Ok (JStr "Singh") /\
     handleNameFields vc vcPaths "fatherName" = Ok (JStr "Kumar")) /\
  (forall vc vcPaths,
     handleNameFields vc vcPaths "fatherName"
     = handleNameFields vc vcPaths "middleName") /\
  (forall newDate vcPathsFile vc vcPaths field,
     In field ["firstName"; "middleName"; "lastName"; "fatherName"] ->
     vcPathsFile (docType vc) = Some (Table vcPaths) ->
     getFieldValueFromVC newDate vcPathsFile vc field
     = (pathValue <- ownLookup field vcPaths ;; getValue vc pathValue)).
Proof.
  split; [ | split].
  - intros vc vcPaths p Hp Hv.
    assert (Hs : "Ravi Kumar Singh" <> "") by discriminate.
    repeat split;
      rewrite (handleNameFields_of_string _ _ _ _ _ Hp Hv Hs); reflexivity.
  - apply fatherName_mirrors_middleName.
  - apply getFieldValueFromVC_name_field.
Qed.

Lemma name_fields_split_but_not_used_witness :
  (handleNameFields Samples.aadhaarRavi [("name", "credentialSubject.name")]
     "firstName" = Ok (JStr "Ravi") /\
   handleNameFields Samples.aadhaarRavi [("name", "credentialSubject.name")]
     "middleName" = Ok (JStr "Kumar") /\
   handleNameFields Samples.aadhaarRavi [("name", "credentialSubject.name")]
     "lastName" = Ok (JStr "Singh") /\
   handleNameFields Samples.aadhaarRavi [("name", "credentialSubject.name")]
     "fatherName" = Ok (JStr "Kumar")) /\
  getFieldValueFromVC Samples.rejectingDate Samples.vcPathsFile
    Samples.aadhaarRavi "firstName"
  = (pathValue <- ownLookup "firstName"
                    [("name", "credentialSubject.name");
                     ("gender", "credentialSubject.gender");
                     ("dob", "credentialSubject.dob")] ;;
     getValue Samples.aadhaarRavi pathValue).
Proof.
  destruct name_fields_split_but_not_used as (H1 & _ & H3).
  split.
  - apply (H1 Samples.aadhaarRavi [("name", "credentialSubject.name")]
              (Some "credentialSubject.name")); reflexivity.
  - apply (H3 Samples.rejectingDate Samples.vcPathsFile Samples.aadhaarRavi).
    + simpl. tauto.
    + reflexivity.
Defined.

(** C4, as stated, fails.  The set holds an aadhaar VC whose name path
    resolves to "Ravi Kumar Singh", and aadhaar is the candidate for the
    four name fields; the profile built from it has null in all four. *)
Lemma name_is_not_split_by_buildProfile :
  docType Samples.aadhaarRavi = "aadhaar" /\
  getValue Samples.aadhaarRavi (Some "credentialSubject.name")
    = Ok (JStr "Ravi Kumar Singh") /\
  Samples.vcPathsFile "aadhaar"
    = Some (Table [("name", "credentialSubject.name");
                   ("gender", "credentialSubject.gender");
                   ("dob", "credentialSubject.dob")]) /\
  fieldValue (buildProfile Samples.rejectingDate Samples.vcPathsFile
                Samples.profileFields [Samples.aadhaarRavi]) "firstName"
    = Some JNull /\
  fieldValue (buildProfile Samples.rejectingDate Samples.vcPathsFile
                Samples.profileFields [Samples.aadhaarRavi]) "middleName"
    = Some JNull /\
  fieldValue (buildProfile Samples.rejectingDate Samples.vcPathsFile
                Samples.profileFields [Samples.aadhaarRavi]) "lastName"
    = Some JNull /\
  fieldValue (buildProfile Samples.rejectingDate Samples.vcPathsFile
                Samples.profileFields [Samples.aadhaarRavi]) "fatherName"
    = Some JNull /\
  JNull <> JStr "Ravi".
Proof. repeat split; discriminate. Qed.

(* ===================================================================== *)
(** ** Properties of the validator *)
(* ===================================================================== *)

Import UserProfile.

Lemma ownLookup_assoc {A : Type} (k : string) (l : list (string * A))
    (o : option A) :
  ownLookup k l = Ok o -> assoc k l = o.
Proof.
  unfold ownLookup. destruct (assoc k l).
  - now intros [= <-].
  - destruct (inherited k); [discriminate | now intros [= <-]].
Qed.

Section ValidatorFacts.

Variable fieldValues : list (string * list (string * list string)).
Variable nameFieldsPosition : list (string * list (string * Z)).
Variable docToFieldMaps : string -> option (list Variant).
Variable config : list (string * list string).

Local Abbreviation matchValue :=
  (matchAttributeValue fieldValues nameFieldsPosition docToFieldMaps).
Local Abbreviation matches :=
  (isMatch fieldValues nameFieldsPosition docToFieldMaps).
Local Abbreviation answers :=
  (decides fieldValues nameFieldsPosition docToFieldMaps).

(** The variants before the first one that has a VC are passed over. *)
Lemma matchVariants_skip (pre rest : list Variant) (fileName attr : string)
    (vcs : list VC) (profile : list (string * JSValue)) :
  Forall (fun o => findVariantVC o fileName vcs = None) pre ->
  matchVariants fieldValues nameFieldsPosition (pre ++ rest) fileName attr
    vcs profile
  = matchVariants fieldValues nameFieldsPosition rest fileName attr vcs profile.
Proof.
  induction 1 as [ | o pre Ho _ IH]; simpl; [reflexivity | ].
  now rewrite Ho.
Qed.

Lemma isMatch_true (attr : string) (vcs : list VC)
    (profile : list (string * JSValue)) (f : string) :
  matches attr vcs profile f = true <-> matchValue f attr vcs profile = Ok true.
Proof.
  unfold isMatch.
  destruct (matchValue f attr vcs profile) as [[ | ] | | ];
    split; intros H; try reflexivity; discriminate H.
Qed.

Lemma isMatch_decided (attr : string) (vcs : list VC)
    (profile : list (string * JSValue)) (f : string) (b : bool) :
  matchValue f attr vcs profile = Ok b -> matches attr vcs profile f = b.
Proof. unfold isMatch. intros ->. now destruct b. Qed.

(** The loop over the candidates never stops early: it passes through the
    whole list and collects exactly the candidates that matched. *)
Lemma matchFiles_all (attr : string) (vcs : list VC)
    (profile : list (string * JSValue)) (files : list string) :
  Forall (answers attr vcs profile) files ->
  forall (verified : bool) (docsUsed evaluated : list string),
    matchFiles fieldValues nameFieldsPosition docToFieldMaps
      files attr vcs profile verified docsUsed evaluated
    = Ok (verified || existsb (matches attr vcs profile) files,
          docsUsed ++ filter (matches attr vcs profile) files,
          evaluated ++ files).
Proof.
  induction 1 as [ | f files [b Hb] _ IH]; intros verified docsUsed evaluated.
  - simpl. now rewrite orb_false_r, !app_nil_r.
  - simpl. rewrite Hb. cbn [bind]. rewrite (isMatch_decided _ _ _ _ _ Hb).
    destruct b; rewrite IH; rewrite <- !app_assoc; simpl.
    + now rewrite orb_true_r.
    + reflexivity.
Qed.

Lemma matchAttribute_all (attr : string) (vcs : list VC)
    (profile : list (string * JSValue)) (files : list string) :
  ownLookup attr config = Ok (Some files) ->
  Forall (answers attr vcs profile) files ->
  matchAttribute fieldValues nameFieldsPosition docToFieldMaps config
    attr vcs profile
  = Ok (verdict fieldValues nameFieldsPosition docToFieldMaps config
          vcs profile attr, files).
Proof.
  intros Hc Hall. unfold matchAttribute. rewrite Hc. cbn [bind].
  rewrite (matchFiles_all _ _ _ _ Hall). cbn [bind].
  unfold verdict, candidates. now rewrite (ownLookup_assoc _ _ _ Hc).
Qed.

Lemma matchKeys_all (vcs : list VC) (profile : list (string * JSValue))
    (keys : list string) :
  (forall attr, In attr keys ->
     exists files, ownLookup attr config = Ok (Some files) /\
                   Forall (answers attr vcs profile) files) ->
  forall response,
    matchKeys fieldValues nameFieldsPosition docToFieldMaps config
      keys vcs profile response
    = Ok (response
          ++ map (verdict fieldValues nameFieldsPosition docToFieldMaps config
                    vcs profile) keys).
Proof.
  induction keys as [ | attr keys IH]; intros Hall response.
  - simpl. now rewrite app_nil_r.
  - destruct (Hall attr (or_introl eq_refl)) as (files & Hc & Hf).
    simpl. rewrite (matchAttribute_all _ _ _ _ Hc Hf). cbn [bind fst].
    rewrite IH.
    + now rewrite <- app_assoc.
    + intros a Ha. apply Hall. now right.
Qed.

End ValidatorFacts.

(** C2.  Provided each attribute of the profile has a candidate list in
    config.json and [matchAttributeValue] returns a boolean for each
    candidate, [matchUserData] evaluates every candidate of every
    attribute: the result lists, per attribute, [verified] true exactly
    when some candidate matched and [docsUsed] holding exactly the
    candidates that matched, in order.  With two candidates of which the
    first mismatches and the second matches this is
    [{verified: true, docsUsed: [second]}]; with no match at all it is
    [{verified: false, docsUsed: []}]. *)
Theorem matchUserData_scans_every_candidate
    (fieldValues : list (string * list (string * list string)))
    (nameFieldsPosition : list (string * list (string * Z)))
    (docToFieldMaps : string -> option (list Variant))
    (config : list (string * list string))
    (userProfileInfo : list (string * JSValue)) (vcs : list VC) :
  (forall attr, In attr (map fst userProfileInfo) ->
     exists files,
       ownLookup attr config = Ok (Some files) /\
       Forall (decides fieldValues nameFieldsPosition docToFieldMaps
                 attr vcs userProfileInfo) files) ->
  matchUserData fieldValues nameFieldsPosition docToFieldMaps config
    userProfileInfo vcs
  = Ok (map (verdict fieldValues nameFieldsPosition docToFieldMaps config
               vcs userProfileInfo) (map fst userProfileInfo)) /\
  (forall attr, In attr (map fst userProfileInfo) ->
     matchAttribute fieldValues nameFieldsPosition docToFieldMaps config
       attr vcs userProfileInfo
     = Ok (verdict fieldValues nameFieldsPosition docToFieldMaps config
             vcs userProfileInfo attr, candidates config attr)) /\
  (forall attr,
     verified (verdict fieldValues nameFieldsPosition docToFieldMaps config
                 vcs userProfileInfo attr) = true
     <-> exists f, In f (candidates config attr) /\
                   matchAttributeValue fieldValues nameFieldsPosition
                     docToFieldMaps f attr vcs userProfileInfo = Ok true) /\
  (forall attr f,
     In f (docsUsed (verdict fieldValues nameFieldsPosition docToFieldMaps
                       config vcs userProfileInfo attr))
     <-> In f (candidates config attr) /\
         matchAttributeValue fieldValues nameFieldsPosition
           docToFieldMaps f attr vcs userProfileInfo = Ok true) /\
  (forall attr first second,
     candidates config attr = [first; second] ->
     matchAttributeValue fieldValues nameFieldsPosition docToFieldMaps
       first attr vcs userProfileInfo = Ok false ->
     matchAttributeValue fieldValues nameFieldsPosition docToFieldMaps
       second attr vcs userProfileInfo = Ok true ->
     verdict fieldValues nameFieldsPosition docToFieldMaps config
       vcs userProfileInfo attr
     = mkVerification attr true [second]) /\
  (forall attr,
     (forall f, In f (candidates config attr) ->
        matchAttributeValue fieldValues nameFieldsPosition docToFieldMaps
          f attr vcs userProfileInfo = Ok false) ->
     verdict fieldValues nameFieldsPosition docToFieldMaps config
       vcs userProfileInfo attr
     = mkVerification attr false []).
Proof.
  intros Hall.
  split; [ | split; [ | split; [ | split; [ | split]]]].
  - unfold matchUserData. now rewrite (matchKeys_all _ _ _ _ _ _ _ Hall).
  - intros attr Ha. destruct (Hall attr Ha) as (files & Hc & Hf).
    rewrite (matchAttribute_all _ _ _ _ _ _ _ _ Hc Hf).
    unfold candidates. now rewrite (ownLookup_assoc _ _ _ Hc).
  - intros attr. unfold verdict. simpl verified. rewrite existsb_exists.
    split; intros (f & Hin & Hm); exists f; (split; [assumption | ]);
      now apply isMatch_true.
  - intros attr f. unfold verdict. simpl docsUsed. rewrite filter_In.
    split; intros (Hin & Hm); (split; [assumption | ]); now apply isMatch_true.
  - intros attr a b Hc Ha Hb. unfold verdict. rewrite Hc. simpl.
    rewrite (isMatch_decided _ _ _ _ _ _ _ _ Ha).
    now rewrite (isMatch_decided _ _ _ _ _ _ _ _ Hb).
  - intros attr Hnone. unfold verdict. f_equal.
    + apply not_true_is_false. intros H. apply existsb_exists in H.
      destruct H as (f & Hin & Hm). apply isMatch_true in Hm.
      rewrite (Hnone f Hin) in Hm. discriminate Hm.
    + induction (candidates config attr) as [ | f l IH]; [reflexivity | ].
      simpl.
      rewrite (isMatch_decided _ _ _ _ _ _ _ _ (Hnone f (or_introl eq_refl))).
      apply IH. intros g Hg. apply Hnone. now right.
Qed.

Lemma matchUserData_scans_every_candidate_witness :
  matchUserData Samples.fieldValues Samples.nameFieldsPosition
    Samples.docToFieldMaps Samples.config Samples.profileDob
    Samples.vcsSecondMatches
  = Ok [mkVerification "dob" true ["marksheet"]] /\
  matchUserData Samples.fieldValues Samples.nameFieldsPosition
    Samples.docToFieldMaps Samples.config Samples.profileDob
    Samples.vcsNoMatch
  = Ok [mkVerification "dob" false []] /\
  verdict Samples.fieldValues Samples.nameFieldsPosition
    Samples.docToFieldMaps Samples.config Samples.vcsSecondMatches
    Samples.profileDob "dob"
  = mkVerification "dob" true ["marksheet"].
Proof.
  assert (H1 : forall attr, In attr (map fst Samples.profileDob) ->
            exists files,
              ownLookup attr Samples.config = Ok (Some files) /\
              Forall (decides Samples.fieldValues Samples.nameFieldsPosition
                        Samples.docToFieldMaps attr Samples.vcsSecondMatches
                        Samples.profileDob) files).
  { intros attr [<- | []]. exists ["aadhaar"; "marksheet"].
    split; [reflexivity | ].
    constructor; [exists false; reflexivity | ].
    constructor; [exists true; reflexivity | constructor]. }
  assert (H2 : forall attr, In attr (map fst Samples.profileDob) ->
            exists files,
              ownLookup attr Samples.config = Ok (Some files) /\
              Forall (decides Samples.fieldValues Samples.nameFieldsPosition
                        Samples.docToFieldMaps attr Samples.vcsNoMatch
                        Samples.profileDob) files).
  { intros attr [<- | []]. exists ["aadhaar"; "marksheet"].
    split; [reflexivity | ].
    constructor; [exists false; reflexivity | ].
    constructor; [exists false; reflexivity | constructor]. }
  split; [ | split].
  - etransitivity.
    + apply (proj1 (matchUserData_scans_every_candidate _ _ _ _ _ _ H1)).
    + reflexivity.
  - etransitivity.
    + apply (proj1 (matchUserData_scans_every_candidate _ _ _ _ _ _ H2)).
    + reflexivity.
  - destruct (matchUserData_scans_every_candidate _ _ _ _ _ _ H1)
      as (_ & _ & _ & _ & Htwo & _).
    apply (Htwo "dob" "aadhaar" "marksheet"); reflexivity.
Defined.

(** C9.  Within one doc type, [matchAttributeValue] returns what the
    comparison gives for the first variant of the doc type's file that has
    a VC in the set, whether that is a match, a mismatch or an exception;
    the variants after it play no part, so replacing them changes
    nothing. *)
Theorem first_variant_with_vc_decides
    (fieldValues : list (string * list (string * list string)))
    (nameFieldsPosition : list (string * list (string * Z)))
    (docToFieldMaps : string -> option (list Variant))
    (fileName profileAttribute : string) (vcs : list VC)
    (userProfile : list (string * JSValue))
    (pre : list Variant) (obj : Variant) (post : list Variant) (vc : VC) :
  docToFieldMaps fileName = Some (pre ++ obj :: post) ->
  Forall (fun o => findVariantVC o fileName vcs = None) pre ->
  findVariantVC obj fileName vcs = Some vc ->
  matchAttributeValue fieldValues nameFieldsPosition docToFieldMaps
    fileName profileAttribute vcs userProfile
  = compareWithVC fieldValues nameFieldsPosition obj vc
      profileAttribute userProfile /\
  (forall docToFieldMaps' post',
     docToFieldMaps' fileName = Some (pre ++ obj :: post') ->
     matchAttributeValue fieldValues nameFieldsPosition docToFieldMaps'
       fileName profileAttribute vcs userProfile
     = matchAttributeValue fieldValues nameFieldsPosition docToFieldMaps
         fileName profileAttribute vcs userProfile).
Proof.
  intros Hfile Hpre Hvc.
  assert (H : forall maps rest,
    maps fileName = Some (pre ++ obj :: rest) ->
    matchAttributeValue fieldValues nameFieldsPosition maps
      fileName profileAttribute vcs userProfile
    = compareWithVC fieldValues nameFieldsPosition obj vc
        profileAttribute userProfile).
  { intros maps rest Hm. unfold matchAttributeValue. rewrite Hm.
    rewrite (matchVariants_skip _ _ _ _ _ _ _ _ Hpre). simpl.
    now rewrite Hvc. }
  split.
  - now apply (H docToFieldMaps post).
  - intros maps' post' Hm. rewrite (H maps' post' Hm).
    symmetry. now apply (H docToFieldMaps post).
Qed.

(** Both variants of the aadhaar file have a VC here.  The first one
    (digilocker) states another birthday, the second one (w3c) the stored
    birthday: the answer is the mismatch of the first. *)
Lemma first_variant_with_vc_decides_witness :
  matchAttributeValue Samples.fieldValues Samples.nameFieldsPosition
    Samples.docToFieldMaps "aadhaar" "dob" Samples.vcsTwoVariants
    Samples.profileDob
  = Ok false /\
  matchAttributeValue Samples.fieldValues Samples.nameFieldsPosition
    (fun _ => Some (firstn 1 Samples.aadhaarVariants))
    "aadhaar" "dob" Samples.vcsTwoVariants Samples.profileDob
  = matchAttributeValue Samples.fieldValues Samples.nameFieldsPosition
      Samples.docToFieldMaps "aadhaar" "dob" Samples.vcsTwoVariants
      Samples.profileDob /\
  matchAttributeValue Samples.fieldValues Samples.nameFieldsPosition
    (fun _ => Some (skipn 1 Samples.aadhaarVariants))
    "aadhaar" "dob" Samples.vcsTwoVariants Samples.profileDob
  = Ok true.
Proof.
  destruct (first_variant_with_vc_decides
              Samples.fieldValues Samples.nameFieldsPosition
              Samples.docToFieldMaps "aadhaar" "dob" Samples.vcsTwoVariants
              Samples.profileDob
              [] (mkVariant "digilocker" "json"
                    [("name", "credentialSubject.name");
                     ("gender", "credentialSubject.gender");
                     ("dob", "credentialSubject.dob")])
              (skipn 1 Samples.aadhaarVariants)
              (Samples.aadhaarDob "digilocker" "dob" "01-01-2000")
              eq_refl (Forall_nil _) eq_refl) as [H1 H2].
  split; [ | split].
  - etransitivity; [exact H1 | reflexivity].
  - apply (H2 (fun _ => Some (firstn 1 Samples.aadhaarVariants)) []).
    reflexivity.
  - reflexivity.
Defined.

(** *** Values that the path does not reach *)

Lemma lowerOf_missing (v : JSValue) : missing v -> lowerOf v = Throw TypeError.
Proof. intros [-> | ->]; reflexivity. Qed.

Lemma looseEq_missing (v x : JSValue) :
  missing v ->
  looseEq v x = Ok (match x with JUndefined | JNull => true | _ => false end).
Proof. intros [-> | ->]; destruct x; reflexivity. Qed.

(** What the comparison does with a value that the path did not reach:
    with an equivalence table for the attribute, for a digilocker name
    part and for dob it raises; otherwise [undefined] (or null) is compared
    with the stored value, which matches a stored null. *)
Lemma compareWithVC_missing_value
    (fieldValues : list (string * list (string * list string)))
    (nameFieldsPosition : list (string * list (string * Z)))
    (obj : Variant) (vc : VC) (attr : string)
    (profile : list (string * JSValue))
    (own pv : option string) (v : JSValue)
    (table : option (list (string * list string))) (stored : option JSValue) :
  ownLookup attr (v_fields obj) = Ok own ->
  (if isNameAttribute attr && optEqb (vcType vc) "digilocker"
   then ownLookup "name" (v_fields obj) else Ok own) = Ok pv ->
  getAttributeValue vc pv = Ok v ->
  missing v ->
  ownLookup attr fieldValues = Ok table ->
  ownLookup attr profile = Ok stored ->
  compareWithVC fieldValues nameFieldsPosition obj vc attr profile
  = match table with
    | Some _ => Throw TypeError
    | None =>
        if isNameAttribute attr && optEqb (vcType vc) "digilocker"
        then Throw TypeError
        else if String.eqb attr "dob" then Throw TypeError
        else Ok (match orUndefined stored with
                 | JUndefined | JNull => true
                 | _ => false
                 end)
    end.
Proof.
  intros Hown Hpv Hv Hm Ht Hs. unfold compareWithVC.
  rewrite Hown. cbn [bind]. rewrite Hpv. cbn [bind].
  rewrite Hv. cbn [bind]. rewrite Ht. cbn [bind].
  destruct table as [values | ].
  - rewrite Hs. cbn [bind].
    destruct (orUndefined stored); try reflexivity. cbn [lowerOf bind].
    destruct (assoc (toLowerCase s) values); [ | reflexivity].
    now rewrite (lowerOf_missing _ Hm).
  - destruct (isNameAttribute attr && optEqb (vcType vc) "digilocker").
    + destruct Hm as [-> | ->]; reflexivity.
    + cbn [bind]. destruct (String.eqb attr "dob").
      * destruct Hm as [-> | ->]; reflexivity.
      * rewrite Hs. cbn [bind]. now apply looseEq_missing.
Qed.

(** C8.  An aadhaar VC is found but carries no birthday: the path
    resolves to [undefined] and [matchAttributeValue] raises a TypeError,
    which [matchUserData] does not catch.  The same happens for a caste
    certificate without a caste, and for a stored caste that the
    equivalence table does not list. *)
Theorem missing_value_raises_TypeError :
  findVariantVC (mkVariant "w3c" "json"
                   [("firstName", "credentialSubject.givenName");
                    ("gender", "credentialSubject.gender");
                    ("dob", "credentialSubject.birthDate")])
    "aadhaar" [Samples.aadhaarWithoutDob] = Some Samples.aadhaarWithoutDob /\
  getAttributeValue Samples.aadhaarWithoutDob
    (Some "credentialSubject.birthDate") = Ok JUndefined /\
  matchAttributeValue Samples.fieldValues Samples.nameFieldsPosition
    Samples.docToFieldMaps "aadhaar" "dob" [Samples.aadhaarWithoutDob]
    Samples.profileDob = Throw TypeError /\
  matchUserData Samples.fieldValues Samples.nameFieldsPosition
    Samples.docToFieldMaps Samples.config Samples.profileDob
    [Samples.aadhaarWithoutDob] = Throw TypeError /\
  matchAttributeValue Samples.fieldValues Samples.nameFieldsPosition
    Samples.docToFieldMaps "casteCertificate" "caste"
    [Samples.casteWithoutCaste] Samples.profileSC = Throw TypeError /\
  matchAttributeValue Samples.fieldValues Samples.nameFieldsPosition
    Samples.docToFieldMaps "casteCertificate" "caste"
    [Samples.casteGeneral] Samples.profileGeneral = Throw TypeError.
Proof. repeat split. Qed.

(* ===================================================================== *)
(** ** Further properties: resolving a path *)
(* ===================================================================== *)

Lemma split_not_nil (sep : ascii) (s : string) : split sep s <> [].
Proof.
  destruct s as [ | c r]; simpl; [discriminate | ].
  destruct (Ascii.eqb c sep); [discriminate | ].
  destruct (split sep r); discriminate.
Qed.

Lemma split_append (sep : ascii) (a b : string) :
  split sep (a ++ String sep b) = split sep a ++ split sep b.
Proof.
  induction a as [ | c r IH]; simpl.
  - now rewrite Ascii.eqb_refl.
  - rewrite IH. destruct (Ascii.eqb c sep); [reflexivity | ].
    destruct (split sep r) as [ | p ps] eqn:E; [ | reflexivity].
    now destruct (split_not_nil sep r).
Qed.

Lemma reduce_app (step : JSValue -> string -> result JSValue)
    (l1 l2 : list string) (acc : JSValue) :
  reduce step (l1 ++ l2) acc = (v <- reduce step l1 acc ;; reduce step l2 v).
Proof.
  revert acc. induction l1 as [ | p ps IH]; intros acc; simpl; [reflexivity | ].
  destruct (step acc p) as [a | e | ]; simpl; [apply IH | reflexivity ..].
Qed.

Lemma notOwn_no_throw (part : string) (e : exn) : notOwn part <> Throw e.
Proof. unfold notOwn. destruct (builtinName part); discriminate. Qed.

Lemma getMember_truthy_no_throw (acc : JSValue) (part : string) (e : exn) :
  truthy acc = true -> getMember acc part <> Throw e.
Proof.
  destruct acc as [ | | b | n | s | l | o]; cbn [truthy getMember];
    try discriminate; intros _.
  - apply notOwn_no_throw.
  - apply notOwn_no_throw.
  - destruct (arrayIndex part); [discriminate | ].
    destruct (String.eqb part "length");
      [discriminate | apply notOwn_no_throw].
  - destruct (arrayIndex part); [discriminate | ].
    destruct (String.eqb part "length");
      [discriminate | apply notOwn_no_throw].
  - unfold ownLookup. destruct (assoc part o); [discriminate | ].
    destruct (inherited part); discriminate.
Qed.

Lemma getValueStep_no_throw (acc : JSValue) (part : string) (e : exn) :
  getValueStep acc part <> Throw e.
Proof.
  unfold getValueStep. destruct (truthy acc) eqn:Ht; [ | discriminate].
  pose proof (getMember_truthy_no_throw acc part) as H.
  destruct (getMember acc part) as [m | e' | ]; simpl; try discriminate.
  intros _. now apply (H e' Ht).
Qed.

Lemma getValueStep_defined (acc : JSValue) (part : string) (v : JSValue) :
  getValueStep acc part = Ok v -> v <> JUndefined.
Proof.
  unfold getValueStep. destruct (truthy acc); [ | intros [= <-]; discriminate].
  destruct (getMember acc part) as [m | | ]; simpl; try discriminate.
  intros [= <-]. destruct m; discriminate.
Qed.

Lemma reduce_getValueStep_no_throw (parts : list string) :
  forall acc e, reduce getValueStep parts acc <> Throw e.
Proof.
  induction parts as [ | p ps IH]; intros acc e; simpl; [discriminate | ].
  pose proof (getValueStep_no_throw acc p) as H.
  destruct (getValueStep acc p) as [a | e' | ]; simpl.
  - apply IH.
  - now destruct (H e').
  - discriminate.
Qed.

Lemma reduce_getValueStep_defined (parts : list string) :
  forall acc v,
    acc <> JUndefined ->
    reduce getValueStep parts acc = Ok v -> v <> JUndefined.
Proof.
  induction parts as [ | p ps IH]; intros acc v Hacc; simpl.
  - now intros [= <-].
  - destruct (getValueStep acc p) as [a | | ] eqn:E; simpl; try discriminate.
    apply IH. now apply (getValueStep_defined acc p).
Qed.

(** From a falsy value on, every further segment gives null. *)
Lemma reduce_getValueStep_falsy (parts : list string) (acc : JSValue) :
  truthy acc = false -> parts <> [] ->
  reduce getValueStep parts acc = Ok JNull.
Proof.
  revert acc. induction parts as [ | p ps IH]; intros acc Hf Hne;
    [contradiction | ].
  simpl. unfold getValueStep at 1. rewrite Hf. simpl.
  destruct ps as [ | q qs]; [reflexivity | ].
  apply IH; [reflexivity | discriminate].
Qed.

Lemma append_not_empty (a b : string) : a <> "" -> (a ++ b)%string <> "".
Proof. destruct a; [contradiction | discriminate]. Qed.

Lemma builtinName_inherited (part : string) :
  builtinName part = false -> inherited part = false.
Proof.
  unfold builtinName, builtinNames, inherited. rewrite existsb_app.
  intros H. now apply orb_false_iff in H.
Qed.

Lemma getMember_plain (acc : JSValue) (part : string) :
  truthy acc = true -> builtinName part = false ->
  exists m, getMember acc part = Ok m.
Proof.
  intros Ht Hp.
  assert (Hn : notOwn part = Ok JUndefined) by (unfold notOwn; now rewrite Hp).
  destruct acc as [ | | b | n | s | l | o]; cbn [truthy getMember] in *;
    try discriminate Ht; rewrite ?Hn.
  - now eexists.
  - now eexists.
  - destruct (arrayIndex part); [now eexists | ].
    destruct (String.eqb part "length"); now eexists.
  - destruct (arrayIndex part); [now eexists | ].
    destruct (String.eqb part "length"); now eexists.
  - unfold ownLookup. destruct (assoc part o); [now eexists | ].
    rewrite (builtinName_inherited _ Hp). now eexists.
Qed.

Lemma getValueStep_plain (acc : JSValue) (part : string) :
  builtinName part = false -> exists v, getValueStep acc part = Ok v.
Proof.
  intros Hp. unfold getValueStep. destruct (truthy acc) eqn:Ht;
    [ | now eexists].
  destruct (getMember_plain acc part Ht Hp) as (m & ->). now eexists.
Qed.

Lemma reduce_getValueStep_plain (parts : list string) :
  forallb (fun part => negb (builtinName part)) parts = true ->
  forall acc, exists v, reduce getValueStep parts acc = Ok v.
Proof.
  induction parts as [ | q qs IH]; intros H acc; [now eexists | ].
  cbn [forallb] in H. apply andb_true_iff in H. destruct H as [Hq Hqs].
  apply negb_true_iff in Hq. cbn [reduce].
  destruct (getValueStep_plain acc q Hq) as (a & ->). cbn [bind].
  now apply IH.
Qed.

(** X1.  Whatever the document, [getValue] returns null for an absent
    or empty path, and for every path none of whose segments is the name
    of a built-in member (of Object, Array, String, Number or Boolean) it
    returns a value, which is never [undefined]: it raises no exception,
    whether the path leads through missing keys, arrays, strings, numbers
    or booleans. *)
Theorem getValue_returns_on_plain_paths (vc : VC) :
  getValue vc None = Ok JNull /\
  getValue vc (Some "") = Ok JNull /\
  (forall p, plainPath p = true ->
     exists v, getValue vc (Some p) = Ok v /\ v <> JUndefined).
Proof.
  split; [reflexivity | split; [reflexivity | ]].
  intros p Hp. cbn [getValue]. destruct (String.eqb p "");
    [exists JNull; split; [reflexivity | discriminate] | ].
  destruct (reduce_getValueStep_plain (split "." p) Hp (content vc))
    as (v & Hv).
  exists v. split; [exact Hv | ].
  destruct (split "." p) as [ | q qs] eqn:E;
    [now destruct (split_not_nil "." p) | ].
  cbn [reduce] in Hv.
  destruct (getValueStep (content vc) q) as [a | | ] eqn:Ea;
    cbn [bind] in Hv; try discriminate Hv.
  apply (reduce_getValueStep_defined qs a v);
    [now apply (getValueStep_defined _ _ _ Ea) | exact Hv].
Qed.

(** X2.  Paths compose: resolving [p.q] is resolving [p] and then [q]
    from the value found; and when [p] already resolves to a falsy value
    (a missing key gives null), every longer path [p.q] resolves to null. *)
Theorem getValue_composes (vc : VC) (p q : string) :
  p <> "" ->
  getValue vc (Some (p ++ String "." q)%string)
    = (v <- getValue vc (Some p) ;; reduce getValueStep (split "." q) v) /\
  (forall v, getValue vc (Some p) = Ok v -> truthy v = false ->
             getValue vc (Some (p ++ String "." q)%string) = Ok JNull).
Proof.
  intros Hp.
  assert (Hpq : (p ++ String "." q)%string <> "") by now apply append_not_empty.
  assert (Heq : getValue vc (Some (p ++ String "." q)%string)
                = (v <- getValue vc (Some p) ;;
                   reduce getValueStep (split "." q) v)).
  { unfold getValue.
    apply String.eqb_neq in Hp. apply String.eqb_neq in Hpq.
    rewrite Hp, Hpq, split_append. apply reduce_app. }
  split; [exact Heq | ].
  intros v Hv Hf. rewrite Heq, Hv. simpl.
  apply reduce_getValueStep_falsy; [assumption | apply split_not_nil].
Qed.

(** From a falsy value on, [getAttributeValue] keeps that value. *)
Lemma reduce_getAttributeStep_falsy (parts : list string) (acc : JSValue) :
  truthy acc = false -> reduce getAttributeStep parts acc = Ok acc.
Proof.
  intros Hf. induction parts as [ | p ps IH]; simpl; [reflexivity | ].
  unfold getAttributeStep at 1. now rewrite Hf.
Qed.

(** The two walks go through the same values as long as these are truthy. *)
Lemma resolvers_lockstep (parts : list string) :
  forall acc v,
    reduce getAttributeStep parts acc = Ok v ->
    exists w, reduce getValueStep parts acc = Ok w /\
              truthy w = truthy v /\
              (truthy v = true -> w = v).
Proof.
  induction parts as [ | p ps IH]; intros acc v H.
  - simpl in H. injection H as <-. exists acc. auto.
  - simpl in H. simpl. unfold getAttributeStep in H at 1. unfold getValueStep at 1.
    destruct (truthy acc) eqn:Ht.
    + destruct (getMember acc p) as [m | | ]; simpl in H; try discriminate H.
      simpl. destruct (truthy m) eqn:Hm.
      * destruct (IH _ _ H) as (w & Hw & Hrest).
        exists w. split; [ | exact Hrest].
        destruct m; try discriminate Hm; exact Hw.
      * rewrite (reduce_getAttributeStep_falsy ps m Hm) in H.
        injection H as <-.
        destruct ps as [ | q qs].
        -- simpl. exists (match m with JUndefined => JNull | _ => m end).
           split; [reflexivity | ].
           split; [destruct m; try reflexivity; exact Hm | ].
           intros Habs. rewrite Hm in Habs. discriminate Habs.
        -- exists JNull. split.
           ++ apply reduce_getValueStep_falsy; [ | discriminate].
              destruct m; try reflexivity; exact Hm.
           ++ rewrite Hm. split; [reflexivity | discriminate].
    + simpl in H. rewrite (reduce_getAttributeStep_falsy ps acc Ht) in H.
      injection H as <-. simpl. exists JNull. split.
      * destruct ps as [ | q qs]; [reflexivity | ].
        apply reduce_getValueStep_falsy; [reflexivity | discriminate].
      * rewrite Ht. split; [reflexivity | discriminate].
Qed.

Lemma resolvers_lockstep_back (parts : list string) :
  forall acc v,
    reduce getValueStep parts acc = Ok v ->
    truthy v = true ->
    reduce getAttributeStep parts acc = Ok v.
Proof.
  induction parts as [ | p ps IH]; intros acc v H Hv; [exact H | ].
  simpl in H. simpl. unfold getValueStep in H at 1. unfold getAttributeStep at 1.
  destruct (truthy acc) eqn:Ht.
  - destruct (getMember acc p) as [m | | ]; simpl in H; try discriminate H.
    simpl. destruct m; try (now apply IH).
    destruct ps as [ | q qs].
    + simpl in H. injection H as <-. discriminate Hv.
    + rewrite reduce_getValueStep_falsy in H; [ | reflexivity | discriminate].
      injection H as <-. discriminate Hv.
  - simpl in H. destruct ps as [ | q qs].
    + simpl in H. injection H as <-. discriminate Hv.
    + rewrite reduce_getValueStep_falsy in H; [ | reflexivity | discriminate].
      injection H as <-. discriminate Hv.
Qed.

(** X3.  On a JSON document the builder's [getValue] and the validator's
    [getAttributeValue] find the same truthy values: one returns a truthy
    value exactly when the other returns it; and whenever the validator's
    resolver returns, the builder's returns too, with a falsy value (null
    instead of [undefined]) whenever the validator's is falsy. *)
Theorem resolvers_agree (vc : VC) (p : string) :
  docFormat vc = Some "json" ->
  p <> "" ->
  (forall v, truthy v = true ->
     (getValue vc (Some p) = Ok v <-> getAttributeValue vc (Some p) = Ok v)) /\
  (forall v, getAttributeValue vc (Some p) = Ok v ->
     exists w, getValue vc (Some p) = Ok w /\ truthy w = truthy v /\
               w <> JUndefined).
Proof.
  intros Hjson Hp. apply String.eqb_neq in Hp.
  unfold getValue, getAttributeValue. rewrite Hjson, Hp. simpl optEqb.
  split.
  - intros v Hv. split; intros H.
    + now apply resolvers_lockstep_back.
    + destruct (resolvers_lockstep _ _ _ H) as (w & Hw & _ & Heq).
      now rewrite <- (Heq Hv).
  - intros v H. destruct (resolvers_lockstep _ _ _ H) as (w & Hw & Ht & _).
    exists w. split; [exact Hw | split; [exact Ht | ]].
    intros ->.
    destruct (split "." p) as [ | q qs] eqn:E;
      [now destruct (split_not_nil "." p) | ].
    simpl in Hw.
    destruct (getValueStep (content vc) q) as [a | | ] eqn:Ea; simpl in Hw;
      try discriminate Hw.
    apply (reduce_getValueStep_defined qs a JUndefined);
      [now apply (getValueStep_defined _ _ _ Ea) | assumption | reflexivity].
Qed.

(* ===================================================================== *)
(** ** Further properties: the transforms *)
(* ===================================================================== *)

Lemma rev_string_twice (s a b : string) :
  rev_string (rev_string s a) b = rev_string a (s ++ b)%string.
Proof.
  revert a b. induction s as [ | c r IH]; intros a b; simpl; [reflexivity | ].
  now rewrite IH.
Qed.

Lemma append_empty_r (s : string) : (s ++ "")%string = s.
Proof. induction s as [ | c r IH]; simpl; [reflexivity | now rewrite IH]. Qed.

Lemma allChars_rev_string (p : ascii -> bool) (s a : string) :
  allChars p (rev_string s a) = allChars p s && allChars p a.
Proof.
  revert a. induction s as [ | c r IH]; intros a; simpl; [reflexivity | ].
  rewrite IH. simpl. destruct (p c), (allChars p r); reflexivity.
Qed.

Lemma trimStart_no_space (s : string) :
  allChars (fun c => negb (isJsSpace c)) s = true -> trimStart s = s.
Proof.
  destruct s as [ | c r]; simpl; [reflexivity | ].
  destruct (isJsSpace c); [discriminate | reflexivity].
Qed.

(** [trim] leaves a string without white space as it is. *)
Lemma trim_no_space (s : string) :
  allChars (fun c => negb (isJsSpace c)) s = true -> trim s = s.
Proof.
  intros H. unfold trim, trimEnd. rewrite (trimStart_no_space s H).
  rewrite trimStart_no_space.
  - now rewrite rev_string_twice, append_empty_r.
  - rewrite allChars_rev_string, H. reflexivity.
Qed.

Lemma allChars_impl (p q : ascii -> bool) (s : string) :
  (forall c, p c = true -> q c = true) ->
  allChars p s = true -> allChars q s = true.
Proof.
  intros Hpq. induction s as [ | c r IH]; simpl; [reflexivity | ].
  intros H. apply andb_true_iff in H. destruct H as [Hc Hr].
  now rewrite (Hpq c Hc), (IH Hr).
Qed.

Lemma slugChar_facts (c : ascii) :
  slugChar c = true ->
  isJsSpace c = false /\ lowerChar c = c /\
  (isLowerAlnum c = false -> c = "_"%char) /\
  (isLowerAlnum c = true -> Ascii.eqb c "_" = false).
Proof.
  destruct c as [[] [] [] [] [] [] [] []]; intros H; try discriminate H;
    repeat split; intros H'; try reflexivity; discriminate H'.
Qed.

Lemma isLowerAlnum_not_underscore (c : ascii) :
  isLowerAlnum c = true -> Ascii.eqb c "_" = false.
Proof.
  destruct c as [[] [] [] [] [] [] [] []]; intros H; try discriminate H;
    reflexivity.
Qed.

Lemma collapse_slugChars (b : bool) (s : string) :
  allChars slugChar (collapseNonAlnum b s) = true.
Proof.
  revert b. induction s as [ | c r IH]; intros b; simpl; [reflexivity | ].
  destruct (isLowerAlnum c) eqn:E.
  - simpl. unfold slugChar at 1. rewrite E. simpl. apply IH.
  - destruct b; [apply IH | ]. simpl. apply IH.
Qed.

Lemma collapse_noUnderscoreRun (b : bool) (s : string) :
  noUnderscoreRun b (collapseNonAlnum b s) = true.
Proof.
  revert b. induction s as [ | c r IH]; intros b; simpl; [reflexivity | ].
  destruct (isLowerAlnum c) eqn:E.
  - simpl. rewrite (isLowerAlnum_not_underscore c E). apply IH.
  - destruct b; [apply IH | ]. simpl. apply IH.
Qed.

Lemma toLowerCase_slug (s : string) :
  allChars slugChar s = true -> toLowerCase s = s.
Proof.
  induction s as [ | c r IH]; simpl; [reflexivity | ].
  intros H. apply andb_true_iff in H. destruct H as [Hc Hr].
  destruct (slugChar_facts c Hc) as (_ & -> & _). now rewrite IH.
Qed.

Lemma collapse_fixed (b : bool) (s : string) :
  allChars slugChar s = true ->
  noUnderscoreRun b s = true ->
  collapseNonAlnum b s = s.
Proof.
  revert b. induction s as [ | c r IH]; intros b Hs Hn; simpl; [reflexivity | ].
  simpl in Hs. apply andb_true_iff in Hs. destruct Hs as [Hc Hr].
  simpl in Hn. destruct (slugChar_facts c Hc) as (_ & _ & Hu & Ha).
  destruct (isLowerAlnum c) eqn:E.
  - rewrite (Ha eq_refl) in Hn. now rewrite (IH false Hr Hn).
  - rewrite (Hu eq_refl) in *. simpl in Hn.
    apply andb_true_iff in Hn. destruct Hn as [Hb Hn].
    destruct b; [discriminate Hb | ]. now rewrite (IH true Hr Hn).
Qed.

Lemma slugOf_fixed (s : string) :
  allChars slugChar s = true -> noUnderscoreRun false s = true -> slugOf s = s.
Proof.
  intros Hs Hn. unfold slugOf.
  rewrite trim_no_space.
  - rewrite (toLowerCase_slug s Hs). now apply collapse_fixed.
  - apply (allChars_impl slugChar); [ | exact Hs].
    intros c Hc. now destruct (slugChar_facts c Hc) as (-> & _).
Qed.

(** X4.  [handleDisabilityTypeField] turns a non-empty string into a slug:
    only a-z, 0-9 and underscores, never two underscores in a row, and a
    slug is left unchanged by the same transformation.  A missing or falsy
    value gives null, and a truthy value that is not a string raises. *)
Theorem disabilityType_slug (vc : VC) (pathValue : option string) :
  (forall s, getValue vc pathValue = Ok (JStr s) -> s <> "" ->
     handleDisabilityTypeField vc pathValue = Ok (JStr (slugOf s)) /\
     allChars slugChar (slugOf s) = true /\
     noUnderscoreRun false (slugOf s) = true /\
     slugOf (slugOf s) = slugOf s) /\
  (forall v, getValue vc pathValue = Ok v -> truthy v = false ->
     handleDisabilityTypeField vc pathValue = Ok JNull) /\
  (forall v, getValue vc pathValue = Ok v -> truthy v = true ->
     (forall s, v <> JStr s) ->
     handleDisabilityTypeField vc pathValue = Throw TypeError).
Proof.
  split; [ | split].
  - intros s Hv Hs. unfold handleDisabilityTypeField. rewrite Hv. simpl.
    apply String.eqb_neq in Hs. rewrite Hs. simpl.
    split; [reflexivity | ].
    assert (H1 : allChars slugChar (slugOf s) = true)
      by apply collapse_slugChars.
    assert (H2 : noUnderscoreRun false (slugOf s) = true)
      by apply collapse_noUnderscoreRun.
    split; [exact H1 | split; [exact H2 | now apply slugOf_fixed]].
  - intros v Hv Hf. unfold handleDisabilityTypeField. rewrite Hv. simpl.
    now rewrite Hf.
  - intros v Hv Ht Hns. unfold handleDisabilityTypeField. rewrite Hv. simpl.
    rewrite Ht. simpl. destruct v; try reflexivity.
    now destruct (Hns s).
Qed.

Lemma romanStrings_truthy (n : nat) :
  forallb (fun s => truthy (JNum (romanToInt s))) (romanStrings n) = true ->
  forall s, String.length s = n -> allChars isRomanSymbol s = true ->
            truthy (JNum (romanToInt s)) = true.
Proof.
  intros Hall s Hlen Hs.
  apply (proj1 (forallb_forall _ _) Hall).
  rewrite <- Hlen. now apply romanStrings_complete.
Qed.

Lemma romanToInt_truthy (s : string) :
  (1 <= String.length s <= 5)%nat ->
  allChars isRomanSymbol s = true ->
  truthy (JNum (romanToInt s)) = true.
Proof.
  intros Hlen.
  assert (H : (String.length s = 1 \/ String.length s = 2 \/
               String.length s = 3 \/ String.length s = 4 \/
               String.length s = 5)%nat) by lia.
  destruct H as [H | [H | [H | [H | H]]]];
    (apply (romanStrings_truthy _) with (2 := H); vm_compute; reflexivity).
Qed.

(** X5.  What [handleClassField] does with a string: a string with any
    character other than I, V, X, L, C, D, M (a digit, a lower-case
    letter, a space) is returned unchanged, since its conversion is NaN;
    a numeral of one to five of these symbols is always replaced by a
    number, the value the subtractive-pair rule gives. *)
Theorem class_field_on_strings (vc : VC) (pathValue : option string) (s : string) :
  getValue vc pathValue = Ok (JStr s) ->
  (allChars isRomanSymbol s = false ->
     romanToInt s = nan /\ handleClassField vc pathValue = Ok (JStr s)) /\
  ((1 <= String.length s <= 5)%nat -> allChars isRomanSymbol s = true ->
     handleClassField vc pathValue
       = Ok (JNum (floatOfZ (subtractivePairValue s)))).
Proof.
  intros Hv. split.
  - intros Hs.
    assert (Hn : romanToInt s = nan) by now apply romanLoop_foreign_symbol.
    split; [exact Hn | ].
    apply (handleClassField_falsy_conversion vc pathValue (JStr s) nan Hv).
    + destruct s; [discriminate Hs | reflexivity].
    + simpl. now rewrite Hn.
    + reflexivity.
  - intros Hlen Hs.
    assert (Ht : truthy (JStr s) = true).
    { destruct s; [simpl in Hlen; lia | reflexivity]. }
    unfold handleClassField. rewrite Hv. cbn [bind]. rewrite Ht.
    cbn [negb romanToIntOf bind].
    rewrite (romanToInt_truthy s Hlen Hs). cbn [negb].
    rewrite romanToInt_subtractive_pairs; [reflexivity | lia | exact Hs].
Qed.

Lemma stripSeparators_digits (s : string) :
  allChars isAmountChar s = true ->
  allChars isDigit (stripSeparators s) = true.
Proof.
  induction s as [ | c r IH]; simpl; [reflexivity | ].
  intros H. apply andb_true_iff in H. destruct H as [Hc Hr].
  destruct (Ascii.eqb c "," || Ascii.eqb c " " || Ascii.eqb c "'") eqn:E.
  - now apply IH.
  - simpl. rewrite (IH Hr). unfold isAmountChar in Hc.
    destruct (isDigit c); [reflexivity | ].
    simpl in Hc. rewrite <- orb_assoc in Hc. simpl in Hc.
    rewrite orb_assoc in Hc. rewrite E in Hc. discriminate Hc.
Qed.

Lemma isDigit_not_space (c : ascii) :
  isDigit c = true -> negb (isJsSpace c) = true.
Proof.
  destruct c as [[] [] [] [] [] [] [] []]; intros H; try discriminate H;
    reflexivity.
Qed.

Lemma stringToNumber_digits (d : string) :
  allChars isDigit d = true ->
  (String.length d <= 15)%nat ->
  stringToNumber d = Ok (floatOfZ (digitsToZ 0 d)).
Proof.
  intros Hd Hlen. unfold stringToNumber.
  rewrite trim_no_space by (now apply (allChars_impl isDigit);
                            [apply isDigit_not_space | ]).
  destruct d as [ | c r]; [reflexivity | ].
  rewrite Hd. apply Nat.leb_le in Hlen. now rewrite Hlen.
Qed.

(** X6.  An amount written with digits, commas, spaces and apostrophes
    (at most 15 digits) is read by [handleIncomeValue] as the number its
    digits denote, wherever the separators stand; with no digit at all
    (the empty string, a lone comma) the result is the number 0. *)
Theorem income_of_grouped_digits (vc : VC) (pathValue : option string)
    (s : string) :
  getValue vc pathValue = Ok (JStr s) ->
  allChars isAmountChar s = true ->
  (String.length (stripSeparators s) <= 15)%nat ->
  handleIncomeValue vc pathValue
    = Ok (JNum (floatOfZ (digitsToZ 0 (stripSeparators s)))) /\
  (stripSeparators s = "" -> handleIncomeValue vc pathValue = Ok (JNum 0)).
Proof.
  intros Hv Hs Hlen.
  assert (H : handleIncomeValue vc pathValue
              = Ok (JNum (floatOfZ (digitsToZ 0 (stripSeparators s))))).
  { rewrite (handleIncomeValue_of _ _ _ Hv). simpl.
    rewrite (stringToNumber_digits _ (stripSeparators_digits s Hs) Hlen).
    reflexivity. }
  split; [exact H | ].
  intros He. rewrite H, He. reflexivity.
Qed.

(* ===================================================================== *)
(** ** Further properties: building a profile *)
(* ===================================================================== *)

Section BuildFacts.

Variable newDate : string -> result (option CalDate).
Variable vcPathsFile : string -> option PathTable.

Local Abbreviation getField := (getFieldValueFromVC newDate vcPathsFile).
Local Abbreviation scanFrom := (scanCandidates newDate vcPathsFile).
Local Abbreviation scan := (scanField newDate vcPathsFile).
Local Abbreviation build := (buildFields newDate vcPathsFile).

(** What the loop over the candidates can leave behind. *)
Lemma scanFrom_outcome (vcs : list VC) (field : string) (cands : list string) :
  forall value seen r,
    truthy value = false ->
    scanFrom vcs field cands value seen = Ok r ->
    (scanDocsUsed r = [] /\ truthy (scanValue r) = false) \/
    (exists d vc,
        scanDocsUsed r = [d] /\ In d cands /\
        findByDocType d vcs = Some vc /\
        getField vc field = Ok (scanValue r) /\
        truthy (scanValue r) = true).
Proof.
  induction cands as [ | d rest IH]; intros value seen r Hf H.
  - simpl in H. injection H as <-. left. auto.
  - simpl in H. destruct (findByDocType d vcs) as [vc | ] eqn:E.
    + apply bind_inv in H. destruct H as (v & Hv & H).
      destruct (truthy v) eqn:Ht.
      * injection H as <-. right. exists d, vc. simpl.
        rewrite (findByDocType_docType _ _ _ E). auto.
      * destruct (IH _ _ _ Ht H) as [Hl | (d' & vc' & H1 & H2 & Hr)].
        -- now left.
        -- right. exists d', vc'. simpl. auto.
    + destruct (IH _ _ _ Hf H) as [Hl | (d' & vc' & H1 & H2 & Hr)].
      * now left.
      * right. exists d', vc'. simpl. auto.
Qed.

Lemma setProp_fresh {A : Type} (k : string) (v : A) (l : list (string * A)) :
  ~ In k (map fst l) -> setProp k v l = l ++ [(k, v)].
Proof.
  induction l as [ | [k' v'] r IH]; simpl; intros H; [reflexivity | ].
  destruct (String.eqb k k') eqn:E.
  - apply String.eqb_eq in E. subst k'. exfalso. apply H. now left.
  - rewrite IH; [reflexivity | ]. intros Hin. apply H. now right.
Qed.

(** With distinct field names every assignment adds a property, so the
    results list the fields in the order of the configuration. *)
Lemma buildFields_shape (vcs : list VC) (pf : list (string * list string)) :
  forall acc out,
    build vcs pf acc = Ok out ->
    NoDup (map fst (userProfile acc) ++ map fst pf) ->
    map fst (validationData acc) = map fst (userProfile acc) ->
    exists rs,
      Forall2 (fun fc r => scan vcs (fst fc) (snd fc) = Ok r) pf rs /\
      userProfile out
        = userProfile acc
          ++ map (fun p => (fst (fst p), scanValue (snd p))) (combine pf rs) /\
      validationData out
        = validationData acc
          ++ map (fun p => (fst (fst p), scanDocsUsed (snd p))) (combine pf rs).
Proof.
  induction pf as [ | [f c] rest IH]; intros acc out H Hnd Hkeys.
  - simpl in H. injection H as <-. exists []. simpl.
    rewrite !app_nil_r. auto.
  - simpl in H. apply bind_inv in H. destruct H as (r & Hr & H).
    simpl in Hnd.
    assert (Hfresh : ~ In f (map fst (userProfile acc))).
    { intros Hin. apply NoDup_remove_2 in Hnd. apply Hnd.
      apply in_or_app. now left. }
    assert (Hfresh' : ~ In f (map fst (validationData acc)))
      by now rewrite Hkeys.
    rewrite (setProp_fresh _ _ _ Hfresh), (setProp_fresh _ _ _ Hfresh') in H.
    destruct (IH _ _ H) as (rs & Hrs & Hu & Hd).
    + simpl. rewrite map_app. simpl. rewrite <- app_assoc. exact Hnd.
    + simpl. now rewrite !map_app, Hkeys.
    + exists (r :: rs). simpl. split; [constructor; assumption | ].
      rewrite Hu, Hd. simpl. now rewrite <- !app_assoc.
Qed.

End BuildFacts.

Lemma Forall2_combine_fst {A B C : Type} (R : A -> B -> Prop)
    (g : A -> C) (l : list A) (rs : list B) :
  Forall2 R l rs -> map (fun p => g (fst p)) (combine l rs) = map g l.
Proof. induction 1; simpl; [reflexivity | now f_equal]. Qed.

(** X7.  Whenever [buildProfile] returns, every configured field has an
    entry in both results, and its provenance tells where the value came
    from: either the provenance is empty and the value is falsy, or it
    holds exactly one doc type, a candidate of the field whose first VC
    yields exactly the stored, truthy value. *)
Theorem provenance_explains_value
    (newDate : string -> result (option CalDate))
    (vcPathsFile : string -> option PathTable)
    (profileFields : list (string * list string)) (vcs : list VC)
    (out : Profile) :
  NoDup (map fst profileFields) ->
  buildProfile newDate vcPathsFile profileFields vcs = Ok out ->
  forall field vcArray, In (field, vcArray) profileFields ->
    exists v docs,
      assoc field (userProfile out) = Some v /\
      assoc field (validationData out) = Some docs /\
      ((docs = [] /\ truthy v = false) \/
       (exists d vc,
           docs = [d] /\ In d vcArray /\
           findByDocType d vcs = Some vc /\
           getFieldValueFromVC newDate vcPathsFile vc field = Ok v /\
           truthy v = true)).
Proof.
  intros Hnd Hb field vcArray Hin. unfold buildProfile in Hb.
  destruct (buildFields_lookup _ _ _ _ _ _ Hb Hnd _ _ Hin)
    as (r & Hr & Hu & Hd).
  exists (scanValue r), (scanDocsUsed r).
  split; [exact Hu | split; [exact Hd | ]].
  now apply (scanFrom_outcome newDate vcPathsFile vcs field vcArray JNull []).
Qed.

(** X8.  Whenever [buildProfile] returns, the profile and the provenance
    map list exactly the configured fields, in the order of the
    configuration. *)
Theorem profile_lists_configured_fields
    (newDate : string -> result (option CalDate))
    (vcPathsFile : string -> option PathTable)
    (profileFields : list (string * list string)) (vcs : list VC)
    (out : Profile) :
  NoDup (map fst profileFields) ->
  buildProfile newDate vcPathsFile profileFields vcs = Ok out ->
  map fst (userProfile out) = map fst profileFields /\
  map fst (validationData out) = map fst profileFields.
Proof.
  intros Hnd Hb. unfold buildProfile in Hb.
  destruct (buildFields_shape _ _ _ _ _ _ Hb) as (rs & Hrs & Hu & Hd);
    [exact Hnd | reflexivity | ].
  simpl in Hu, Hd. rewrite Hu, Hd, !map_map. simpl.
  split; apply (Forall2_combine_fst _ fst _ _ Hrs).
Qed.

Section BuildFacts2.

Variable newDate : string -> result (option CalDate).
Variable vcPathsFile : string -> option PathTable.

Local Abbreviation scanFrom := (scanCandidates newDate vcPathsFile).
Local Abbreviation scan := (scanField newDate vcPathsFile).
Local Abbreviation build := (buildFields newDate vcPathsFile).

Lemma scanFrom_no_vc (vcs : list VC) (field : string) (cands : list string) :
  (forall d, In d cands -> findByDocType d vcs = None) ->
  forall value seen,
    scanFrom vcs field cands value seen = Ok (mkScan value [] seen).
Proof.
  induction cands as [ | d rest IH]; intros H value seen; [reflexivity | ].
  simpl. rewrite (H d (or_introl eq_refl)). apply IH.
  intros d' Hd'. apply H. now right.
Qed.

Lemma build_no_vc (vcs : list VC) (pf : list (string * list string)) :
  (forall d, In d (allCandidates pf) -> findByDocType d vcs = None) ->
  forall acc,
    NoDup (map fst (userProfile acc) ++ map fst pf) ->
    map fst (validationData acc) = map fst (userProfile acc) ->
    build vcs pf acc
    = Ok (mkProfile
            (userProfile acc ++ map (fun fc => (fst fc, JNull)) pf)
            (validationData acc ++ map (fun fc => (fst fc, [])) pf)).
Proof.
  induction pf as [ | [f c] rest IH]; intros Hno acc Hnd Hkeys.
  - simpl. rewrite !app_nil_r. now destruct acc.
  - simpl. unfold scanField.
    rewrite scanFrom_no_vc.
    2:{ intros d Hd. apply Hno. unfold allCandidates. simpl.
        apply in_or_app. now left. }
    simpl.
    assert (Hfresh : ~ In f (map fst (userProfile acc))).
    { intros Hin. simpl in Hnd. apply NoDup_remove_2 in Hnd. apply Hnd.
      apply in_or_app. now left. }
    assert (Hfresh' : ~ In f (map fst (validationData acc)))
      by now rewrite Hkeys.
    rewrite (setProp_fresh _ _ _ Hfresh), (setProp_fresh _ _ _ Hfresh').
    rewrite IH.
    + simpl. now rewrite <- !app_assoc.
    + intros d Hd. apply Hno. unfold allCandidates. simpl.
      apply in_or_app. now right.
    + simpl. rewrite map_app. simpl. rewrite <- app_assoc. exact Hnd.
    + simpl. now rewrite !map_app, Hkeys.
Qed.

Lemma build_ext (vcs vcs' : list VC) (pf : list (string * list string)) :
  (forall d, In d (allCandidates pf) ->
     findByDocType d vcs = findByDocType d vcs') ->
  forall acc, build vcs pf acc = build vcs' pf acc.
Proof.
  induction pf as [ | [f c] rest IH]; intros H acc; [reflexivity | ].
  simpl. unfold scanField.
  rewrite (scan_ext newDate vcPathsFile vcs vcs' f c).
  - destruct (scanFrom vcs' f c JNull []) as [r | | ]; simpl; try reflexivity.
    apply IH. intros d Hd. apply H. unfold allCandidates. simpl.
    apply in_or_app. now right.
  - intros d Hd. apply H. unfold allCandidates. simpl.
    apply in_or_app. now left.
Qed.

Lemma scanFrom_raises (vcs : list VC) (field : string)
    (pre : list string) (i : string) (post : list string)
    (vci : VC) (e : exn) :
  findByDocType i vcs = Some vci ->
  getFieldValueFromVC newDate vcPathsFile vci field = Throw e ->
  forall value seen,
    Forall (silent newDate vcPathsFile vcs field) pre ->
    scanFrom vcs field (pre ++ i :: post) value seen = Throw e.
Proof.
  intros Hi He. induction pre as [ | d rest IH]; intros value seen Hq.
  - simpl. now rewrite Hi, He.
  - inversion Hq as [ | ? ? Hd Hrest]; subst. unfold silent in Hd.
    rewrite <- app_comm_cons.
    destruct (findByDocType d vcs) as [vc | ] eqn:E.
    + destruct Hd as (v & Hv & Hf).
      rewrite (scan_step_falsy _ _ _ _ _ _ _ _ _ _ E Hv Hf). now apply IH.
    + rewrite (scan_skip_missing _ _ _ _ _ _ _ _ E). now apply IH.
Qed.

Lemma build_raises (vcs : list VC) (before after : list (string * list string))
    (field : string) (cands : list string) (e : exn) :
  Forall (fun fc => exists r, scan vcs (fst fc) (snd fc) = Ok r) before ->
  scan vcs field cands = Throw e ->
  forall acc, build vcs (before ++ (field, cands) :: after) acc = Throw e.
Proof.
  intros Hb He. induction Hb as [ | [f c] rest (r & Hr) _ IH]; intros acc.
  - simpl. now rewrite He.
  - simpl. simpl in Hr. rewrite Hr. simpl. apply IH.
Qed.

End BuildFacts2.

(** X9.  When the set holds no VC of any candidate doc type (in
    particular when it is empty), [buildProfile] returns without reading
    any path file: every configured field is null and every provenance
    list is empty. *)
Theorem no_candidate_document_gives_nulls
    (newDate : string -> result (option CalDate))
    (vcPathsFile : string -> option PathTable)
    (profileFields : list (string * list string)) (vcs : list VC) :
  NoDup (map fst profileFields) ->
  Forall (fun vc => isCandidate profileFields vc = false) vcs ->
  buildProfile newDate vcPathsFile profileFields vcs
  = Ok (mkProfile (map (fun fc => (fst fc, JNull)) profileFields)
                  (map (fun fc => (fst fc, [])) profileFields)).
Proof.
  intros Hnd Hno. unfold buildProfile.
  rewrite build_no_vc; [reflexivity | | exact Hnd | reflexivity].
  intros d Hd.
  destruct (findByDocType d vcs) as [vc | ] eqn:E; [ | reflexivity].
  exfalso. unfold findByDocType in E. apply find_some in E.
  destruct E as [Hin Heq]. apply String.eqb_eq in Heq.
  pose proof (proj1 (Forall_forall _ _) Hno vc Hin) as Hc.
  unfold isCandidate in Hc.
  assert (Ht : existsb (String.eqb (docType vc)) (allCandidates profileFields)
               = true).
  { apply existsb_exists. exists d. split; [exact Hd | ].
    now apply String.eqb_eq. }
  rewrite Ht in Hc. discriminate Hc.
Qed.

(** X10.  [buildProfile] looks at the set of VCs only through the first
    VC of each candidate doc type: two sets that agree on those give the
    same outcome, so VCs of doc types that are no candidate of any field
    can be removed (or added) without changing anything. *)
Theorem other_documents_are_ignored
    (newDate : string -> result (option CalDate))
    (vcPathsFile : string -> option PathTable)
    (profileFields : list (string * list string)) (vcs : list VC) :
  (forall vcs',
     (forall d, In d (allCandidates profileFields) ->
        findByDocType d vcs' = findByDocType d vcs) ->
     buildProfile newDate vcPathsFile profileFields vcs'
     = buildProfile newDate vcPathsFile profileFields vcs) /\
  buildProfile newDate vcPathsFile profileFields
    (filter (isCandidate profileFields) vcs)
  = buildProfile newDate vcPathsFile profileFields vcs.
Proof.
  split.
  - intros vcs' H. unfold buildProfile. now apply build_ext.
  - unfold buildProfile. apply build_ext. intros d Hd.
    unfold findByDocType. apply find_filter_implies.
    intros vc Hvc. unfold isCandidate. apply existsb_exists.
    exists d. split; [exact Hd | exact Hvc].
Qed.

(** X11.  An exception raised for the first candidate that is consulted
    after the silent ones ends the whole build with that exception,
    whatever the other fields and documents hold; in particular a VC
    whose doc type has no readable path file makes [buildProfile] fail
    with an I/O error as soon as a field consults it. *)
Theorem missing_path_file_fails_build
    (newDate : string -> result (option CalDate))
    (vcPathsFile : string -> option PathTable)
    (vcs : list VC) (before after : list (string * list string))
    (field : string) (pre : list string) (i : string) (post : list string)
    (vci : VC) :
  Forall (fun fc => exists r,
            scanField newDate vcPathsFile vcs (fst fc) (snd fc) = Ok r)
         before ->
  Forall (silent newDate vcPathsFile vcs field) pre ->
  findByDocType i vcs = Some vci ->
  (forall e,
     getFieldValueFromVC newDate vcPathsFile vci field = Throw e ->
     buildProfile newDate vcPathsFile
       (before ++ (field, pre ++ i :: post) :: after) vcs = Throw e) /\
  (vcPathsFile (docType vci) = None ->
   buildProfile newDate vcPathsFile
     (before ++ (field, pre ++ i :: post) :: after) vcs = Throw IOError).
Proof.
  intros Hb Hpre Hi.
  assert (H : forall e,
    getFieldValueFromVC newDate vcPathsFile vci field = Throw e ->
    buildProfile newDate vcPathsFile
      (before ++ (field, pre ++ i :: post) :: after) vcs = Throw e).
  { intros e He. unfold buildProfile. apply build_raises; [exact Hb | ].
    unfold scanField. now apply scanFrom_raises with (vci := vci). }
  split; [exact H | ].
  intros Hnone. apply H. unfold getFieldValueFromVC. now rewrite Hnone.
Qed.

(* ===================================================================== *)
(** ** Further properties: from documents to database rows *)
(* ===================================================================== *)

Import Persistence.

Lemma profFilled_all_truthy (profile : list (string * JSValue)) :
  profFilled profile = true <-> Forall (fun kv => truthy (snd kv) = true) profile.
Proof.
  unfold profFilled. induction profile as [ | [k v] rest IH]; simpl.
  - split; [constructor | reflexivity].
  - destruct (truthy v) eqn:E; simpl.
    + rewrite IH. split; intros H.
      * constructor; assumption.
      * now inversion H.
    + split; [discriminate | ]. intros H. inversion H as [ | ? ? Hv _]; subst.
      simpl in Hv. rewrite E in Hv. discriminate Hv.
Qed.

Lemma scan_docs_iff_truthy
    (newDate : string -> result (option CalDate))
    (vcPathsFile : string -> option PathTable)
    (vcs : list VC) (field : string) (cands : list string) (r : FieldScan) :
  scanField newDate vcPathsFile vcs field cands = Ok r ->
  (truthy (scanValue r) = true <-> scanDocsUsed r <> []).
Proof.
  intros H.
  destruct (scanFrom_outcome newDate vcPathsFile vcs field cands JNull [] r
              eq_refl H) as [[Hd Hf] | (d & vc & Hd & _ & _ & _ & Ht)].
  - rewrite Hd, Hf. split; [discriminate | intros Hx; now destruct Hx].
  - rewrite Hd, Ht. split; [discriminate | reflexivity].
Qed.

(** X12.  [updateDatabase] counts the profile as filled ([profFilled])
    exactly when no field of the profile is falsy; for a profile that
    [buildProfile] returned this is exactly when every configured field
    has a doc type in its provenance list. *)
Theorem profFilled_iff_every_field_has_provenance
    (newDate : string -> result (option CalDate))
    (vcPathsFile : string -> option PathTable)
    (profileFields : list (string * list string)) (vcs : list VC)
    (out : Profile) :
  NoDup (map fst profileFields) ->
  buildProfile newDate vcPathsFile profileFields vcs = Ok out ->
  (profFilled (userProfile out) = true
   <-> Forall (fun kv => truthy (snd kv) = true) (userProfile out)) /\
  (profFilled (userProfile out) = true
   <-> Forall (fun kd => snd kd <> []) (validationData out)).
Proof.
  intros Hnd Hb. split; [apply profFilled_all_truthy | ].
  rewrite profFilled_all_truthy. unfold buildProfile in Hb.
  destruct (buildFields_shape _ _ _ _ _ _ Hb) as (rs & Hrs & Hu & Hd);
    [exact Hnd | reflexivity | ].
  simpl in Hu, Hd. rewrite Hu, Hd. clear Hu Hd Hb Hnd.
  induction Hrs as [ | [f c] r pf rs Hr _ IH]; simpl.
  - split; constructor.
  - simpl in Hr. pose proof (scan_docs_iff_truthy _ _ _ _ _ _ Hr) as Hiff.
    split; intros H; inversion H as [ | ? ? Hhd Htl]; subst; simpl in Hhd;
      constructor; simpl; try (now apply IH); now apply Hiff.
Qed.

Lemma joinedNumber_returns (v : JSValue) : exists n, joinedNumber v = Ok n.
Proof.
  unfold joinedNumber.
  destruct (unwrap v) as [ | | b | n | s | l | o]; try (now eexists).
  - apply stringToNumber_returns.
  - destruct l; now eexists.
Qed.

(** [Number] returns a number or raises a TypeError. *)
Lemma toNumber_total (v : JSValue) :
  (exists n, toNumber v = Ok n) \/ toNumber v = Throw TypeError.
Proof.
  destruct v as [ | | b | n | s | l | o]; cbn [toNumber];
    try (left; now eexists).
  - left. apply stringToNumber_returns.
  - destruct (stringRaises (JArr l)); [now right | left].
    apply joinedNumber_returns.
  - destruct (ownToString o); [now right | left; now eexists].
Qed.

Lemma toNumber_primitive (v : JSValue) :
  isPrimitive v = true -> exists n, toNumber v = Ok n.
Proof.
  destruct v as [ | | b | n | s | l | o]; cbn [toNumber isPrimitive];
    try discriminate; intros _; try (now eexists).
  apply stringToNumber_returns.
Qed.

Lemma numberOrNull_spec (v x : JSValue) :
  numberOrNull v = Ok x ->
  (truthy v = false -> x = JNull) /\
  (truthy v = true -> exists n, x = JNum n /\ toNumber v = Ok n).
Proof.
  unfold numberOrNull. destruct (truthy v).
  - intros H. apply bind_inv in H. destruct H as (n & Hn & [= <-]).
    split; [discriminate | ]. intros _. now exists n.
  - intros [= <-]. split; [reflexivity | discriminate].
Qed.

Lemma numberOrNull_total (v : JSValue) :
  (exists x, numberOrNull v = Ok x) \/ numberOrNull v = Throw TypeError.
Proof.
  unfold numberOrNull. destruct (truthy v); [ | left; now eexists].
  destruct (toNumber_total v) as [(n & ->) | ->];
    [left; now eexists | now right].
Qed.

Lemma numberOrNull_primitive (v : JSValue) :
  isPrimitive v = true -> exists x, numberOrNull v = Ok x.
Proof.
  intros H. unfold numberOrNull. destruct (truthy v); [ | now eexists].
  destruct (toNumber_primitive v H) as (n & ->). now eexists.
Qed.

Lemma numberOrNull_own_toString (props : list (string * JSValue)) :
  assoc "toString" props <> None ->
  numberOrNull (JObj props) = Throw TypeError.
Proof.
  intros H. unfold numberOrNull. cbn [truthy toNumber]. unfold ownToString.
  destruct (assoc "toString" props); [reflexivity | now destruct H].
Qed.

(** X13.  [buildUserDataAndInfo] returns the two rows or raises a
    TypeError.  It returns whenever annualIncome and class are primitive
    values; then, in the row for user_info, each of the two is null when
    the profile value is falsy (null, undefined, 0, NaN, the empty string)
    and [Number] of it when it is truthy, so a truthy number is kept as it
    is; the four properties of userData are copied from the profile.  It
    raises when one of the two is an object with an own property named
    toString, which [Number] cannot convert. *)
Theorem userInfo_numbers_or_null (profile : list (string * JSValue)) :
  ((exists userData userInfo,
       buildUserDataAndInfo profile = Ok (userData, userInfo)) \/
   buildUserDataAndInfo profile = Throw TypeError) /\
  (isPrimitive (prop profile "annualIncome") = true ->
   isPrimitive (prop profile "class") = true ->
   exists userData userInfo,
     buildUserDataAndInfo profile = Ok (userData, userInfo)) /\
  (forall userData userInfo,
     buildUserDataAndInfo profile = Ok (userData, userInfo) ->
     (forall k, k = "annualIncome" \/ k = "class" ->
        exists x,
          assoc k userInfo = Some x /\
          (truthy (prop profile k) = false -> x = JNull) /\
          (truthy (prop profile k) = true ->
             exists n, x = JNum n /\ toNumber (prop profile k) = Ok n) /\
          (forall n, prop profile k = JNum n -> truthy (JNum n) = true ->
             x = JNum n)) /\
     userData = [ ("firstName", prop profile "firstName");
                  ("lastName", prop profile "lastName");
                  ("middleName", prop profile "middleName");
                  ("dob", prop profile "dob") ]) /\
  (forall k props,
     k = "annualIncome" \/ k = "class" ->
     prop profile k = JObj props ->
     assoc "toString" props <> None ->
     buildUserDataAndInfo profile = Throw TypeError).
Proof.
  split; [ | split; [ | split]].
  - unfold buildUserDataAndInfo.
    destruct (numberOrNull_total (prop profile "annualIncome"))
      as [(a & ->) | ->]; [ | now right].
    destruct (numberOrNull_total (prop profile "class"))
      as [(c & ->) | ->]; [ | now right].
    left. cbn [bind]. now do 2 eexists.
  - intros Ha Hc. unfold buildUserDataAndInfo.
    destruct (numberOrNull_primitive _ Ha) as (a & ->).
    destruct (numberOrNull_primitive _ Hc) as (c & ->).
    cbn [bind]. now do 2 eexists.
  - intros ud ui H. unfold buildUserDataAndInfo in H.
    apply bind_inv in H. destruct H as (a & Ha & H).
    apply bind_inv in H. destruct H as (c & Hc & H).
    injection H as <- <-. split; [ | reflexivity].
    intros k [-> | ->].
    + exists a. destruct (numberOrNull_spec _ _ Ha) as [Hf Ht].
      split; [reflexivity | split; [exact Hf | split; [exact Ht | ]]].
      intros n Hn Htn. rewrite Hn in Ht. destruct (Ht Htn) as (m & -> & Hm).
      simpl in Hm. now injection Hm as ->.
    + exists c. destruct (numberOrNull_spec _ _ Hc) as [Hf Ht].
      split; [reflexivity | split; [exact Hf | split; [exact Ht | ]]].
      intros n Hn Htn. rewrite Hn in Ht. destruct (Ht Htn) as (m & -> & Hm).
      simpl in Hm. now injection Hm as ->.
  - intros k props Hk Hp Hown. unfold buildUserDataAndInfo.
    destruct Hk as [-> | ->].
    + rewrite Hp, (numberOrNull_own_toString _ Hown). reflexivity.
    + destruct (numberOrNull_total (prop profile "annualIncome"))
        as [(a & ->) | ->]; [ | reflexivity].
      cbn [bind]. rewrite Hp, (numberOrNull_own_toString _ Hown).
      reflexivity.
Qed.

Import Documents.

Lemma buildVCs_app (jsonParse : string -> option JSValue)
    (a b : list UserDoc) :
  buildVCs jsonParse (a ++ b)
  = (fst (buildVCs jsonParse a) ++ fst (buildVCs jsonParse b),
     snd (buildVCs jsonParse a) ++ snd (buildVCs jsonParse b)).
Proof.
  induction a as [ | doc rest IH]; simpl.
  - now destruct (buildVCs jsonParse b).
  - rewrite IH. destruct (buildVCs jsonParse rest) as [vcs errs].
    destruct (docData jsonParse doc); reflexivity.
Qed.

(** X14.  [buildVCs] works document by document, in order, and the work
    on a list is the work on its parts put together.  A document becomes a
    VC (its doc_subtype as doc type, without vcType and docFormat) exactly
    when its doc_data is not a string, which is taken as it is, or is a
    string that [JSON.parse] accepts, which is replaced by the parsed
    value; a string that [JSON.parse] rejects gives no VC and one logged
    message, "Invalid JSON format in doc <doc_id>:", and leaves the VCs of
    the other documents as they are. *)
Theorem buildVCs_skips_unparseable (jsonParse : string -> option JSValue)
    (a b : list UserDoc) :
  buildVCs jsonParse (a ++ b)
  = (fst (buildVCs jsonParse a) ++ fst (buildVCs jsonParse b),
     snd (buildVCs jsonParse a) ++ snd (buildVCs jsonParse b)) /\
  List.length (fst (buildVCs jsonParse a))
    + List.length (snd (buildVCs jsonParse a)) = List.length a /\
  Forall (fun vc => vcType vc = None /\ docFormat vc = None)
    (fst (buildVCs jsonParse a)) /\
  (forall bad text,
     doc_data bad = JStr text ->
     jsonParse text = None ->
     buildVCs jsonParse (a ++ bad :: b)
     = (fst (buildVCs jsonParse a) ++ fst (buildVCs jsonParse b),
        snd (buildVCs jsonParse a)
        ++ String.append
             (String.append "Invalid JSON format in doc " (doc_id bad)) ":"
           :: snd (buildVCs jsonParse b))) /\
  (forall doc text data,
     doc_data doc = JStr text ->
     jsonParse text = Some data ->
     buildVCs jsonParse (a ++ doc :: b)
     = (fst (buildVCs jsonParse a)
        ++ mkVC (doc_subtype doc) None None data :: fst (buildVCs jsonParse b),
        snd (buildVCs jsonParse a) ++ snd (buildVCs jsonParse b))) /\
  (forall doc,
     (forall text, doc_data doc <> JStr text) ->
     buildVCs jsonParse (a ++ doc :: b)
     = (fst (buildVCs jsonParse a)
        ++ mkVC (doc_subtype doc) None None (doc_data doc)
           :: fst (buildVCs jsonParse b),
        snd (buildVCs jsonParse a) ++ snd (buildVCs jsonParse b))).
Proof.
  split; [apply buildVCs_app | split; [ | split; [ | split; [ | split]]]].
  - induction a as [ | doc rest IH]; simpl; [reflexivity | ].
    destruct (buildVCs jsonParse rest) as [vcs errs]. simpl in IH.
    destruct (docData jsonParse doc); simpl; lia.
  - induction a as [ | doc rest IH]; simpl; [constructor | ].
    destruct (buildVCs jsonParse rest) as [vcs errs]. simpl in IH.
    destruct (docData jsonParse doc); simpl; [ | exact IH].
    constructor; [split; reflexivity | exact IH].
  - intros bad text Hdata Hbad. rewrite buildVCs_app. simpl.
    destruct (buildVCs jsonParse b) as [vcs errs].
    unfold docData. rewrite Hdata, Hbad. reflexivity.
  - intros doc text data Hdata Hdoc. rewrite buildVCs_app. simpl.
    destruct (buildVCs jsonParse b) as [vcs errs].
    unfold docData. rewrite Hdata, Hdoc. reflexivity.
  - intros doc Hns. rewrite buildVCs_app. simpl.
    destruct (buildVCs jsonParse b) as [vcs errs].
    unfold docData. destruct (doc_data doc) as [ | | x | n | text | l | o];
      try reflexivity.
    now destruct (Hns text).
Qed.

(* ===================================================================== *)
(** ** Further properties: dates in the validator *)
(* ===================================================================== *)

Lemma formats_eq :
  formats =
  [ ([PDigit; PDigit; PChar "-"; PDigit; PDigit; PChar "-";
      PDigit; PDigit; PDigit; PDigit], DayFirst);
    ([PDigit; PDigit; PDigit; PDigit; PChar "-"; PDigit; PDigit; PChar "-";
      PDigit; PDigit], YearFirst);
    ([PDigit; PDigit; PChar "/"; PDigit; PDigit; PChar "/";
      PDigit; PDigit; PDigit; PDigit], DayFirst);
    ([PDigit; PDigit; PDigit; PDigit; PChar "/"; PDigit; PDigit; PChar "/";
      PDigit; PDigit], YearFirst) ].
Proof. reflexivity. Qed.

Lemma digit_not_separator (c : ascii) :
  isDigit c = true ->
  Ascii.eqb "-" c = false /\ Ascii.eqb "/" c = false.
Proof.
  destruct c as [[] [] [] [] [] [] [] []]; intros H; try discriminate H;
    split; reflexivity.
Qed.

Ltac use_digits :=
  repeat first
    [ match goal with
      | H : isDigit ?c = true |- context [isDigit ?c] => rewrite H
      | H : isDigit ?c = true |- context [Ascii.eqb "-" ?c] =>
          rewrite (proj1 (digit_not_separator c H))
      | H : isDigit ?c = true |- context [Ascii.eqb "/" ?c] =>
          rewrite (proj2 (digit_not_separator c H))
      end
    | progress change (isDigit "-") with false
    | progress change (isDigit "/") with false
    | progress change (Ascii.eqb "-" "-") with true
    | progress change (Ascii.eqb "/" "/") with true
    | progress change (Ascii.eqb "-" "/") with false
    | progress change (Ascii.eqb "/" "-") with false
    | progress cbn [firstFormat regexMatch matchPrefix option_map] ].

Ltac split_digits H :=
  unfold eightDigits in H;
  repeat match type of H with
    | Forall _ (_ :: _) =>
        let Hc := fresh "Hc" in
        let Hr := fresh "Hr" in
        inversion H as [ | ? ? Hc Hr]; subst; clear H; rename Hr into H
    end;
  clear H.

Lemma firstFormat_dayFirst (sep d1 d2 m1 m2 y1 y2 y3 y4 : ascii) :
  sep = "-"%char \/ sep = "/"%char ->
  eightDigits d1 d2 m1 m2 y1 y2 y3 y4 ->
  firstFormat (dayFirst sep d1 d2 m1 m2 y1 y2 y3 y4) formats
  = JStr (yearFirst "-" d1 d2 m1 m2 y1 y2 y3 y4).
Proof.
  intros Hsep H. split_digits H. rewrite formats_eq.
  unfold dayFirst, yearFirst.
  destruct Hsep as [-> | ->]; use_digits; reflexivity.
Qed.

Lemma firstFormat_yearFirst (sep d1 d2 m1 m2 y1 y2 y3 y4 : ascii) :
  sep = "-"%char \/ sep = "/"%char ->
  eightDigits d1 d2 m1 m2 y1 y2 y3 y4 ->
  firstFormat (yearFirst sep d1 d2 m1 m2 y1 y2 y3 y4) formats
  = JStr (yearFirst sep d1 d2 m1 m2 y1 y2 y3 y4).
Proof.
  intros Hsep H. split_digits H. rewrite formats_eq.
  unfold yearFirst.
  destruct Hsep as [-> | ->]; use_digits; reflexivity.
Qed.

Lemma matchPrefix_instanceOf (pat : list PatItem) :
  forall s m, matchPrefix pat s = Some m -> instanceOf pat m.
Proof.
  induction pat as [ | [ | x] p IH]; intros s m H.
  - simpl in H. injection H as <-. exact I.
  - destruct s as [ | c r]; simpl in H; [discriminate H | ].
    destruct (isDigit c) eqn:E; [ | discriminate H].
    destruct (matchPrefix p r) as [m' | ] eqn:Em; simpl in H;
      [ | discriminate H].
    injection H as <-. simpl. split; [exact E | now apply (IH r)].
  - destruct s as [ | c r]; simpl in H; [discriminate H | ].
    destruct (Ascii.eqb x c) eqn:E; [ | discriminate H].
    destruct (matchPrefix p r) as [m' | ] eqn:Em; simpl in H;
      [ | discriminate H].
    injection H as <-. simpl. apply Ascii.eqb_eq in E.
    split; [now symmetry | now apply (IH r)].
Qed.

(** What a regular expression of the table matches is an instance of it. *)
Lemma regexMatch_instanceOf (pat : list PatItem) (s m : string) :
  regexMatch pat s = Some m -> instanceOf pat m.
Proof.
  induction s as [ | c r IH]; simpl.
  - destruct (matchPrefix pat "") eqn:E; [ | discriminate].
    intros [= <-]. now apply (matchPrefix_instanceOf pat "").
  - destruct (matchPrefix pat (String c r)) eqn:E.
    + intros [= <-]. now apply (matchPrefix_instanceOf pat (String c r)).
    + exact IH.
Qed.

Lemma instance_dayFirst (sep : ascii) (m : string) :
  instanceOf ([PDigit; PDigit; PChar sep; PDigit; PDigit; PChar sep;
               PDigit; PDigit; PDigit; PDigit]) m ->
  exists d1 d2 m1 m2 y1 y2 y3 y4,
    eightDigits d1 d2 m1 m2 y1 y2 y3 y4 /\
    m = dayFirst sep d1 d2 m1 m2 y1 y2 y3 y4.
Proof.
  intros H.
  destruct m as [ | d1 m]; simpl in H; [contradiction | ]; destruct H as [H1 H].
  destruct m as [ | d2 m]; simpl in H; [contradiction | ]; destruct H as [H2 H].
  destruct m as [ | s1 m]; simpl in H; [contradiction | ]; destruct H as [-> H].
  destruct m as [ | m1 m]; simpl in H; [contradiction | ]; destruct H as [H3 H].
  destruct m as [ | m2 m]; simpl in H; [contradiction | ]; destruct H as [H4 H].
  destruct m as [ | s2 m]; simpl in H; [contradiction | ]; destruct H as [-> H].
  destruct m as [ | y1 m]; simpl in H; [contradiction | ]; destruct H as [H5 H].
  destruct m as [ | y2 m]; simpl in H; [contradiction | ]; destruct H as [H6 H].
  destruct m as [ | y3 m]; simpl in H; [contradiction | ]; destruct H as [H7 H].
  destruct m as [ | y4 m]; simpl in H; [contradiction | ]; destruct H as [H8 H].
  destruct m; simpl in H; [ | contradiction].
  exists d1, d2, m1, m2, y1, y2, y3, y4. split; [ | reflexivity].
  unfold eightDigits. repeat constructor; assumption.
Qed.

Lemma instance_yearFirst (sep : ascii) (m : string) :
  instanceOf ([PDigit; PDigit; PDigit; PDigit; PChar sep; PDigit; PDigit;
               PChar sep; PDigit; PDigit]) m ->
  exists d1 d2 m1 m2 y1 y2 y3 y4,
    eightDigits d1 d2 m1 m2 y1 y2 y3 y4 /\
    m = yearFirst sep d1 d2 m1 m2 y1 y2 y3 y4.
Proof.
  intros H.
  destruct m as [ | y1 m]; simpl in H; [contradiction | ]; destruct H as [H5 H].
  destruct m as [ | y2 m]; simpl in H; [contradiction | ]; destruct H as [H6 H].
  destruct m as [ | y3 m]; simpl in H; [contradiction | ]; destruct H as [H7 H].
  destruct m as [ | y4 m]; simpl in H; [contradiction | ]; destruct H as [H8 H].
  destruct m as [ | s1 m]; simpl in H; [contradiction | ]; destruct H as [-> H].
  destruct m as [ | m1 m]; simpl in H; [contradiction | ]; destruct H as [H3 H].
  destruct m as [ | m2 m]; simpl in H; [contradiction | ]; destruct H as [H4 H].
  destruct m as [ | s2 m]; simpl in H; [contradiction | ]; destruct H as [-> H].
  destruct m as [ | d1 m]; simpl in H; [contradiction | ]; destruct H as [H1 H].
  destruct m as [ | d2 m]; simpl in H; [contradiction | ]; destruct H as [H2 H].
  destruct m; simpl in H; [ | contradiction].
  exists d1, d2, m1, m2, y1, y2, y3, y4. split; [ | reflexivity].
  unfold eightDigits. repeat constructor; assumption.
Qed.

Lemma yearFirst_instance (sep d1 d2 m1 m2 y1 y2 y3 y4 : ascii) :
  eightDigits d1 d2 m1 m2 y1 y2 y3 y4 ->
  instanceOf ([PDigit; PDigit; PDigit; PDigit; PChar sep; PDigit; PDigit;
               PChar sep; PDigit; PDigit])
    (yearFirst sep d1 d2 m1 m2 y1 y2 y3 y4).
Proof. intros H. split_digits H. simpl. tauto. Qed.

Lemma firstFormat_cons (s : string) (regex : list PatItem)
    (layout : DateLayout) (rest : list (list PatItem * DateLayout)) :
  firstFormat s ((regex, layout) :: rest)
  = match regexMatch regex s with
    | Some m =>
        match layout with
        | DayFirst =>
            JStr (substring 6 4 m ++ "-" ++ substring 3 2 m ++ "-"
                  ++ substring 0 2 m)
        | YearFirst => JStr m
        end
    | None => firstFormat s rest
    end.
Proof. reflexivity. Qed.

(** Whatever string [parseToStandardFormat] returns is written year
    first, with the separators of the text it was found in or hyphens. *)
Lemma firstFormat_shape (s t : string) :
  firstFormat s formats = JStr t ->
  exists sep d1 d2 m1 m2 y1 y2 y3 y4,
    (sep = "-"%char \/ sep = "/"%char) /\
    eightDigits d1 d2 m1 m2 y1 y2 y3 y4 /\
    t = yearFirst sep d1 d2 m1 m2 y1 y2 y3 y4.
Proof.
  rewrite formats_eq. rewrite firstFormat_cons.
  match goal with
  | |- context [regexMatch ?p s] =>
      destruct (regexMatch p s) as [m | ] eqn:E1
  end.
  { apply regexMatch_instanceOf, instance_dayFirst in E1.
    destruct E1 as (d1 & d2 & m1 & m2 & y1 & y2 & y3 & y4 & Hd & ->).
    intros [= <-]. exists "-"%char, d1, d2, m1, m2, y1, y2, y3, y4. auto. }
  rewrite firstFormat_cons.
  match goal with
  | |- context [regexMatch ?p s] =>
      destruct (regexMatch p s) as [m | ] eqn:E2
  end.
  { apply regexMatch_instanceOf, instance_yearFirst in E2.
    destruct E2 as (d1 & d2 & m1 & m2 & y1 & y2 & y3 & y4 & Hd & ->).
    intros [= <-]. exists "-"%char, d1, d2, m1, m2, y1, y2, y3, y4. auto. }
  rewrite firstFormat_cons.
  match goal with
  | |- context [regexMatch ?p s] =>
      destruct (regexMatch p s) as [m | ] eqn:E3
  end.
  { apply regexMatch_instanceOf, instance_dayFirst in E3.
    destruct E3 as (d1 & d2 & m1 & m2 & y1 & y2 & y3 & y4 & Hd & ->).
    intros [= <-]. exists "-"%char, d1, d2, m1, m2, y1, y2, y3, y4. auto. }
  rewrite firstFormat_cons.
  match goal with
  | |- context [regexMatch ?p s] =>
      destruct (regexMatch p s) as [m | ] eqn:E4
  end.
  { apply regexMatch_instanceOf, instance_yearFirst in E4.
    destruct E4 as (d1 & d2 & m1 & m2 & y1 & y2 & y3 & y4 & Hd & ->).
    intros [= <-]. exists "/"%char, d1, d2, m1, m2, y1, y2, y3, y4. auto. }
  discriminate.
Qed.

Lemma firstFormat_null_or_string (s : string) :
  firstFormat s formats = JNull \/ exists t, firstFormat s formats = JStr t.
Proof.
  induction formats as [ | [regex layout] rest IH]; simpl; [now left | ].
  destruct (regexMatch regex s); [ | exact IH].
  right. destruct layout; eauto.
Qed.

(** X15.  [parseToStandardFormat] reorders text and checks nothing else:
    a date written DD-MM-YYYY or DD/MM/YYYY comes back as YYYY-MM-DD,
    whatever the digits are (no day or month is out of range for it); a
    date written YYYY-MM-DD comes back unchanged, and so does one written
    YYYY/MM/DD, slashes included. *)
Theorem parseToStandardFormat_reorders (d1 d2 m1 m2 y1 y2 y3 y4 : ascii) :
  eightDigits d1 d2 m1 m2 y1 y2 y3 y4 ->
  parseToStandardFormat (JStr (dayFirst "-" d1 d2 m1 m2 y1 y2 y3 y4))
    = Ok (JStr (yearFirst "-" d1 d2 m1 m2 y1 y2 y3 y4)) /\
  parseToStandardFormat (JStr (dayFirst "/" d1 d2 m1 m2 y1 y2 y3 y4))
    = Ok (JStr (yearFirst "-" d1 d2 m1 m2 y1 y2 y3 y4)) /\
  parseToStandardFormat (JStr (yearFirst "-" d1 d2 m1 m2 y1 y2 y3 y4))
    = Ok (JStr (yearFirst "-" d1 d2 m1 m2 y1 y2 y3 y4)) /\
  parseToStandardFormat (JStr (yearFirst "/" d1 d2 m1 m2 y1 y2 y3 y4))
    = Ok (JStr (yearFirst "/" d1 d2 m1 m2 y1 y2 y3 y4)).
Proof.
  intros H. unfold parseToStandardFormat.
  rewrite !firstFormat_dayFirst, !firstFormat_yearFirst; auto.
Qed.

(** X16.  [parseToStandardFormat] raises on anything that is not a
    string and otherwise returns null or a string of ten characters
    written year first (YYYY-MM-DD or YYYY/MM/DD); normalising such a
    result again gives the same string. *)
Theorem parseToStandardFormat_idempotent :
  (forall v, (forall s, v <> JStr s) ->
     parseToStandardFormat v = Throw TypeError) /\
  (forall s,
     parseToStandardFormat (JStr s) = Ok JNull \/
     exists t, parseToStandardFormat (JStr s) = Ok (JStr t)) /\
  (forall s t,
     parseToStandardFormat (JStr s) = Ok (JStr t) ->
     (instanceOf yearFirstHyphen t \/ instanceOf yearFirstSlash t) /\
     String.length t = 10 /\
     parseToStandardFormat (JStr t) = Ok (JStr t)).
Proof.
  split; [ | split].
  - intros v Hv. destruct v; try reflexivity. now destruct (Hv s).
  - intros s. unfold parseToStandardFormat.
    destruct (firstFormat_null_or_string s) as [-> | (t & ->)]; eauto.
  - intros s t H. unfold parseToStandardFormat in H. injection H as H.
    destruct (firstFormat_shape s t H)
      as (sep & d1 & d2 & m1 & m2 & y1 & y2 & y3 & y4 & Hsep & Hd & ->).
    split; [ | split].
    + destruct Hsep as [-> | ->]; [left | right];
        now apply (yearFirst_instance _ d1 d2 m1 m2 y1 y2 y3 y4).
    + reflexivity.
    + unfold parseToStandardFormat. now rewrite firstFormat_yearFirst.
Qed.

(* ===================================================================== *)
(** ** Further properties: matching a profile *)
(* ===================================================================== *)

Section MatchFacts.

Variable fieldValues : list (string * list (string * list string)).
Variable nameFieldsPosition : list (string * list (string * Z)).
Variable docToFieldMaps : string -> option (list Variant).
Variable config : list (string * list string).

Local Abbreviation matchValue :=
  (matchAttributeValue fieldValues nameFieldsPosition docToFieldMaps).
Local Abbreviation matches :=
  (isMatch fieldValues nameFieldsPosition docToFieldMaps).
Local Abbreviation answers :=
  (decides fieldValues nameFieldsPosition docToFieldMaps).
Local Abbreviation verdictOf :=
  (verdict fieldValues nameFieldsPosition docToFieldMaps config).
Local Abbreviation matchOne :=
  (matchAttribute fieldValues nameFieldsPosition docToFieldMaps config).
Local Abbreviation matchAll :=
  (matchKeys fieldValues nameFieldsPosition docToFieldMaps config).

Lemma matchFiles_returns (attr : string) (vcs : list VC)
    (profile : list (string * JSValue)) (files : list string) :
  forall verified docsUsed evaluated r,
    matchFiles fieldValues nameFieldsPosition docToFieldMaps
      files attr vcs profile verified docsUsed evaluated = Ok r ->
    Forall (answers attr vcs profile) files.
Proof.
  induction files as [ | f rest IH]; intros v d e r H; [constructor | ].
  simpl in H. apply bind_inv in H. destruct H as (b & Hb & H).
  constructor; [now exists b | ].
  destruct b; eapply IH; exact H.
Qed.

Lemma matchAttribute_returns (attr : string) (vcs : list VC)
    (profile : list (string * JSValue))
    (r : VerificationResult * list string) :
  matchOne attr vcs profile = Ok r ->
  r = (verdictOf vcs profile attr, candidates config attr).
Proof.
  intros H. pose proof H as H0. unfold matchAttribute in H.
  apply bind_inv in H. destruct H as (files & Hc & H).
  destruct files as [files | ]; [ | discriminate H].
  apply bind_inv in H. destruct H as (x & Hx & _).
  apply matchFiles_returns in Hx.
  rewrite (matchAttribute_all _ _ _ _ _ _ _ _ Hc Hx) in H0.
  injection H0 as <-. unfold candidates.
  now rewrite (ownLookup_assoc _ _ _ Hc).
Qed.

Lemma matchKeys_returns (vcs : list VC) (profile : list (string * JSValue))
    (keys : list string) :
  forall response res,
    matchAll keys vcs profile response = Ok res ->
    res = response ++ map (verdictOf vcs profile) keys.
Proof.
  induction keys as [ | attr keys IH]; intros response res H.
  - simpl in H. injection H as <-. now rewrite app_nil_r.
  - simpl in H. apply bind_inv in H. destruct H as (r & Hr & H).
    rewrite (matchAttribute_returns _ _ _ _ Hr) in H. simpl in H.
    rewrite (IH _ _ H). now rewrite <- app_assoc.
Qed.

Lemma verdict_consistent (vcs : list VC) (profile : list (string * JSValue))
    (attr : string) :
  (verified (verdictOf vcs profile attr) = true
   <-> docsUsed (verdictOf vcs profile attr) <> []) /\
  incl (docsUsed (verdictOf vcs profile attr)) (candidates config attr) /\
  attribute (verdictOf vcs profile attr) = attr.
Proof.
  unfold verdict. simpl. split; [ | split; [ | reflexivity]].
  - induction (candidates config attr) as [ | f l IH]; simpl.
    + split; [discriminate | intros H; now destruct H].
    + destruct (matches attr vcs profile f); simpl.
      * split; [discriminate | reflexivity].
      * exact IH.
  - intros f Hf. apply filter_In in Hf. tauto.
Qed.

Lemma verdict_unverified (vcs : list VC) (profile : list (string * JSValue))
    (attr : string) :
  (forall f, In f (candidates config attr) ->
             matchValue f attr vcs profile = Ok false) ->
  verdictOf vcs profile attr = unverified attr.
Proof.
  intros H. unfold verdict, unverified.
  induction (candidates config attr) as [ | f l IH]; [reflexivity | ].
  simpl. rewrite (isMatch_decided _ _ _ _ _ _ _ _ (H f (or_introl eq_refl))).
  simpl. apply IH. intros g Hg. apply H. now right.
Qed.

Lemma matchFiles_raises (attr : string) (vcs : list VC)
    (profile : list (string * JSValue))
    (pre : list string) (f : string) (post : list string) (e : exn) :
  matchValue f attr vcs profile = Throw e ->
  Forall (answers attr vcs profile) pre ->
  forall verified docsUsed evaluated,
    matchFiles fieldValues nameFieldsPosition docToFieldMaps
      (pre ++ f :: post) attr vcs profile verified docsUsed evaluated
    = Throw e.
Proof.
  intros He. induction 1 as [ | g pre [b Hb] _ IH]; intros v d ev; simpl.
  - now rewrite He.
  - rewrite Hb. simpl. destruct b; apply IH.
Qed.

Lemma matchKeys_raises (vcs : list VC) (profile : list (string * JSValue))
    (before : list string) (attr : string) (after : list string) (e : exn) :
  matchOne attr vcs profile = Throw e ->
  Forall (fun a => exists r, matchOne a vcs profile = Ok r) before ->
  forall response,
    matchAll (before ++ attr :: after) vcs profile response = Throw e.
Proof.
  intros He. induction 1 as [ | a before [r Hr] _ IH]; intros response; simpl.
  - now rewrite He.
  - rewrite Hr. simpl. apply IH.
Qed.

End MatchFacts.

(** X17.  Whenever [matchUserData] returns, the result has one entry per
    key of the profile, in the order of the keys; each entry's verified
    flag is true exactly when its docsUsed list is not empty, and docsUsed
    holds only doc types configured for that attribute. *)
Theorem matchUserData_result_shape
    (fieldValues : list (string * list (string * list string)))
    (nameFieldsPosition : list (string * list (string * Z)))
    (docToFieldMaps : string -> option (list Variant))
    (config : list (string * list string))
    (userProfileInfo : list (string * JSValue)) (vcs : list VC)
    (res : list VerificationResult) :
  matchUserData fieldValues nameFieldsPosition docToFieldMaps config
    userProfileInfo vcs = Ok res ->
  map attribute res = map fst userProfileInfo /\
  List.length res = List.length userProfileInfo /\
  Forall (fun r =>
            (verified r = true <-> docsUsed r <> []) /\
            incl (docsUsed r) (candidates config (attribute r))) res.
Proof.
  intros H. unfold matchUserData in H.
  apply matchKeys_returns in H. simpl in H. subst res.
  split; [ | split].
  - rewrite map_map.
    rewrite <- (map_id (map fst userProfileInfo)) at 2.
    apply map_ext. intros a.
    apply (verdict_consistent fieldValues nameFieldsPosition docToFieldMaps
             config vcs userProfileInfo a).
  - now rewrite !length_map.
  - apply Forall_forall. intros r Hr. apply in_map_iff in Hr.
    destruct Hr as (a & <- & _).
    destruct (verdict_consistent fieldValues nameFieldsPosition docToFieldMaps
                config vcs userProfileInfo a) as (H1 & H2 & H3).
    rewrite H3. auto.
Qed.

Lemma findVariantVC_untyped (obj : Variant) (fileName : string)
    (vcs : list VC) :
  Forall (fun vc => vcType vc = None \/ docFormat vc = None) vcs ->
  findVariantVC obj fileName vcs = None.
Proof.
  unfold findVariantVC. induction 1 as [ | vc rest Hvc _ IH]; [reflexivity | ].
  simpl. destruct Hvc as [-> | ->]; simpl.
  - exact IH.
  - rewrite andb_false_r. exact IH.
Qed.

Lemma matchVariants_no_vc
    (fieldValues : list (string * list (string * list string)))
    (nameFieldsPosition : list (string * list (string * Z)))
    (fileContent : list Variant) (fileName attr : string) (vcs : list VC)
    (profile : list (string * JSValue)) :
  (forall obj, In obj fileContent -> findVariantVC obj fileName vcs = None) ->
  matchVariants fieldValues nameFieldsPosition fileContent fileName attr
    vcs profile = Ok false.
Proof.
  induction fileContent as [ | obj rest IH]; intros H; [reflexivity | ].
  simpl. rewrite (H obj (or_introl eq_refl)). apply IH.
  intros o Ho. apply H. now right.
Qed.

(** X18.  Without a VC that carries both a vcType and a docFormat (in
    particular without any VC, or with VCs as [buildVCs] makes them),
    nothing is verified: provided every attribute of the profile has a
    candidate list and every candidate's file can be read, [matchUserData]
    returns [{verified: false, docsUsed: []}] for every attribute, and no
    comparison is made. *)
Theorem no_typed_document_verifies_nothing
    (fieldValues : list (string * list (string * list string)))
    (nameFieldsPosition : list (string * list (string * Z)))
    (docToFieldMaps : string -> option (list Variant))
    (config : list (string * list string))
    (userProfileInfo : list (string * JSValue)) (vcs : list VC) :
  Forall (fun vc => vcType vc = None \/ docFormat vc = None) vcs ->
  (forall attr, In attr (map fst userProfileInfo) ->
     exists files,
       ownLookup attr config = Ok (Some files) /\
       forall f, In f files -> docToFieldMaps f <> None) ->
  matchUserData fieldValues nameFieldsPosition docToFieldMaps config
    userProfileInfo vcs
  = Ok (map unverified (map fst userProfileInfo)).
Proof.
  intros Hvcs Hcfg.
  assert (Hfalse : forall attr f, docToFieldMaps f <> None ->
            matchAttributeValue fieldValues nameFieldsPosition docToFieldMaps
              f attr vcs userProfileInfo = Ok false).
  { intros attr f Hf. unfold matchAttributeValue.
    destruct (docToFieldMaps f) as [fc | ]; [ | now destruct Hf].
    apply matchVariants_no_vc. intros obj _.
    now apply findVariantVC_untyped. }
  unfold matchUserData. rewrite matchKeys_all.
  - simpl. f_equal. apply map_ext_in. intros attr Ha.
    destruct (Hcfg attr Ha) as (files & Hc & Hr).
    apply verdict_unverified. intros f Hf. apply Hfalse. apply Hr.
    unfold candidates in Hf. now rewrite (ownLookup_assoc _ _ _ Hc) in Hf.
  - intros attr Ha. destruct (Hcfg attr Ha) as (files & Hc & Hr).
    exists files. split; [exact Hc | ].
    apply Forall_forall. intros f Hf. exists false.
    apply Hfalse. now apply Hr.
Qed.

(** X19.  [matchUserData] gives no partial result: when the attributes
    before one return, an exception raised for a candidate of that one
    (after candidates that returned) is the outcome of the whole call.
    So a candidate whose file cannot be read rejects the call with an
    I/O error, and a profile key without an entry in config.json rejects
    it with a TypeError. *)
Theorem matchUserData_rejects_as_a_whole
    (fieldValues : list (string * list (string * list string)))
    (nameFieldsPosition : list (string * list (string * Z)))
    (docToFieldMaps : string -> option (list Variant))
    (config : list (string * list string))
    (userProfileInfo : list (string * JSValue)) (vcs : list VC)
    (before : list string) (attr : string) (after : list string) :
  map fst userProfileInfo = before ++ attr :: after ->
  Forall (fun a => exists r,
            matchAttribute fieldValues nameFieldsPosition docToFieldMaps
              config a vcs userProfileInfo = Ok r) before ->
  (ownLookup attr config = Ok None ->
   matchUserData fieldValues nameFieldsPosition docToFieldMaps config
     userProfileInfo vcs = Throw TypeError) /\
  (forall pre f post e,
     ownLookup attr config = Ok (Some (pre ++ f :: post)) ->
     Forall (decides fieldValues nameFieldsPosition docToFieldMaps
               attr vcs userProfileInfo) pre ->
     matchAttributeValue fieldValues nameFieldsPosition docToFieldMaps
       f attr vcs userProfileInfo = Throw e ->
     matchUserData fieldValues nameFieldsPosition docToFieldMaps config
       userProfileInfo vcs = Throw e) /\
  (forall pre f post,
     ownLookup attr config = Ok (Some (pre ++ f :: post)) ->
     Forall (decides fieldValues nameFieldsPosition docToFieldMaps
               attr vcs userProfileInfo) pre ->
     docToFieldMaps f = None ->
     matchUserData fieldValues nameFieldsPosition docToFieldMaps config
       userProfileInfo vcs = Throw IOError).
Proof.
  intros Hkeys Hbefore.
  assert (Hgen : forall pre f post e,
     ownLookup attr config = Ok (Some (pre ++ f :: post)) ->
     Forall (decides fieldValues nameFieldsPosition docToFieldMaps
               attr vcs userProfileInfo) pre ->
     matchAttributeValue fieldValues nameFieldsPosition docToFieldMaps
       f attr vcs userProfileInfo = Throw e ->
     matchUserData fieldValues nameFieldsPosition docToFieldMaps config
       userProfileInfo vcs = Throw e).
  { intros pre f post e Hc Hpre He. unfold matchUserData. rewrite Hkeys.
    apply matchKeys_raises; [ | exact Hbefore].
    unfold matchAttribute. rewrite Hc. simpl.
    now rewrite (matchFiles_raises _ _ _ _ _ _ _ _ _ _ He Hpre). }
  split; [ | split; [exact Hgen | ]].
  - intros Hc. unfold matchUserData. rewrite Hkeys.
    apply matchKeys_raises; [ | exact Hbefore].
    unfold matchAttribute. now rewrite Hc.
  - intros pre f post Hc Hpre Hnone. apply (Hgen pre f post); auto.
    unfold matchAttributeValue. now rewrite Hnone.
Qed.

(* ===================================================================== *)
(** ** Further properties: comparing one value *)
(* ===================================================================== *)

Lemma lowerChar_idempotent (c : ascii) : lowerChar (lowerChar c) = lowerChar c.
Proof. destruct c as [[] [] [] [] [] [] [] []]; reflexivity. Qed.

Lemma toLowerCase_idempotent (s : string) :
  toLowerCase (toLowerCase s) = toLowerCase s.
Proof.
  induction s as [ | c r IH]; simpl; [reflexivity | ].
  now rewrite lowerChar_idempotent, IH.
Qed.

Lemma existsb_never {A : Type} (p : A -> bool) (l : list A) :
  (forall x, In x l -> p x = false) -> existsb p l = false.
Proof.
  induction l as [ | x r IH]; intros H; [reflexivity | ].
  simpl. rewrite (H x (or_introl eq_refl)). apply IH.
  intros y Hy. apply H. now right.
Qed.

(** X20.  A VC whose docFormat is not "json" has no readable value: the
    comparison behaves as for a missing value.  It raises a TypeError for
    an attribute with an equivalence table, for a digilocker name part
    and for dob, and otherwise it compares [undefined] with the stored
    value; so such a VC can confirm nothing but an attribute whose stored
    value is null (or absent). *)
Theorem non_json_document_confirms_only_null
    (fieldValues : list (string * list (string * list string)))
    (nameFieldsPosition : list (string * list (string * Z)))
    (obj : Variant) (vc : VC) (attr : string)
    (profile : list (string * JSValue))
    (own pv : option string)
    (table : option (list (string * list string))) (stored : option JSValue) :
  optEqb (docFormat vc) "json" = false ->
  ownLookup attr (v_fields obj) = Ok own ->
  (if isNameAttribute attr && optEqb (vcType vc) "digilocker"
   then ownLookup "name" (v_fields obj) else Ok own) = Ok pv ->
  ownLookup attr fieldValues = Ok table ->
  ownLookup attr profile = Ok stored ->
  getAttributeValue vc pv = Ok JUndefined /\
  compareWithVC fieldValues nameFieldsPosition obj vc attr profile
  = match table with
    | Some _ => Throw TypeError
    | None =>
        if isNameAttribute attr && optEqb (vcType vc) "digilocker"
        then Throw TypeError
        else if String.eqb attr "dob" then Throw TypeError
        else Ok (match orUndefined stored with
                 | JUndefined | JNull => true
                 | _ => false
                 end)
    end /\
  (compareWithVC fieldValues nameFieldsPosition obj vc attr profile = Ok true ->
   stored = None \/ stored = Some JUndefined \/ stored = Some JNull).
Proof.
  intros Hfmt Hown Hpv Ht Hs.
  assert (Hv : getAttributeValue vc pv = Ok JUndefined).
  { unfold getAttributeValue. now rewrite Hfmt. }
  assert (Hc := compareWithVC_missing_value fieldValues nameFieldsPosition
                  obj vc attr profile own pv JUndefined table stored
                  Hown Hpv Hv (or_introl eq_refl) Ht Hs).
  split; [exact Hv | split; [exact Hc | ]].
  rewrite Hc. destruct table; [discriminate | ].
  destruct (isNameAttribute attr && optEqb (vcType vc) "digilocker");
    [discriminate | ].
  destruct (String.eqb attr "dob"); [discriminate | ].
  destruct stored as [[ | | b | n | s | l | o] | ]; simpl; intros H;
    try discriminate H; auto.
Qed.

(** X21.  For an attribute with an equivalence table the comparison
    looks only at the lower-case forms of the stored value and of the
    document's value: it finds the synonyms listed under the lower-cased
    stored value and tests whether the lower-cased document value is one
    of them, and raises a TypeError when the table has no such entry.
    A synonym written with an upper-case letter therefore never matches. *)
Theorem categorical_comparison_is_lower_case
    (fieldValues : list (string * list (string * list string)))
    (nameFieldsPosition : list (string * list (string * Z)))
    (obj : Variant) (vc : VC) (attr : string)
    (profile : list (string * JSValue))
    (own pv : option string) (a s : string)
    (values : list (string * list string)) :
  ownLookup attr (v_fields obj) = Ok own ->
  (if isNameAttribute attr && optEqb (vcType vc) "digilocker"
   then ownLookup "name" (v_fields obj) else Ok own) = Ok pv ->
  getAttributeValue vc pv = Ok (JStr a) ->
  ownLookup attr fieldValues = Ok (Some values) ->
  ownLookup attr profile = Ok (Some (JStr s)) ->
  compareWithVC fieldValues nameFieldsPosition obj vc attr profile
  = match assoc (toLowerCase s) values with
    | Some synonyms => Ok (existsb (String.eqb (toLowerCase a)) synonyms)
    | None => Throw TypeError
    end /\
  (forall synonyms,
     assoc (toLowerCase s) values = Some synonyms ->
     (forall x, In x synonyms -> toLowerCase x <> x) ->
     compareWithVC fieldValues nameFieldsPosition obj vc attr profile
     = Ok false).
Proof.
  intros Hown Hpv Hv Ht Hs.
  assert (Hc : compareWithVC fieldValues nameFieldsPosition obj vc attr profile
          = match assoc (toLowerCase s) values with
            | Some synonyms => Ok (existsb (String.eqb (toLowerCase a)) synonyms)
            | None => Throw TypeError
            end).
  { unfold compareWithVC. rewrite Hown. cbn [bind]. rewrite Hpv. cbn [bind].
    rewrite Hv. cbn [bind]. rewrite Ht. cbn [bind]. rewrite Hs.
    cbn [bind orUndefined lowerOf].
    destruct (assoc (toLowerCase s) values); reflexivity. }
  split; [exact Hc | ].
  intros synonyms Ha Hup. rewrite Hc, Ha. f_equal.
  apply existsb_never. intros x Hx. apply String.eqb_neq.
  intros Heq. apply (Hup x Hx). rewrite <- Heq.
  apply toLowerCase_idempotent.
Qed.

Lemma strictEq_string (x : JSValue) (t : string) :
  strictEq x (JStr t) = true <-> x = JStr t.
Proof.
  destruct x; simpl; split; intros H; try discriminate H.
  - apply String.eqb_eq in H. now subst.
  - injection H as ->. apply String.eqb_refl.
Qed.

Lemma firstFormat_truthy (a t : string) :
  firstFormat a formats = JStr t -> truthy (JStr t) = true.
Proof.
  intros H. destruct (firstFormat_shape a t H)
    as (sep & d1 & d2 & m1 & m2 & y1 & y2 & y3 & y4 & _ & _ & ->).
  reflexivity.
Qed.

(** X22.  For dob (without an equivalence table) a value that is not a
    string raises a TypeError, and a string confirms the attribute exactly
    when its normalised form is, character for character, the stored
    value.  The stored value is not normalised: unless it is a string
    written year first (YYYY-MM-DD or YYYY/MM/DD), no document confirms
    it. *)
Theorem dob_is_compared_as_text
    (fieldValues : list (string * list (string * list string)))
    (nameFieldsPosition : list (string * list (string * Z)))
    (obj : Variant) (vc : VC) (profile : list (string * JSValue))
    (pv : option string) (av : JSValue) (stored : option JSValue) :
  ownLookup "dob" (v_fields obj) = Ok pv ->
  getAttributeValue vc pv = Ok av ->
  ownLookup "dob" fieldValues = Ok None ->
  ownLookup "dob" profile = Ok stored ->
  ((forall a, av <> JStr a) ->
   compareWithVC fieldValues nameFieldsPosition obj vc "dob" profile
   = Throw TypeError) /\
  (compareWithVC fieldValues nameFieldsPosition obj vc "dob" profile = Ok true
   <-> exists a t,
         av = JStr a /\
         parseToStandardFormat (JStr a) = Ok (JStr t) /\
         stored = Some (JStr t)) /\
  (compareWithVC fieldValues nameFieldsPosition obj vc "dob" profile = Ok true ->
   exists t, stored = Some (JStr t) /\
             (instanceOf yearFirstHyphen t \/ instanceOf yearFirstSlash t)).
Proof.
  intros Hpv Hv Ht Hs.
  assert (Hc : compareWithVC fieldValues nameFieldsPosition obj vc "dob" profile
          = (standardDate <- parseToStandardFormat av ;;
             if truthy standardDate
             then Ok (strictEq (orUndefined stored) standardDate)
             else Ok false)).
  { unfold compareWithVC. rewrite Hpv. cbn [bind].
    change (isNameAttribute "dob") with false. cbn [andb bind].
    rewrite Hv. cbn [bind]. rewrite Ht. cbn [bind].
    change (String.eqb "dob" "dob") with true. cbv iota.
    destruct (parseToStandardFormat av) as [sd | | ]; cbn [bind];
      try reflexivity.
    destruct (truthy sd); [ | reflexivity]. now rewrite Hs. }
  assert (Hiff :
    compareWithVC fieldValues nameFieldsPosition obj vc "dob" profile = Ok true
    <-> exists a t,
          av = JStr a /\
          parseToStandardFormat (JStr a) = Ok (JStr t) /\
          stored = Some (JStr t)).
  { rewrite Hc. split.
    - intros H. destruct av as [ | | b | n | a | l | o]; try discriminate H.
      cbn [bind parseToStandardFormat] in H.
      destruct (firstFormat_null_or_string a) as [E | (t & E)];
        rewrite E in H; [discriminate H | ].
      rewrite (firstFormat_truthy a t E) in H. injection H as H.
      apply strictEq_string in H. exists a, t.
      cbn [parseToStandardFormat]. rewrite E.
      split; [reflexivity | split; [reflexivity | ]].
      destruct stored as [x | ]; simpl in H; [now subst | discriminate H].
    - intros (a & t & -> & Hp & ->). rewrite Hp. cbn [bind].
      cbn [parseToStandardFormat] in Hp. injection Hp as Hp.
      rewrite (firstFormat_truthy a t Hp). simpl.
      now rewrite String.eqb_refl. }
  split; [ | split; [exact Hiff | ]].
  - intros Hns. rewrite Hc. destruct av; try reflexivity. now destruct (Hns s).
  - intros H. apply Hiff in H. destruct H as (a & t & _ & Hp & ->).
    exists t. split; [reflexivity | ].
    cbn [parseToStandardFormat] in Hp. injection Hp as Hp.
    destruct (firstFormat_shape a t Hp)
      as (sep & d1 & d2 & m1 & m2 & y1 & y2 & y3 & y4 & Hsep & Hd & ->).
    destruct Hsep as [-> | ->]; [left | right];
      now apply (yearFirst_instance _ d1 d2 m1 m2 y1 y2 y3 y4).
Qed.

(* ===================================================================== *)
(** ** The further properties at sample inputs *)
(* ===================================================================== *)

Lemma getValue_returns_on_plain_paths_witness :
  (exists v,
      getValue Samples.aadhaarRavi (Some "credentialSubject.name.first.0")
      = Ok v /\ v <> JUndefined) /\
  getValue Samples.aadhaarRavi (Some "credentialSubject.name.first.0")
    = Ok JNull.
Proof.
  split; [ | reflexivity].
  apply (proj2 (proj2 (getValue_returns_on_plain_paths Samples.aadhaarRavi))
           "credentialSubject.name.first.0").
  reflexivity.
Defined.

Lemma getValue_composes_witness :
  getValue Samples.aadhaarRavi (Some "credentialSubject.name")
    = (v <- getValue Samples.aadhaarRavi (Some "credentialSubject") ;;
       reduce getValueStep (split "." "name") v) /\
  getValue Samples.aadhaarRavi (Some "credentialSubject.gender.code")
    = Ok JNull.
Proof.
  split.
  - apply (proj1 (getValue_composes Samples.aadhaarRavi
                    "credentialSubject" "name" ltac:(discriminate))).
  - apply (proj2 (getValue_composes Samples.aadhaarRavi
                    "credentialSubject.gender" "code" ltac:(discriminate))
             JNull); reflexivity.
Defined.

Lemma resolvers_agree_witness :
  (getValue (Samples.marksheetDob "08-05-2003")
     (Some "credentialSubject.studentDob") = Ok (JStr "08-05-2003")
   <-> getAttributeValue (Samples.marksheetDob "08-05-2003")
         (Some "credentialSubject.studentDob") = Ok (JStr "08-05-2003")) /\
  exists w,
    getValue (Samples.marksheetDob "08-05-2003")
      (Some "credentialSubject.birthDate") = Ok w /\
    truthy w = truthy JUndefined /\ w <> JUndefined.
Proof.
  split.
  - apply (proj1 (resolvers_agree (Samples.marksheetDob "08-05-2003")
                    "credentialSubject.studentDob" eq_refl
                    ltac:(discriminate))).
    reflexivity.
  - apply (proj2 (resolvers_agree (Samples.marksheetDob "08-05-2003")
                    "credentialSubject.birthDate" eq_refl
                    ltac:(discriminate))).
    reflexivity.
Defined.

Lemma disabilityType_slug_witness :
  (handleDisabilityTypeField
     (MoreSamples.disabilityDoc (JStr " Locomotor Disability - Both Legs "))
     MoreSamples.disabilityPath
   = Ok (JStr "locomotor_disability_both_legs") /\
   slugOf "locomotor_disability_both_legs" = "locomotor_disability_both_legs")
  /\
  handleDisabilityTypeField (MoreSamples.disabilityDoc (JStr ""))
    MoreSamples.disabilityPath = Ok JNull /\
  handleDisabilityTypeField (MoreSamples.disabilityDoc (JNum 40))
    MoreSamples.disabilityPath = Throw TypeError.
Proof.
  split; [ | split].
  - destruct (proj1 (disabilityType_slug
                       (MoreSamples.disabilityDoc
                          (JStr " Locomotor Disability - Both Legs "))
                       MoreSamples.disabilityPath)
                " Locomotor Disability - Both Legs " eq_refl
                ltac:(discriminate)) as (H1 & _ & _ & H4).
    split; [exact H1 | exact H4].
  - apply (proj1 (proj2 (disabilityType_slug
                           (MoreSamples.disabilityDoc (JStr ""))
                           MoreSamples.disabilityPath)) (JStr ""));
      reflexivity.
  - apply (proj2 (proj2 (disabilityType_slug
                           (MoreSamples.disabilityDoc (JNum 40))
                           MoreSamples.disabilityPath)) (JNum 40));
      [reflexivity | reflexivity | discriminate].
Defined.

Lemma class_field_on_strings_witness :
  (romanToInt "vii" = nan /\
   handleClassField (MoreSamples.classDoc (JStr "vii")) MoreSamples.classPath
   = Ok (JStr "vii")) /\
  handleClassField (MoreSamples.classDoc (JStr "VII")) MoreSamples.classPath
  = Ok (JNum 7).
Proof.
  split.
  - apply (proj1 (class_field_on_strings
                    (MoreSamples.classDoc (JStr "vii")) MoreSamples.classPath
                    "vii" eq_refl)).
    reflexivity.
  - apply (proj2 (class_field_on_strings
                    (MoreSamples.classDoc (JStr "VII")) MoreSamples.classPath
                    "VII" eq_refl)).
    + simpl. lia.
    + reflexivity.
Defined.

Lemma income_of_grouped_digits_witness :
  handleIncomeValue (Samples.incomeDoc (JStr "12,34,567")) Samples.incomePath
    = Ok (JNum 1234567) /\
  handleIncomeValue (Samples.incomeDoc (JStr ", ")) Samples.incomePath
    = Ok (JNum 0).
Proof.
  split.
  - apply (proj1 (income_of_grouped_digits
                    (Samples.incomeDoc (JStr "12,34,567")) Samples.incomePath
                    "12,34,567" eq_refl eq_refl ltac:(simpl; lia))).
  - apply (proj2 (income_of_grouped_digits
                    (Samples.incomeDoc (JStr ", ")) Samples.incomePath
                    ", " eq_refl eq_refl ltac:(simpl; lia))).
    reflexivity.
Defined.

Lemma sample_fields_distinct : NoDup (map fst Samples.profileFields).
Proof. repeat constructor; simpl; intuition discriminate. Defined.

Lemma provenance_explains_value_witness :
  exists v docs,
    assoc "gender" (userProfile MoreSamples.builtSecond) = Some v /\
    assoc "gender" (validationData MoreSamples.builtSecond) = Some docs /\
    ((docs = [] /\ truthy v = false) \/
     (exists d vc,
         docs = [d] /\ In d Samples.genderCandidates /\
         findByDocType d Samples.vcsSecondAnswers = Some vc /\
         getFieldValueFromVC Samples.rejectingDate Samples.vcPathsFile
           vc "gender" = Ok v /\
         truthy v = true)).
Proof.
  apply (provenance_explains_value Samples.rejectingDate Samples.vcPathsFile
           Samples.profileFields Samples.vcsSecondAnswers
           MoreSamples.builtSecond sample_fields_distinct eq_refl).
  simpl. tauto.
Defined.

Lemma profile_lists_configured_fields_witness :
  map fst (userProfile MoreSamples.builtSecond)
    = map fst Samples.profileFields /\
  map fst (validationData MoreSamples.builtSecond)
    = map fst Samples.profileFields.
Proof.
  apply (profile_lists_configured_fields
           Samples.rejectingDate Samples.vcPathsFile
           Samples.profileFields Samples.vcsSecondAnswers
           MoreSamples.builtSecond sample_fields_distinct eq_refl).
Defined.

Lemma no_candidate_document_gives_nulls_witness :
  buildProfile Samples.rejectingDate (fun _ => None) Samples.profileFields
    [MoreSamples.passport]
  = Ok (mkProfile (map (fun fc => (fst fc, JNull)) Samples.profileFields)
                  (map (fun fc => (fst fc, [])) Samples.profileFields)).
Proof.
  apply (no_candidate_document_gives_nulls
           Samples.rejectingDate (fun _ => None) Samples.profileFields
           [MoreSamples.passport] sample_fields_distinct).
  constructor; [reflexivity | constructor].
Defined.

Lemma other_documents_are_ignored_witness :
  buildProfile Samples.rejectingDate Samples.vcPathsFile Samples.profileFields
    (MoreSamples.passport :: Samples.vcsSecondAnswers)
  = buildProfile Samples.rejectingDate Samples.vcPathsFile
      Samples.profileFields Samples.vcsSecondAnswers.
Proof.
  apply (proj1 (other_documents_are_ignored
                  Samples.rejectingDate Samples.vcPathsFile
                  Samples.profileFields Samples.vcsSecondAnswers)).
  intros d Hd. simpl in Hd.
  repeat (destruct Hd as [<- | Hd]; [reflexivity | ]). contradiction.
Defined.

Lemma missing_path_file_fails_build_witness :
  buildProfile Samples.rejectingDate Samples.vcPathsFile
    ([("gender", ["aadhaar"])]
     ++ ("dob", [] ++ "birthCertificate" :: ["aadhaar"]) :: [])
    [Samples.aadhaarMale; MoreSamples.birthCertificate]
  = Throw IOError.
Proof.
  apply (proj2 (missing_path_file_fails_build
                  Samples.rejectingDate Samples.vcPathsFile
                  [Samples.aadhaarMale; MoreSamples.birthCertificate]
                  [("gender", ["aadhaar"])] [] "dob" [] "birthCertificate"
                  ["aadhaar"] MoreSamples.birthCertificate
                  ltac:(constructor; [eexists; reflexivity | constructor])
                  (Forall_nil _) eq_refl)).
  reflexivity.
Defined.

Lemma profFilled_iff_every_field_has_provenance_witness :
  (Persistence.profFilled (userProfile MoreSamples.builtSecond) = true
   <-> Forall (fun kv => truthy (snd kv) = true)
         (userProfile MoreSamples.builtSecond)) /\
  (Persistence.profFilled (userProfile MoreSamples.builtSecond) = true
   <-> Forall (fun kd => snd kd <> []) (validationData MoreSamples.builtSecond)).
Proof.
  apply (profFilled_iff_every_field_has_provenance
           Samples.rejectingDate Samples.vcPathsFile
           Samples.profileFields Samples.vcsSecondAnswers
           MoreSamples.builtSecond sample_fields_distinct eq_refl).
Defined.

Lemma userInfo_numbers_or_null_witness :
  (exists userData userInfo,
      buildUserDataAndInfo MoreSamples.profileZeroIncome
      = Ok (userData, userInfo)) /\
  (exists x,
    assoc "annualIncome" (snd MoreSamples.rowsZeroIncome) = Some x /\
    (truthy (Persistence.prop MoreSamples.profileZeroIncome "annualIncome")
       = false -> x = JNull) /\
    (truthy (Persistence.prop MoreSamples.profileZeroIncome "annualIncome")
       = true ->
     exists n, x = JNum n /\
               Persistence.toNumber
                 (Persistence.prop MoreSamples.profileZeroIncome
                    "annualIncome") = Ok n) /\
    (forall n,
        Persistence.prop MoreSamples.profileZeroIncome "annualIncome" = JNum n ->
        truthy (JNum n) = true -> x = JNum n)) /\
  buildUserDataAndInfo MoreSamples.profileOddClass = Throw TypeError.
Proof.
  split; [ | split].
  - apply (proj1 (proj2 (userInfo_numbers_or_null
                           MoreSamples.profileZeroIncome))); reflexivity.
  - apply (proj1 (proj1 (proj2 (proj2 (userInfo_numbers_or_null
                                         MoreSamples.profileZeroIncome)))
                    (fst MoreSamples.rowsZeroIncome)
                    (snd MoreSamples.rowsZeroIncome) eq_refl)
             "annualIncome").
    now left.
  - apply (proj2 (proj2 (proj2 (userInfo_numbers_or_null
                                  MoreSamples.profileOddClass)))
             "class" [("toString", JStr "VII")]);
      [now right | reflexivity | discriminate].
Defined.

Lemma buildVCs_skips_unparseable_witness :
  buildVCs MoreSamples.parseTwo
    ([MoreSamples.goodDoc] ++ MoreSamples.badDoc :: [MoreSamples.parsedDoc])
  = ([mkVC "aadhaar" None None (JObj []);
      mkVC "marksheet" None None (Samples.subject [("class", JStr "VII")])],
     ["Invalid JSON format in doc d3:"]) /\
  buildVCs MoreSamples.parseTwo
    ([] ++ MoreSamples.goodDoc :: [MoreSamples.parsedDoc])
  = ([mkVC "aadhaar" None None (JObj []);
      mkVC "marksheet" None None (Samples.subject [("class", JStr "VII")])],
     []) /\
  buildVCs MoreSamples.parseTwo ([MoreSamples.goodDoc] ++ MoreSamples.parsedDoc :: [])
  = ([mkVC "aadhaar" None None (JObj []);
      mkVC "marksheet" None None (Samples.subject [("class", JStr "VII")])],
     []).
Proof.
  split; [ | split].
  - apply (proj1 (proj2 (proj2 (proj2
             (buildVCs_skips_unparseable MoreSamples.parseTwo
                [MoreSamples.goodDoc] [MoreSamples.parsedDoc]))))
             MoreSamples.badDoc "{annualIncome:"); reflexivity.
  - apply (proj1 (proj2 (proj2 (proj2 (proj2
             (buildVCs_skips_unparseable MoreSamples.parseTwo
                [] [MoreSamples.parsedDoc])))))
             MoreSamples.goodDoc "{}" (JObj [])); reflexivity.
  - apply (proj2 (proj2 (proj2 (proj2 (proj2
             (buildVCs_skips_unparseable MoreSamples.parseTwo
                [MoreSamples.goodDoc] []))))) MoreSamples.parsedDoc).
    intros text. discriminate.
Defined.

Lemma parseToStandardFormat_reorders_witness :
  parseToStandardFormat (JStr "31-02-2003") = Ok (JStr "2003-02-31") /\
  parseToStandardFormat (JStr "31/02/2003") = Ok (JStr "2003-02-31") /\
  parseToStandardFormat (JStr "2003-02-31") = Ok (JStr "2003-02-31") /\
  parseToStandardFormat (JStr "2003/02/31") = Ok (JStr "2003/02/31").
Proof.
  apply (parseToStandardFormat_reorders "3" "1" "0" "2" "2" "0" "0" "3").
  unfold eightDigits. repeat constructor.
Defined.

Lemma parseToStandardFormat_idempotent_witness :
  (instanceOf yearFirstHyphen "2003-05-08"
   \/ instanceOf yearFirstSlash "2003-05-08") /\
  String.length "2003-05-08" = 10 /\
  parseToStandardFormat (JStr "2003-05-08") = Ok (JStr "2003-05-08").
Proof.
  apply (proj2 (proj2 parseToStandardFormat_idempotent)
           "born on 08/05/2003 in Pune" "2003-05-08").
  reflexivity.
Defined.

Lemma matchUserData_result_shape_witness :
  map attribute MoreSamples.matchedSecond = map fst Samples.profileDob /\
  List.length MoreSamples.matchedSecond = List.length Samples.profileDob /\
  Forall (fun r =>
            (verified r = true <-> docsUsed r <> []) /\
            incl (docsUsed r) (candidates Samples.config (attribute r)))
    MoreSamples.matchedSecond.
Proof.
  apply (matchUserData_result_shape
           Samples.fieldValues Samples.nameFieldsPosition
           Samples.docToFieldMaps Samples.config Samples.profileDob
           Samples.vcsSecondMatches MoreSamples.matchedSecond).
  reflexivity.
Defined.

Lemma no_typed_document_verifies_nothing_witness :
  matchUserData Samples.fieldValues Samples.nameFieldsPosition
    Samples.docToFieldMaps Samples.config Samples.profileDob
    [Samples.aadhaarRavi; MoreSamples.birthCertificate]
  = Ok (map unverified (map fst Samples.profileDob)).
Proof.
  apply (no_typed_document_verifies_nothing
           Samples.fieldValues Samples.nameFieldsPosition
           Samples.docToFieldMaps Samples.config Samples.profileDob
           [Samples.aadhaarRavi; MoreSamples.birthCertificate]).
  - repeat constructor.
  - intros attr [<- | []]. exists ["aadhaar"; "marksheet"].
    split; [reflexivity | ].
    intros f [<- | [<- | []]]; discriminate.
Defined.

Lemma matchUserData_rejects_as_a_whole_witness :
  matchUserData Samples.fieldValues Samples.nameFieldsPosition
    Samples.docToFieldMaps Samples.config MoreSamples.profileWithIncome
    Samples.vcsSecondMatches = Throw TypeError /\
  matchUserData Samples.fieldValues Samples.nameFieldsPosition
    Samples.docToFieldMaps MoreSamples.configWithPassport Samples.profileDob
    Samples.vcsSecondMatches = Throw IOError.
Proof.
  split.
  - apply (proj1 (matchUserData_rejects_as_a_whole
                    Samples.fieldValues Samples.nameFieldsPosition
                    Samples.docToFieldMaps Samples.config
                    MoreSamples.profileWithIncome Samples.vcsSecondMatches
                    ["dob"] "income" [] eq_refl
                    ltac:(constructor; [eexists; reflexivity | constructor]))).
    reflexivity.
  - apply (proj2 (proj2 (matchUserData_rejects_as_a_whole
                    Samples.fieldValues Samples.nameFieldsPosition
                    Samples.docToFieldMaps MoreSamples.configWithPassport
                    Samples.profileDob Samples.vcsSecondMatches
                    [] "dob" [] eq_refl (Forall_nil _)))
             ["marksheet"] "passport" ["aadhaar"]).
    + reflexivity.
    + constructor; [exists true; reflexivity | constructor].
    + reflexivity.
Defined.

Lemma non_json_document_confirms_only_null_witness :
  getAttributeValue MoreSamples.pdfDoc (Some "credentialSubject.givenName")
    = Ok JUndefined /\
  compareWithVC Samples.fieldValues Samples.nameFieldsPosition
    MoreSamples.pdfVariant MoreSamples.pdfDoc "firstName"
    MoreSamples.profileNoFirstName
  = Ok true.
Proof.
  destruct (non_json_document_confirms_only_null
              Samples.fieldValues Samples.nameFieldsPosition
              MoreSamples.pdfVariant MoreSamples.pdfDoc "firstName"
              MoreSamples.profileNoFirstName
              (Some "credentialSubject.givenName")
              (Some "credentialSubject.givenName") None (Some JNull)
              eq_refl eq_refl eq_refl eq_refl eq_refl) as (H1 & H2 & _).
  split; [exact H1 | exact H2].
Defined.

Lemma categorical_comparison_is_lower_case_witness :
  compareWithVC Samples.fieldValues Samples.nameFieldsPosition
    MoreSamples.casteVariant MoreSamples.casteScheduled "caste"
    Samples.profileSC
  = Ok true /\
  compareWithVC MoreSamples.fieldValuesCapitals Samples.nameFieldsPosition
    MoreSamples.casteVariant MoreSamples.casteScheduled "caste"
    Samples.profileSC
  = Ok false.
Proof.
  split.
  - apply (proj1 (categorical_comparison_is_lower_case
                    Samples.fieldValues Samples.nameFieldsPosition
                    MoreSamples.casteVariant MoreSamples.casteScheduled
                    "caste" Samples.profileSC
                    (Some "credentialSubject.caste")
                    (Some "credentialSubject.caste")
                    "Scheduled Caste" "SC"
                    [("sc", ["sc"; "scheduled caste"]);
                     ("obc", ["obc"; "other backward class"])]
                    eq_refl eq_refl eq_refl eq_refl eq_refl)).
  - apply (proj2 (categorical_comparison_is_lower_case
                    MoreSamples.fieldValuesCapitals Samples.nameFieldsPosition
                    MoreSamples.casteVariant MoreSamples.casteScheduled
                    "caste" Samples.profileSC
                    (Some "credentialSubject.caste")
                    (Some "credentialSubject.caste")
                    "Scheduled Caste" "SC"
                    [("sc", ["SC"; "Scheduled Caste"])]
                    eq_refl eq_refl eq_refl eq_refl eq_refl)
             ["SC"; "Scheduled Caste"] eq_refl).
    intros x [<- | [<- | []]]; discriminate.
Defined.

Lemma dob_is_compared_as_text_witness :
  compareWithVC Samples.fieldValues Samples.nameFieldsPosition
    MoreSamples.dobVariant (Samples.marksheetDob "08-05-2003") "dob"
    Samples.profileDob = Ok true /\
  exists t, Some (JStr "2003-05-08") = Some (JStr t) /\
            (instanceOf yearFirstHyphen t \/ instanceOf yearFirstSlash t).
Proof.
  destruct (dob_is_compared_as_text
              Samples.fieldValues Samples.nameFieldsPosition
              MoreSamples.dobVariant (Samples.marksheetDob "08-05-2003")
              Samples.profileDob (Some "credentialSubject.studentDob")
              (JStr "08-05-2003") (Some (JStr "2003-05-08"))
              eq_refl eq_refl eq_refl eq_refl) as (_ & Hiff & Hshape).
  assert (H : compareWithVC Samples.fieldValues Samples.nameFieldsPosition
                MoreSamples.dobVariant (Samples.marksheetDob "08-05-2003")
                "dob" Samples.profileDob = Ok true).
  { apply Hiff. exists "08-05-2003", "2003-05-08". repeat split. }
  split; [exact H | exact (Hshape H)].
Defined.
